(** * Personal-finance API: the transaction-to-balance engine

    A shallow embedding of the NestJS backend (entities, Prisma
    repositories, services) and the properties its design document
    states about it.

    Conventions of the embedding.
    - A stored amount or balance is an exact decimal with two fractional
      digits (columns DECIMAL(10,2) and DECIMAL(15,2)); it is held as the
      integer number of hundredths, so [balance = 100000] reads 1000.00.
      A column rounds what it is given to two digits and refuses what
      does not fit its precision.
    - The [amount] of a request is any JS number, held as the decimal it
      prints as.  A balance computed from it goes to the store and is
      rounded there; the sum or difference is taken exactly.  When both
      operands are whole hundredths within the range of the balance
      column, the double that JS computes is less than half a hundredth
      away from the exact result, so the stored balance is the exact one.
      [net] of the monthly totals goes out as computed: it is a double.
    - An id is a string, and the id of a stored row whenever a lookup
      finds it; the scenarios use short labels for the accounts.  The id
      columns are UUID: a string that is not a UUID makes [findUnique]
      throw, a case [findById] does not model; what is proved about
      absent ids is stated for well-formed ones ([Uuid.wellFormed]).
    - A [Date] is its ECMAScript time value: milliseconds since the epoch.
    - An [async] method is a function from the database to a result and
      the database it leaves behind.  A thrown exception keeps the writes
      made before it: the database is returned on both outcomes.
    - [new Date()] inside one call reads the clock once; the reading is the
      argument [now] of the method. *)

From stdpp Require Import gmap strings list fin_maps sorting.
From Stdlib Require Import ZArith Lia Floats Uint63.

Local Open Scope string_scope.
Local Open Scope Z_scope.

(** ** JavaScript values *)

(** [!!s] of an optional string: [undefined], [null] and [''] are falsy. *)
Definition truthy (o : option string) : bool :=
  match o with
  | Some s => negb (String.eqb s "")
  | None => false
  end.

(** [s || null] *)
Definition orNull (o : option string) : option string :=
  if truthy o then o else None.

(** [d || new Date()]: a Date object is always truthy. *)
Definition orNow (now : Z) (o : option Z) : Z :=
  match o with
  | Some d => d
  | None => now
  end.

(** ** Numbers *)

(** A JS number that is on its way to a DECIMAL column, as the decimal
    [digits / 10 ^ scale]; sums and differences are exact. *)
Module Number.
Record t := mk {
  digits : Z;
  scale : nat
}.

Definition unit (x : t) : Z := 10 ^ Z.of_nat (scale x).

(** [Number(d)] of a stored decimal [d], given in hundredths. *)
Definition ofHundredths (c : Z) : t := mk c 2.

Definition add (x y : t) : t :=
  mk (digits x * unit y + digits y * unit x) (scale x + scale y).

Definition sub (x y : t) : t :=
  mk (digits x * unit y - digits y * unit x) (scale x + scale y).

(** [x] is the whole number [c] of hundredths. *)
Definition isHundredths (x : t) (c : Z) : Prop :=
  digits x * 100 = c * unit x.
End Number.

(** Columns of type DECIMAL(precision, 2). *)
Module Column.
(** [n / d] rounded to the nearest integer, a tie away from zero. *)
Definition round (n d : Z) : Z :=
  Z.sgn n * ((2 * Z.abs n + d) / (2 * d)).

(** The value the column stores for [x], in hundredths. *)
Definition hundredths (x : Number.t) : Z :=
  round (Number.digits x * 100) (Number.unit x).

(** The column holds [precision - 2] digits before the point. *)
Definition holds (precision c : Z) : bool := Z.abs c <? 10 ^ precision.

(** Writing [x]: the rounded value, or [None] for "numeric field
    overflow". *)
Definition decimal (precision : Z) (x : Number.t) : option Z :=
  if holds precision (hundredths x) then Some (hundredths x) else None.
End Column.

(** Doubles that are handed out as computed. *)
Module Double.
(** [n / d] rounded to the nearest integer, a tie to the even one
    ([0 <= n], [0 < d]). *)
Definition roundHalfEven (n d : Z) : Z :=
  let q := n / d in
  let r := n mod d in
  if 2 * r <? d then q
  else if d <? 2 * r then q + 1
  else if Z.even q then q else q + 1.

(** The double nearest to [n / 100], for [0 < n]: a 53-bit significand
    [m] and the exponent [e] with [m * 2 ^ e] nearest. *)
Definition nearest (n : Z) : float :=
  let e0 := Z.log2 n - 58 in
  let e := if n * 64 <? 100 * 2 ^ Z.log2 n then e0 - 1 else e0 in
  let m := if 0 <=? e then roundHalfEven n (100 * 2 ^ e)
           else roundHalfEven (n * 2 ^ (- e)) 100 in
  Z.ldexp (PrimFloat.of_uint63 (Uint63.of_Z m)) e.

(** [Number(d)] of a decimal [d] read from the store, in hundredths. *)
Definition ofHundredths (c : Z) : float :=
  match c with
  | 0 => 0%float
  | Zpos _ => nearest c
  | Zneg _ => PrimFloat.opp (nearest (- c))
  end.

(** [Number(a) - Number(b)] *)
Definition minus (a b : Z) : float :=
  PrimFloat.sub (ofHundredths a) (ofHundredths b).
End Double.

(** Ids.  The id columns are of type UUID. *)
Module Uuid.
Definition isHex (c : Ascii.ascii) : bool :=
  let n := Ascii.nat_of_ascii c in
  ((48 <=? n) && (n <=? 57) || (97 <=? n) && (n <=? 102)
   || (65 <=? n) && (n <=? 70))%nat.

(** [s] is [count] hexadecimal digits followed by [rest]. *)
Fixpoint hexRun (count : nat) (s : string) : option string :=
  match count, s with
  | O, _ => Some s
  | S count, String c rest => if isHex c then hexRun count rest else None
  | S _, EmptyString => None
  end.

Definition dash (s : string) : option string :=
  match s with
  | String c rest =>
      if (Ascii.nat_of_ascii c =? 45)%nat then Some rest else None
  | EmptyString => None
  end.

(** [s] is made of groups of hexadecimal digits of the given lengths with
    a hyphen between two groups. *)
Fixpoint groups (lengths : list nat) (s : string) : bool :=
  match lengths with
  | [] => false
  | [n] =>
      match hexRun n s with
      | Some EmptyString => true
      | _ => false
      end
  | n :: lengths =>
      match hexRun n s with
      | Some rest =>
          match dash rest with
          | Some rest => groups lengths rest
          | None => false
          end
      | None => false
      end
  end.

(** The canonical text of a UUID: 8, 4, 4, 4 and 12 hexadecimal digits. *)
Definition wellFormed (s : string) : bool :=
  groups [8; 4; 4; 4; 12]%nat s.
End Uuid.

(** ** Entities *)

Inductive AccountType := CHECKING | SAVINGS | CREDIT | CASH.
Inductive Currency := RSD | EUR | USD.
Inductive TransactionType := INCOME | EXPENSE | TRANSFER.
Inductive CategoryType := CAT_INCOME | CAT_EXPENSE | CAT_BLANK.

#[global] Instance AccountType_eq_dec : EqDecision AccountType.
Proof. solve_decision. Defined.
#[global] Instance Currency_eq_dec : EqDecision Currency.
Proof. solve_decision. Defined.
#[global] Instance TransactionType_eq_dec : EqDecision TransactionType.
Proof. solve_decision. Defined.
#[global] Instance CategoryType_eq_dec : EqDecision CategoryType.
Proof. solve_decision. Defined.

(** src/entities/account.entity.ts *)
Module Account.
Record t := mk {
  id : string;
  userId : string;
  name : string;
  accountType : AccountType;
  currency : Currency;
  balance : Z;
  bankName : option string;
  accountNumber : option string;
  isActive : bool;
  createdAt : Z;
  updatedAt : Z
}.

(** [getBalance()]: the balance as a JS number. *)
Definition getBalance (a : t) : Number.t := Number.ofHundredths (balance a).

Definition isOwnedBy (a : t) (user : string) : bool :=
  String.eqb (userId a) user.

(** [updateBalance(newBalance)]: throws [Error(message)] ([inl]) when a
    non-credit account would go negative, else the rebuilt entity. *)
Definition updateBalance (now : Z) (a : t) (newBalance : Z) : string + t :=
  if (newBalance <? 0) && negb (bool_decide (accountType a = CREDIT))
  then inl "Non-credit accounts cannot have negative balance"
  else inr (mk (id a) (userId a) (name a) (accountType a) (currency a)
               newBalance (bankName a) (accountNumber a) (isActive a)
               (createdAt a) now).

(** [deactivate()] and [activate()]: the entity rebuilt with the flag set
    and a new [updatedAt]. *)
Definition deactivate (now : Z) (a : t) : t :=
  mk (id a) (userId a) (name a) (accountType a) (currency a) (balance a)
     (bankName a) (accountNumber a) false (createdAt a) now.

Definition activate (now : Z) (a : t) : t :=
  mk (id a) (userId a) (name a) (accountType a) (currency a) (balance a)
     (bankName a) (accountNumber a) true (createdAt a) now.

(** The object literal [Account.create] returns ([CreateAccountData] of the
    repository). *)
Record data := mkData {
  d_userId : string;
  d_name : string;
  d_accountType : AccountType;
  d_currency : Currency;
  d_balance : Z;
  d_bankName : option string;
  d_accountNumber : option string
}.

(** [s?.trim() || null]; [trim] is [String.prototype.trim]. *)
Definition trimOrNull (trim : string -> string) (o : option string)
    : option string :=
  match o with
  | Some s => orNull (Some (trim s))
  | None => None
  end.

Definition create (trim : string -> string) (userId name : string)
    (accountType : AccountType) (currency : Currency) (initialBalance : Z)
    (bankName accountNumber : option string) : data :=
  {| d_userId := userId;
     d_name := trim name;
     d_accountType := accountType;
     d_currency := currency;
     d_balance := initialBalance;
     d_bankName := trimOrNull trim bankName;
     d_accountNumber := trimOrNull trim accountNumber |}.


End Account.

(** src/entities/transaction.entity.ts *)
Module Transaction.
Record t := mk {
  id : string;
  userId : string;
  accountId : string;
  categoryId : option string;
  type : TransactionType;
  amount : Z;
  description : string;
  transactionDate : Z;
  createdAt : Z;
  updatedAt : Z;
  toAccountId : option string;
  fromAccountId : option string
}.

(** The object literal [Transaction.create] returns
    ([CreateTransactionData] of the repository). *)
Record data := mkData {
  d_userId : string;
  d_accountId : string;
  d_categoryId : option string;
  d_type : TransactionType;
  d_amount : Number.t;
  d_description : string;
  d_transactionDate : Z;
  d_toAccountId : option string;
  d_fromAccountId : option string
}.

Definition create (now : Z) (userId accountId : string)
    (type : TransactionType) (amount : Number.t) (description : string)
    (categoryId : option string) (transactionDate : option Z)
    (toAccountId : option string) : data :=
  {| d_userId := userId;
     d_accountId := accountId;
     d_categoryId := orNull categoryId;
     d_type := type;
     d_amount := amount;
     d_description := description;
     d_transactionDate := orNow now transactionDate;
     d_toAccountId :=
       if bool_decide (type = TRANSFER) then orNull toAccountId else None;
     d_fromAccountId :=
       if bool_decide (type = TRANSFER) then Some accountId else None |}.

Definition isExpense (x : t) : bool := bool_decide (type x = EXPENSE).
Definition isIncome (x : t) : bool := bool_decide (type x = INCOME).
Definition isTransfer (x : t) : bool := bool_decide (type x = TRANSFER).

Definition isOwnedBy (x : t) (user : string) : bool :=
  String.eqb (userId x) user.
End Transaction.

(** src/entities/category.entity.ts.  The [type] column is TEXT; the
    service's soft delete writes [''] into it, which is [CAT_BLANK]. *)
Module Category.
Record t := mk {
  id : string;
  userId : string;
  name : string;
  type : CategoryType;
  icon : option string;
  color : option string;
  isActive : bool;
  createdAt : Z;
  updatedAt : Z
}.

Definition isOwnedBy (c : t) (user : string) : bool :=
  String.eqb (userId c) user.
End Category.

(** ** The database and the type of async methods *)

(** The three tables the services reach through [PrismaService], keyed by
    primary key, and the ids of the [users] table (only foreign keys use
    it). *)
Record Database := mkDatabase {
  accounts : gmap string Account.t;
  transactions : gmap string Transaction.t;
  categories : gmap string Category.t;
  users : gset string
}.

Definition withAccounts (db : Database) (a : gmap string Account.t) :=
  mkDatabase a (transactions db) (categories db) (users db).
Definition withTransactions (db : Database) (x : gmap string Transaction.t) :=
  mkDatabase (accounts db) x (categories db) (users db).
Definition withCategories (db : Database) (c : gmap string Category.t) :=
  mkDatabase (accounts db) (transactions db) c (users db).

(** What a method can throw: the three HTTP exceptions of the services,
    and the errors of the Prisma client that reach them: a refused write
    (code P2003: a foreign key fails; code P2020: a value is out of range
    for its column), a refused argument (an Invalid Date in a filter), and
    a Date the store cannot take, an error of the client whose class no
    service looks at. *)
Inductive Exception :=
| NotFoundException (message : string)
| ForbiddenException (message : string)
| BadRequestException (message : string)
| PrismaClientKnownRequestError (code : string)
| PrismaClientValidationError
| PrismaClientError.

Inductive Result (A : Type) :=
| Ok (a : A)
| Throw (e : Exception).
Arguments Ok {A} a.
Arguments Throw {A} e.

Definition Promise (A : Type) : Type := Database -> Result A * Database.

Definition ret {A} (a : A) : Promise A := fun db => (Ok a, db).
Definition throw {A} (e : Exception) : Promise A := fun db => (Throw e, db).
Definition bind {A B} (m : Promise A) (k : A -> Promise B) : Promise B :=
  fun db =>
    match m db with
    | (Ok a, db') => k a db'
    | (Throw e, db') => (Throw e, db')
    end.

Declare Scope promise_scope.
Delimit Scope promise_scope with promise.
Notation "x <- m ;; k" := (bind m (fun x => k))
  (at level 20, m at level 99, k at level 200, only parsing) : promise_scope.
Notation "m ;; k" := (bind m (fun _ => k))
  (at level 100, k at level 200, only parsing, right associativity)
  : promise_scope.
Local Open Scope promise_scope.

(** The error kinds of the design document, as the exceptions that carry
    them over HTTP. *)
Definition isNotFound (e : Exception) : Prop :=
  match e with NotFoundException _ => True | _ => False end.
Definition isAccessDenied (e : Exception) : Prop :=
  match e with ForbiddenException _ => True | _ => False end.
Definition isInvalidBalanceOperation (e : Exception) : Prop :=
  e = BadRequestException "Non-credit accounts cannot have negative balance".

(** ** ECMAScript dates

    The abstract operations of the language standard that
    [new Date(year, monthIndex, day, hours, minutes, seconds)] runs.  A
    Date object is [Some t] for the time value [t], or [None] for an
    Invalid Date.  [UTC] is the host's map from a local time to a time
    value. *)
Module Date.
Definition msPerDay : Z := 86400000.

Definition DayFromYear (y : Z) : Z :=
  365 * (y - 1970) + (y - 1969) / 4 - (y - 1901) / 100 + (y - 1601) / 400.

Definition DaysInYear (y : Z) : Z :=
  if negb (y mod 4 =? 0) then 365
  else if negb (y mod 100 =? 0) then 366
  else if negb (y mod 400 =? 0) then 365
  else 366.

Definition InLeapYear (y : Z) : Z :=
  if DaysInYear y =? 366 then 1 else 0.

(** Day within the year on which month [mn] (0 = January) begins. *)
Definition MonthStart (mn leap : Z) : Z :=
  match mn with
  | 0 => 0
  | 1 => 31
  | 2 => 59 + leap
  | 3 => 90 + leap
  | 4 => 120 + leap
  | 5 => 151 + leap
  | 6 => 181 + leap
  | 7 => 212 + leap
  | 8 => 243 + leap
  | 9 => 273 + leap
  | 10 => 304 + leap
  | _ => 334 + leap
  end.

Definition MakeTime (hour min sec ms : Z) : Z :=
  hour * 3600000 + min * 60000 + sec * 1000 + ms.

Definition MakeDay (year month date : Z) : Z :=
  let ym := year + month / 12 in
  let mn := month mod 12 in
  DayFromYear ym + MonthStart mn (InLeapYear ym) + date - 1.

Definition MakeDate (day time : Z) : Z := day * msPerDay + time.

Definition TimeClip (time : Z) : option Z :=
  if Z.abs time <=? 8640000000000000 then Some time else None.

(** [new Date(year, monthIndex, day, hours, minutes, seconds)]: a year
    from 0 to 99 stands for 1900 + year. *)
Definition construct (UTC : Z -> Z)
    (year monthIndex day hours minutes seconds : Z) : option Z :=
  let yr := if (0 <=? year) && (year <=? 99) then 1900 + year else year in
  TimeClip (UTC (MakeDate (MakeDay yr monthIndex day)
                          (MakeTime hours minutes seconds 0))).

(** The time values the store takes, in a row or in a query: those of the
    years 0001 to 9999, from 0001-01-01T00:00:00.000Z to
    9999-12-31T23:59:59.999Z. *)
Definition storable (t : Z) : bool :=
  (-62135596800000 <=? t) && (t <=? 253402300799999).
End Date.

(** ** Repositories (src/repositories/implementations)

    The foreign keys, the unique index and the DECIMAL columns of the
    migration are part of the model: a Prisma write that breaks a key or
    overflows a column throws.  [update], [updateBalance] and [delete]
    catch every error of the write and answer [null] or [false]; [save]
    has no handler. *)

Module AccountRepo.
(** [UpdateAccountData]: an absent field is [None]. *)
Record UpdateAccountData := mkUpdate {
  u_name : option string;
  u_bankName : option string;
  u_accountNumber : option string;
  u_isActive : option bool
}.

(** [prisma.account.findUnique({ where: { id } })] for an id the UUID
    column can hold: the row, or [null].  A string that is no UUID makes
    the call throw; that case is left out (see the conventions above). *)
Definition findById (id : string) : Promise (option Account.t) :=
  fun db => (Ok (accounts db !! id), db).

Definition update (now : Z) (id : string) (updateData : UpdateAccountData)
    : Promise (option Account.t) :=
  fun db =>
    match accounts db !! id with
    | Some a =>
        let a' :=
          Account.mk (Account.id a) (Account.userId a)
            (default (Account.name a) (u_name updateData))
            (Account.accountType a) (Account.currency a)
            (Account.balance a)
            (match u_bankName updateData with
             | Some b => Some b
             | None => Account.bankName a
             end)
            (match u_accountNumber updateData with
             | Some n => Some n
             | None => Account.accountNumber a
             end)
            (default (Account.isActive a) (u_isActive updateData))
            (Account.createdAt a) now in
        (Ok (Some a'), withAccounts db (<[id := a']> (accounts db)))
    | None => (Ok None, db)
    end.

(** [prisma.account.update({ where: { id }, data: { balance, updatedAt }
    })] inside [try]: the column [balance DECIMAL(15,2)] rounds the new
    balance to two digits; a missing row or a balance the column does not
    hold gives [null], and nothing is written. *)
Definition updateBalance (now : Z) (id : string) (newBalance : Number.t)
    : Promise (option Account.t) :=
  fun db =>
    match accounts db !! id, Column.decimal 15 newBalance with
    | Some a, Some balance =>
        let a' :=
          Account.mk (Account.id a) (Account.userId a) (Account.name a)
            (Account.accountType a) (Account.currency a) balance
            (Account.bankName a) (Account.accountNumber a)
            (Account.isActive a) (Account.createdAt a) now in
        (Ok (Some a'), withAccounts db (<[id := a']> (accounts db)))
    | _, _ => (Ok None, db)
    end.

(** [count({ userId, name, isActive: true, id: { not: excludeId } }) > 0];
    the [id] condition is there only for a truthy [excludeId]. *)
Definition existsByUserIdAndName (userId name : string)
    (excludeId : option string) : Promise bool :=
  fun db =>
    let hit (kv : string * Account.t) : bool :=
      String.eqb (Account.userId kv.2) userId
      && String.eqb (Account.name kv.2) name
      && Account.isActive kv.2
      && (if truthy excludeId
          then negb (bool_decide (Some kv.1 = excludeId))
          else true) in
    (Ok (0 <? Z.of_nat (length (List.filter hit
                                  (map_to_list (accounts db))))),
     db).

(** [prisma.account.create]: a fresh primary key, [isActive] by its column
    default; the insert throws P2020 when the balance does not fit
    [DECIMAL(15,2)], and P2003 when [userId] is no user
    ([accounts_user_id_fkey]). *)
Definition save (now : Z) (accountData : Account.data) : Promise Account.t :=
  fun db =>
    if negb (Column.holds 15 (Account.d_balance accountData)) then
      (Throw (PrismaClientKnownRequestError "P2020"), db)
    else if bool_decide (Account.d_userId accountData ∈ users db) then
      let id := fresh (dom (accounts db)) in
      let row :=
        Account.mk id (Account.d_userId accountData)
          (Account.d_name accountData) (Account.d_accountType accountData)
          (Account.d_currency accountData) (Account.d_balance accountData)
          (Account.d_bankName accountData)
          (Account.d_accountNumber accountData) true now now in
      (Ok row, withAccounts db (<[id := row]> (accounts db)))
    else (Throw (PrismaClientKnownRequestError "P2003"), db).

(** [orderBy: { createdAt: 'asc' }] *)
Definition olderFirst (a b : Account.t) : Prop :=
  Account.createdAt a <= Account.createdAt b.

#[global] Instance olderFirst_dec : RelDecision olderFirst.
Proof. intros a b. unfold olderFirst. apply _. Defined.

(** [orderBy: [{ isActive: 'desc' }, { createdAt: 'asc' }]] *)
Definition activeThenOlderFirst (a b : Account.t) : Prop :=
  (Account.isActive a = true /\ Account.isActive b = false)
  \/ (Account.isActive a = Account.isActive b
      /\ Account.createdAt a <= Account.createdAt b).

#[global] Instance activeThenOlderFirst_dec : RelDecision activeThenOlderFirst.
Proof. intros a b. unfold activeThenOlderFirst. apply _. Defined.

(** Rows with equal sort keys come in the order of the sort used here. *)
Definition findByUserId (userId : string) : Promise (list Account.t) :=
  fun db =>
    (Ok (merge_sort activeThenOlderFirst
           (List.filter (fun a => String.eqb (Account.userId a) userId)
              (map_to_list (accounts db)).*2)),
     db).

Definition findActiveByUserId (userId : string) : Promise (list Account.t) :=
  fun db =>
    (Ok (merge_sort olderFirst
           (List.filter
              (fun a => String.eqb (Account.userId a) userId
                        && Account.isActive a)
              (map_to_list (accounts db)).*2)),
     db).



Definition countByUserId (userId : string) : Promise Z :=
  fun db =>
    (Ok (Z.of_nat
           (length
              (List.filter
                 (fun a => String.eqb (Account.userId a) userId
                           && Account.isActive a)
                 (map_to_list (accounts db)).*2))),
     db).
End AccountRepo.

Module TransactionRepo.
(** [UpdateTransactionData]: an absent field is [None]. *)
Record UpdateTransactionData := mkUpdate {
  u_categoryId : option string;
  u_description : option string;
  u_transactionDate : option Z
}.

(** The foreign key [Transaction_categoryId_fkey]. *)
Definition categoryKeyHolds (db : Database) (c : option string) : bool :=
  match c with
  | Some k => bool_decide (is_Some (categories db !! k))
  | None => true
  end.

(** [prisma.transaction.create]: the row gets a fresh primary key and
    the column [amount DECIMAL(10,2)] rounds the amount to two digits.
    The call throws when the store cannot take the date, P2020 when the
    amount does not fit the column, and P2003 when a foreign key
    ([userId], [accountId], [categoryId]) points at no row. *)
Definition save (now : Z) (data : Transaction.data)
    : Promise Transaction.t :=
  fun db =>
    if negb (Date.storable (Transaction.d_transactionDate data)) then
      (Throw PrismaClientError, db)
    else
      match Column.decimal 10 (Transaction.d_amount data) with
      | None => (Throw (PrismaClientKnownRequestError "P2020"), db)
      | Some amount =>
          if bool_decide (Transaction.d_userId data ∈ users db)
             && bool_decide
                  (is_Some (accounts db !! Transaction.d_accountId data))
             && categoryKeyHolds db (Transaction.d_categoryId data)
          then
            let id := fresh (dom (transactions db)) in
            let row :=
              Transaction.mk id (Transaction.d_userId data)
                (Transaction.d_accountId data)
                (Transaction.d_categoryId data)
                (Transaction.d_type data) amount
                (Transaction.d_description data)
                (Transaction.d_transactionDate data) now now
                (Transaction.d_toAccountId data)
                (Transaction.d_fromAccountId data) in
            (Ok row, withTransactions db (<[id := row]> (transactions db)))
          else (Throw (PrismaClientKnownRequestError "P2003"), db)
      end.

(** [prisma.transaction.findUnique({ where: { id } })] for an id the UUID
    column can hold: the row, or [null].  A string that is no UUID makes
    the call throw; that case is left out (see the conventions above). *)
Definition findById (id : string) : Promise (option Transaction.t) :=
  fun db => (Ok (transactions db !! id), db).

(** [prisma.transaction.update({ where: { id }, data: { ...data,
    updatedAt } })] inside [try]: a missing row or a broken foreign key
    gives [null]. *)
Definition update (now : Z) (id : string) (data : UpdateTransactionData)
    : Promise (option Transaction.t) :=
  fun db =>
    match transactions db !! id with
    | Some x =>
        let category :=
          match u_categoryId data with
          | Some c => Some c
          | None => Transaction.categoryId x
          end in
        if categoryKeyHolds db (u_categoryId data) then
          let x' :=
            Transaction.mk (Transaction.id x) (Transaction.userId x)
              (Transaction.accountId x) category (Transaction.type x)
              (Transaction.amount x)
              (default (Transaction.description x) (u_description data))
              (default (Transaction.transactionDate x)
                 (u_transactionDate data))
              (Transaction.createdAt x) now
              (Transaction.toAccountId x) (Transaction.fromAccountId x) in
          (Ok (Some x'), withTransactions db (<[id := x']> (transactions db)))
        else (Ok None, db)
    | None => (Ok None, db)
    end.

Definition delete (id : string) : Promise bool :=
  fun db =>
    match transactions db !! id with
    | Some _ =>
        (Ok true, withTransactions db (base.delete id (transactions db)))
    | None => (Ok false, db)
    end.

(** [TransactionFilters] without [userId], which is always there. *)
Record TransactionFilters := mkFilters {
  f_accountId : option string;
  f_categoryId : option string;
  f_type : option TransactionType;
  f_dateFrom : option Z;
  f_dateTo : option Z
}.

Definition matches (userId : string) (f : TransactionFilters)
    (x : Transaction.t) : bool :=
  String.eqb (Transaction.userId x) userId
  && (if truthy (f_accountId f)
      then bool_decide (Some (Transaction.accountId x) = f_accountId f)
           || bool_decide (Transaction.toAccountId x = f_accountId f)
      else true)
  && (if truthy (f_categoryId f)
      then bool_decide (Transaction.categoryId x = f_categoryId f)
      else true)
  && match f_type f with
     | Some ty => bool_decide (Transaction.type x = ty)
     | None => true
     end
  && match f_dateFrom f with
     | Some d => d <=? Transaction.transactionDate x
     | None => true
     end
  && match f_dateTo f with
     | Some d => Transaction.transactionDate x <=? d
     | None => true
     end.

Definition newerFirst (x y : Transaction.t) : Prop :=
  Transaction.transactionDate y <= Transaction.transactionDate x.

#[global] Instance newerFirst_dec : RelDecision newerFirst.
Proof. intros x y. unfold newerFirst. apply _. Defined.

(** [findMany({ where, orderBy: { transactionDate: 'desc' } })]; rows
    with equal dates come in the order of the sort used here. *)
Definition findByFilters (userId : string) (f : TransactionFilters)
    : Promise (list Transaction.t) :=
  fun db =>
    (Ok (merge_sort newerFirst
           (List.filter (matches userId f)
              (map_to_list (transactions db)).*2)),
     db).

(** The rows [aggregate({ where })] sums: same user, same type,
    [gte dateFrom], [lte dateTo]. *)
Definition inSum (userId : string) (type : TransactionType)
    (dateFrom dateTo : option Z) (x : Transaction.t) : bool :=
  String.eqb (Transaction.userId x) userId
  && bool_decide (Transaction.type x = type)
  && match dateFrom with
     | Some d => d <=? Transaction.transactionDate x
     | None => true
     end
  && match dateTo with
     | Some d => Transaction.transactionDate x <=? d
     | None => true
     end.

Definition sumAmounts (l : list Transaction.t) : Z :=
  foldr Z.add 0 (Transaction.amount <$> l).

(** A bound of a date filter the store takes: absent, or a valid Date
    that is [Date.storable]. *)
Definition takesBound (bound : option (option Z)) : bool :=
  match bound with
  | Some (Some t) => Date.storable t
  | _ => true
  end.

(** [getSumByType(userId, type, dateFrom?, dateTo?)].  An absent bound is
    [None]; a bound that is an Invalid Date is [Some None], which the
    client refuses before any query; a bound the store cannot take makes
    the query throw.  The result is the sum as a decimal, in hundredths,
    0 when no row matches; the number handed out is
    [Number(_sum.amount || 0)], the double nearest to it. *)
Definition getSumByType (userId : string) (type : TransactionType)
    (dateFrom dateTo : option (option Z)) : Promise Z :=
  fun db =>
    match dateFrom, dateTo with
    | Some None, _ | _, Some None => (Throw PrismaClientValidationError, db)
    | _, _ =>
        if takesBound dateFrom && takesBound dateTo then
          (Ok (sumAmounts
                 (List.filter
                    (inSum userId type (mjoin dateFrom) (mjoin dateTo))
                    (map_to_list (transactions db)).*2)),
           db)
        else (Throw PrismaClientError, db)
    end.

(** [income] and [expense] are the two sums, in hundredths; [net] is the
    double [income - expense]. *)
Record MonthlyTotals := mkTotals {
  income : Z;
  expense : Z;
  net : float
}.

Definition getMonthlyTotals (UTC : Z -> Z) (userId : string)
    (year month : Z) : Promise MonthlyTotals :=
  let startDate := Date.construct UTC year (month - 1) 1 0 0 0 in
  let endDate := Date.construct UTC year month 0 23 59 59 in
  income <- getSumByType userId INCOME (Some startDate) (Some endDate) ;;
  expense <- getSumByType userId EXPENSE (Some startDate) (Some endDate) ;;
  ret (mkTotals income expense (Double.minus income expense)).
End TransactionRepo.

Module CategoryRepo.
(** [Partial<CreateCategoryData>]: an absent ([undefined]) field is
    [None]; [icon] and [color] may also be set to [null]. *)
Record PartialCategoryData := mkPartial {
  p_userId : option string;
  p_name : option string;
  p_type : option CategoryType;
  p_icon : option (option string);
  p_color : option (option string);
  p_isActive : option bool
}.

(** [prisma.category.findUnique({ where: { id } })] for an id the UUID
    column can hold: the row, or [null].  A string that is no UUID makes
    the call throw; that case is left out (see the conventions above). *)
Definition findById (id : string) : Promise (option Category.t) :=
  fun db => (Ok (categories db !! id), db).

(** The unique index [Category_userId_name_key], seen from row [id]. *)
Definition nameIsFree (db : Database) (id userId name : string) : bool :=
  forallb
    (fun kv : string * Category.t =>
       bool_decide (kv.1 = id)
       || negb (String.eqb (Category.userId kv.2) userId
                && String.eqb (Category.name kv.2) name))
    (map_to_list (categories db)).

(** [prisma.category.update] inside [try]: [null] for a missing row, an
    owner that is no user ([Category_userId_fkey]) or a taken name. *)
Definition update (now : Z) (id : string) (data : PartialCategoryData)
    : Promise (option Category.t) :=
  fun db =>
    match categories db !! id with
    | Some c =>
        let owner := default (Category.userId c) (p_userId data) in
        let name := default (Category.name c) (p_name data) in
        if (String.eqb owner (Category.userId c)
            || bool_decide (owner ∈ users db))
           && nameIsFree db id owner name
        then
          let c' :=
            Category.mk (Category.id c) owner name
              (default (Category.type c) (p_type data))
              (default (Category.icon c) (p_icon data))
              (default (Category.color c) (p_color data))
              (default (Category.isActive c) (p_isActive data))
              (Category.createdAt c) now in
          (Ok (Some c'), withCategories db (<[id := c']> (categories db)))
        else (Ok None, db)
    | None => (Ok None, db)
    end.

(** [count({ userId, name: { equals, mode: 'insensitive' }, isActive,
    id: { not: excludeId } }) > 0]; the comparison of names is the
    database's, taken as [insensitiveEquals]. *)
Definition existsByUserIdAndName
    (insensitiveEquals : string -> string -> bool)
    (userId name : string) (excludeId : option string) : Promise bool :=
  fun db =>
    let hit (kv : string * Category.t) : bool :=
      String.eqb (Category.userId kv.2) userId
      && insensitiveEquals (Category.name kv.2) name
      && Category.isActive kv.2
      && (if truthy excludeId
          then negb (bool_decide (Some kv.1 = excludeId))
          else true) in
    (Ok (0 <? Z.of_nat (length (List.filter hit
                                  (map_to_list (categories db))))),
     db).
End CategoryRepo.

(** ** Services *)

(** src/transactions/dto/transaction.dto.ts.  [amount] is any number:
    the class has [@IsNumber()] without [maxDecimalPlaces]. *)
Record CreateTransactionDto := mkCreateTransactionDto {
  accountId : string;
  categoryId : option string;
  type : TransactionType;
  amount : Number.t;
  description : string;
  transactionDate : option Z;
  toAccountId : option string
}.

(** src/transactions/transaction.service.ts *)
Module TransactionService.
Definition createTransaction (now : Z) (userId : string)
    (dto : CreateTransactionDto) : Promise Transaction.t :=
  account <- AccountRepo.findById (accountId dto) ;;
  match account with
  | Some account =>
      if negb (Account.isOwnedBy account userId)
      then throw (ForbiddenException "Access denied to this account")
      else
        match type dto with
        | TRANSFER =>
            match toAccountId dto with
            | Some to =>
                if negb (truthy (Some to))
                then throw (BadRequestException
                              "Destination account required for transfers")
                else
                  toAccount <- AccountRepo.findById to ;;
                  match toAccount with
                  | Some toAccount =>
                      if negb (Account.isOwnedBy toAccount userId)
                      then throw (ForbiddenException
                                    "Access denied to destination account")
                      else
                        AccountRepo.updateBalance now (accountId dto)
                          (Number.sub (Account.getBalance account)
                             (amount dto)) ;;
                        AccountRepo.updateBalance now to
                          (Number.add (Account.getBalance toAccount)
                             (amount dto)) ;;
                        ret tt
                  | None =>
                      throw (ForbiddenException
                               "Access denied to destination account")
                  end
            | None =>
                throw (BadRequestException
                         "Destination account required for transfers")
            end
        | EXPENSE =>
            AccountRepo.updateBalance now (accountId dto)
              (Number.sub (Account.getBalance account) (amount dto)) ;;
            ret tt
        | INCOME =>
            AccountRepo.updateBalance now (accountId dto)
              (Number.add (Account.getBalance account) (amount dto)) ;;
            ret tt
        end ;;
        TransactionRepo.save now
          (Transaction.create now userId (accountId dto) (type dto)
             (amount dto) (description dto) (categoryId dto)
             (transactionDate dto) (toAccountId dto))
  | None => throw (ForbiddenException "Access denied to this account")
  end.


Definition getTransaction (id userId : string) : Promise Transaction.t :=
  transaction <- TransactionRepo.findById id ;;
  match transaction with
  | None => throw (NotFoundException "Transaction not found")
  | Some transaction =>
      if negb (Transaction.isOwnedBy transaction userId)
      then throw (ForbiddenException "Access denied")
      else ret transaction
  end.

Definition updateTransaction (now : Z) (id userId : string)
    (dto : TransactionRepo.UpdateTransactionData) : Promise Transaction.t :=
  getTransaction id userId ;;
  updated <- TransactionRepo.update now id dto ;;
  match updated with
  | None => throw (NotFoundException "Transaction not found")
  | Some updated => ret updated
  end.

Definition deleteTransaction (now : Z) (id userId : string) : Promise unit :=
  transaction <- getTransaction id userId ;;
  account <- AccountRepo.findById (Transaction.accountId transaction) ;;
  match account with
  | Some account =>
      if Transaction.isExpense transaction then
        AccountRepo.updateBalance now (Transaction.accountId transaction)
          (Number.add (Account.getBalance account)
             (Number.ofHundredths (Transaction.amount transaction))) ;;
        ret tt
      else if Transaction.isIncome transaction then
        AccountRepo.updateBalance now (Transaction.accountId transaction)
          (Number.sub (Account.getBalance account)
             (Number.ofHundredths (Transaction.amount transaction))) ;;
        ret tt
      else if Transaction.isTransfer transaction
              && truthy (Transaction.toAccountId transaction) then
        match Transaction.toAccountId transaction with
        | Some to =>
            toAccount <- AccountRepo.findById to ;;
            match toAccount with
            | Some toAccount =>
                AccountRepo.updateBalance now
                  (Transaction.accountId transaction)
                  (Number.add (Account.getBalance account)
                     (Number.ofHundredths
                        (Transaction.amount transaction))) ;;
                AccountRepo.updateBalance now to
                  (Number.sub (Account.getBalance toAccount)
                     (Number.ofHundredths
                        (Transaction.amount transaction))) ;;
                ret tt
            | None => ret tt
            end
        | None => ret tt
        end
      else ret tt
  | None => ret tt
  end ;;
  TransactionRepo.delete id ;;
  ret tt.

Definition getMonthlyStats (UTC : Z -> Z) (userId : string)
    (year month : Z) : Promise TransactionRepo.MonthlyTotals :=
  TransactionRepo.getMonthlyTotals UTC userId year month.

Definition getAccountTransactions (accountId userId : string)
    : Promise (list Transaction.t) :=
  account <- AccountRepo.findById accountId ;;
  match account with
  | Some account =>
      if negb (Account.isOwnedBy account userId)
      then throw (ForbiddenException "Access denied")
      else
        TransactionRepo.findByFilters userId
          (TransactionRepo.mkFilters (Some accountId) None None None None)
  | None => throw (ForbiddenException "Access denied")
  end.
End TransactionService.

(** [CreateAccountDto] of src/accounts/dto/account.dto.ts; [balance] has
    at most two decimal places and is given in hundredths. *)
Module CreateAccountDto.
Record t := mk {
  name : string;
  accountType : AccountType;
  currency : Currency;
  balance : option Z;
  bankName : option string;
  accountNumber : option string
}.
End CreateAccountDto.

(** src/accounts/account.service.ts *)
Module AccountService.
(** [UpdateAccountDto] *)
Record UpdateAccountDto := mkUpdateAccountDto {
  name : option string;
  bankName : option string;
  accountNumber : option string
}.

Definition getAccountById (accountId userId : string) : Promise Account.t :=
  account <- AccountRepo.findById accountId ;;
  match account with
  | None => throw (NotFoundException "Account not found")
  | Some account =>
      if negb (Account.isOwnedBy account userId)
      then throw (ForbiddenException "Access denied to this account")
      else ret account
  end.

Definition updateAccount (now : Z) (accountId userId : string)
    (updateAccountDto : UpdateAccountDto) : Promise Account.t :=
  getAccountById accountId userId ;;
  (if truthy (name updateAccountDto) then
     nameExists <- AccountRepo.existsByUserIdAndName userId
                     (default "" (name updateAccountDto)) (Some accountId) ;;
     if nameExists : bool
     then throw (BadRequestException "Account with this name already exists")
     else ret tt
   else ret tt) ;;
  updatedAccount <- AccountRepo.update now accountId
                      (AccountRepo.mkUpdate (name updateAccountDto)
                         (bankName updateAccountDto)
                         (accountNumber updateAccountDto) None) ;;
  match updatedAccount with
  | None => throw (NotFoundException "Account not found")
  | Some updatedAccount => ret updatedAccount
  end.

(** [UpdateBalanceDto] has the one field [balance], a number with at
    most two decimal places ([@IsNumber({ maxDecimalPlaces: 2 })]): it is
    given in hundredths. *)
Definition updateAccountBalance (now : Z) (accountId userId : string)
    (balance : Z) : Promise Account.t :=
  account <- getAccountById accountId userId ;;
  match Account.updateBalance now account balance with
  | inl message => throw (BadRequestException message)
  | inr _ =>
      updatedAccount <- AccountRepo.updateBalance now accountId
                          (Number.ofHundredths balance) ;;
      match updatedAccount with
      | None => throw (NotFoundException "Account not found")
      | Some updatedAccount => ret updatedAccount
      end
  end.

Definition deactivateAccount (now : Z) (accountId userId : string)
    : Promise Account.t :=
  getAccountById accountId userId ;;
  updatedAccount <- AccountRepo.update now accountId
                      (AccountRepo.mkUpdate None None None (Some false)) ;;
  match updatedAccount with
  | None => throw (NotFoundException "Account not found")
  | Some updatedAccount => ret updatedAccount
  end.

Definition activateAccount (now : Z) (accountId userId : string)
    : Promise Account.t :=
  getAccountById accountId userId ;;
  updatedAccount <- AccountRepo.update now accountId
                      (AccountRepo.mkUpdate None None None (Some true)) ;;
  match updatedAccount with
  | None => throw (NotFoundException "Account not found")
  | Some updatedAccount => ret updatedAccount
  end.

Definition deleteAccount (now : Z) (accountId userId : string)
    : Promise unit :=
  getAccountById accountId userId ;;
  deactivated <- AccountRepo.update now accountId
                   (AccountRepo.mkUpdate None None None (Some false)) ;;
  match deactivated with
  | None => throw (NotFoundException "Account not found")
  | Some _ => ret tt
  end.

(** [const { ..., balance = 0, ... } = createAccountDto]: the name is looked
    up as given and stored trimmed. *)
Definition createAccount (trim : string -> string) (now : Z)
    (userId : string) (createAccountDto : CreateAccountDto.t)
    : Promise Account.t :=
  nameExists <- AccountRepo.existsByUserIdAndName userId
                  (CreateAccountDto.name createAccountDto) None ;;
  if nameExists : bool
  then throw (BadRequestException "Account with this name already exists")
  else
    AccountRepo.save now
      (Account.create trim userId
         (CreateAccountDto.name createAccountDto)
         (CreateAccountDto.accountType createAccountDto)
         (CreateAccountDto.currency createAccountDto)
         (default 0 (CreateAccountDto.balance createAccountDto))
         (CreateAccountDto.bankName createAccountDto)
         (CreateAccountDto.accountNumber createAccountDto)).

Definition getUserAccounts (userId : string) : Promise (list Account.t) :=
  AccountRepo.findByUserId userId.

Definition getActiveUserAccounts (userId : string)
    : Promise (list Account.t) :=
  AccountRepo.findActiveByUserId userId.



Definition getUserAccountsCount (userId : string) : Promise Z :=
  AccountRepo.countByUserId userId.
End AccountService.

(** src/categories/category.service.ts *)
Module CategoryService.
(** [UpdateCategoryDto] *)
Record UpdateCategoryDto := mkUpdateCategoryDto {
  name : option string;
  icon : option string;
  color : option string
}.

Definition getCategory (id userId : string) : Promise Category.t :=
  category <- CategoryRepo.findById id ;;
  match category with
  | None => throw (NotFoundException "Category not found")
  | Some category =>
      if negb (Category.isOwnedBy category userId)
      then throw (ForbiddenException "Access denied to this category")
      else ret category
  end.

Definition updateCategory (insensitiveEquals : string -> string -> bool)
    (now : Z) (id userId : string) (dto : UpdateCategoryDto)
    : Promise Category.t :=
  getCategory id userId ;;
  (if truthy (name dto) then
     exists_ <- CategoryRepo.existsByUserIdAndName insensitiveEquals userId
                  (default "" (name dto)) (Some id) ;;
     if exists_ : bool
     then throw (BadRequestException "Category with this name already exists")
     else ret tt
   else ret tt) ;;
  updated <- CategoryRepo.update now id
               (CategoryRepo.mkPartial None (name dto) None
                  (Some <$> icon dto) (Some <$> color dto) None) ;;
  match updated with
  | None => throw (NotFoundException "Category not found")
  | Some updated => ret updated
  end.

Definition deleteCategory (now : Z) (id userId : string) : Promise unit :=
  getCategory id userId ;;
  CategoryRepo.update now id
    (CategoryRepo.mkPartial (Some "") (Some "") (Some CAT_BLANK)
       None None (Some false)) ;;
  ret tt.
End CategoryService.

(** * What the services write

    Functions that read a database, and the effect of each service call
    stated as a function of the database before it; the lemmas below
    prove the code against them. *)

(** The stored balance of every account. *)
Definition balances (db : Database) : gmap string Z :=
  Account.balance <$> accounts db.

Definition balanceOf (db : Database) (id : string) : option Z :=
  balances db !! id.

(** One [updateBalance] of a stored account, seen on the balances: the
    value lands, rounded to two digits, if the column holds it, and is
    dropped if not. *)
Definition put (id : string) (value : Number.t) (bal : gmap string Z)
    : gmap string Z :=
  match Column.decimal 15 value with
  | Some c => <[id := c]> bal
  | None => bal
  end.

(** The balance writes of [createTransaction], read off its three
    branches: every new balance is computed from the balance fetched at
    the start of the call. *)
Definition balanceWrites (dto : CreateTransactionDto) (bal : gmap string Z)
    : gmap string Z :=
  let fetched (id : string) := Number.ofHundredths (default 0 (bal !! id)) in
  match type dto with
  | EXPENSE =>
      put (accountId dto) (Number.sub (fetched (accountId dto)) (amount dto))
        bal
  | INCOME =>
      put (accountId dto) (Number.add (fetched (accountId dto)) (amount dto))
        bal
  | TRANSFER =>
      match toAccountId dto with
      | Some to =>
          put to (Number.add (fetched to) (amount dto))
            (put (accountId dto)
               (Number.sub (fetched (accountId dto)) (amount dto)) bal)
      | None => bal
      end
  end.

(** The checks that precede the first write. *)
Definition admitted (userId : string) (dto : CreateTransactionDto)
    (db : Database) : Prop :=
  (exists a, accounts db !! accountId dto = Some a
             /\ Account.userId a = userId)
  /\ (type dto = TRANSFER ->
      exists to b, toAccountId dto = Some to /\ to <> ""
                   /\ accounts db !! to = Some b
                   /\ Account.userId b = userId).

(** The account ids of a request as [@IsUUID()] of the DTO lets them
    through. *)
Definition idsValidated (dto : CreateTransactionDto) : Prop :=
  Uuid.wellFormed (accountId dto) = true
  /\ forall to, toAccountId dto = Some to -> Uuid.wellFormed to = true.

(** The row [save] is asked to insert. *)
Definition newRow (now : Z) (userId : string) (dto : CreateTransactionDto)
    : Transaction.data :=
  Transaction.create now userId (accountId dto) (type dto) (amount dto)
    (description dto) (categoryId dto) (transactionDate dto)
    (toAccountId dto).

(** The balance writes of [deleteTransaction], read off its branches. *)
Definition reversalWrites (x : Transaction.t) (bal : gmap string Z)
    : gmap string Z :=
  let amount := Number.ofHundredths (Transaction.amount x) in
  match bal !! Transaction.accountId x with
  | Some b =>
      match Transaction.type x with
      | EXPENSE =>
          put (Transaction.accountId x)
            (Number.add (Number.ofHundredths b) amount) bal
      | INCOME =>
          put (Transaction.accountId x)
            (Number.sub (Number.ofHundredths b) amount) bal
      | TRANSFER =>
          match Transaction.toAccountId x with
          | Some to =>
              match bal !! to with
              | Some bt =>
                  if String.eqb to "" then bal
                  else put to (Number.sub (Number.ofHundredths bt) amount)
                         (put (Transaction.accountId x)
                            (Number.add (Number.ofHundredths b) amount) bal)
              | None => bal
              end
          | None => bal
          end
      end
  | None => bal
  end.

(** The cases in which [deleteTransaction] issues no balance write: the
    primary account is gone, or the transaction is a transfer whose
    destination is unset or gone. *)
Definition skipsReversal (x : Transaction.t) (db : Database) : Prop :=
  accounts db !! Transaction.accountId x = None
  \/ (Transaction.type x = TRANSFER
      /\ forall to, Transaction.toAccountId x = Some to ->
                    to = "" \/ accounts db !! to = None).

(** * The properties, in the design document's words *)

(** The design document's [applyDelta]: add [delta] to the stored balance. *)
Definition applyDelta (bal : gmap string Z) (leg : string * Z)
    : gmap string Z :=
  alter (fun b => b + leg.2) leg.1 bal.

(** The amount of a request as a decimal with two fractional digits, in
    hundredths: what the amount column makes of it. *)
Definition amountOf (dto : CreateTransactionDto) : Z :=
  Column.hundredths (amount dto).

(** The amount of the request has no digit beyond the second: it is a
    decimal with two fractional digits, as the design document has it. *)
Definition wholeHundredths (dto : CreateTransactionDto) : Prop :=
  Number.isHundredths (amount dto) (amountOf dto).

(** The balance column holds [c] hundredths: fewer than 10^13 units. *)
Definition balanceFits (c : Z) : Prop := Column.holds 15 c = true.

(** The amount column holds [c] hundredths: fewer than 10^8 units. *)
Definition amountFits (c : Z) : Prop := Column.holds 10 c = true.

(** The balance deltas of a request, source before destination. *)
Definition deltas (dto : CreateTransactionDto) : list (string * Z) :=
  match type dto with
  | EXPENSE => [(accountId dto, - amountOf dto)]
  | INCOME => [(accountId dto, amountOf dto)]
  | TRANSFER =>
      match toAccountId dto with
      | Some to => [(accountId dto, - amountOf dto); (to, amountOf dto)]
      | None => []
      end
  end.

(** Every balance a request touches fits the balance column, before the
    call and with the request's delta added. *)
Definition legsFit (dto : CreateTransactionDto) (db : Database) : Prop :=
  forall id delta b,
    (id, delta) ∈ deltas dto ->
    balanceOf db id = Some b ->
    balanceFits b /\ balanceFits (b + delta).

(** The balance writes of a request when nothing is rounded and nothing
    dropped: each new balance is the fetched one with the delta added. *)
Definition plainWrites (dto : CreateTransactionDto) (bal : gmap string Z)
    : gmap string Z :=
  let fetched (id : string) := default 0 (bal !! id) in
  match type dto with
  | EXPENSE =>
      <[accountId dto := fetched (accountId dto) - amountOf dto]> bal
  | INCOME =>
      <[accountId dto := fetched (accountId dto) + amountOf dto]> bal
  | TRANSFER =>
      match toAccountId dto with
      | Some to =>
          <[to := fetched to + amountOf dto]>
            (<[accountId dto := fetched (accountId dto) - amountOf dto]> bal)
      | None => bal
      end
  end.

(** "Either the transaction row and all its balance deltas exist, or none
    of them do", for one call. *)
Definition leavesNoPartialState (now : Z) (userId : string)
    (dto : CreateTransactionDto) (db : Database) : Prop :=
  match TransactionService.createTransaction now userId dto db with
  | (Ok x, db') =>
      transactions db !! Transaction.id x = None
      /\ transactions db' = <[Transaction.id x := x]> (transactions db)
      /\ balances db' = foldl applyDelta (balances db) (deltas dto)
  | (Throw _, db') =>
      transactions db' = transactions db
      /\ balances db' = balances db
  end.


(** C4 as stated, for one request and the delete that follows it. *)
Definition transferSymmetry (now now' : Z) (userId : string)
    (dto : CreateTransactionDto) (db : Database) : Prop :=
  forall X Y ax ay x db1,
    type dto = TRANSFER ->
    accountId dto = X ->
    toAccountId dto = Some Y ->
    X <> Y ->
    accounts db !! X = Some ax ->
    accounts db !! Y = Some ay ->
    TransactionService.createTransaction now userId dto db = (Ok x, db1) ->
    balanceOf db1 X = Some (Account.balance ax - amountOf dto)
    /\ balanceOf db1 Y = Some (Account.balance ay + amountOf dto)
    /\ exists db2,
         TransactionService.deleteTransaction now' (Transaction.id x)
           userId db1 = (Ok tt, db2)
         /\ balanceOf db2 X = Some (Account.balance ax)
         /\ balanceOf db2 Y = Some (Account.balance ay).

(** C5 as stated, for one request and the delete that follows it. *)
Definition expenseRoundTrip (now now' : Z) (userId : string)
    (dto : CreateTransactionDto) (db : Database) : Prop :=
  forall x db1,
    type dto = EXPENSE ->
    TransactionService.createTransaction now userId dto db = (Ok x, db1) ->
    exists db2,
      TransactionService.deleteTransaction now' (Transaction.id x) userId db1
      = (Ok tt, db2)
      /\ balanceOf db2 (accountId dto) = balanceOf db (accountId dto)
      /\ transactions db2 !! Transaction.id x = None.

(** What the insert of [createTransaction] has to pass: the store takes
    the date, the amount column holds the amount, and the foreign keys
    hold. *)
Definition insertAccepted (now : Z) (userId : string)
    (dto : CreateTransactionDto) (db : Database) : Prop :=
  Date.storable (orNow now (transactionDate dto)) = true
  /\ amountFits (amountOf dto)
  /\ (userId ∈ users db)
  /\ TransactionRepo.categoryKeyHolds db (orNull (categoryId dto)) = true.

(** "If accountType is not credit, balance >= 0", over the whole table. *)
Definition nonNegativeBalances (db : Database) : Prop :=
  map_Forall
    (fun _ a => Account.accountType a <> CREDIT -> 0 <= Account.balance a)
    (accounts db).

Definition accountOwner (db : Database) (id : string) : option string :=
  Account.userId <$> accounts db !! id.
Definition transactionOwner (db : Database) (id : string) : option string :=
  Transaction.userId <$> transactions db !! id.
Definition categoryOwner (db : Database) (id : string) : option string :=
  Category.userId <$> categories db !! id.

(** "Fetch by id; if absent, fail NotFound; if present and not owned, fail
    AccessDenied", for an operation [op id userId] on the entity whose
    owner [owner] looks up.  Neither failure writes anything. *)
Definition existenceBeforeOwnership {A : Type}
    (owner : Database -> string -> option string)
    (op : string -> string -> Promise A) : Prop :=
  forall id userId db,
    (owner db id = None ->
     exists e, op id userId db = (Throw e, db) /\ isNotFound e)
    /\ (forall o, owner db id = Some o -> o <> userId ->
        exists e, op id userId db = (Throw e, db) /\ isAccessDenied e).

(** The same for the ids the id columns can hold, with the owner's case:
    an absent entity is answered NotFound, a present one of somebody else
    AccessDenied, neither failure writes anything, and the owner is never
    answered AccessDenied. *)
Definition guardedById {A : Type}
    (owner : Database -> string -> option string)
    (op : string -> string -> Promise A) : Prop :=
  forall id userId db,
    (Uuid.wellFormed id = true ->
     owner db id = None ->
     exists e, op id userId db = (Throw e, db) /\ isNotFound e)
    /\ (forall o, owner db id = Some o -> o <> userId ->
        exists e, op id userId db = (Throw e, db) /\ isAccessDenied e)
    /\ (owner db id = Some userId ->
        forall e db', op id userId db = (Throw e, db') -> ~ isAccessDenied e).

(** The guard of [createTransaction] and [getAccountTransactions], for
    the ids the id columns can hold: absent and not owned are both
    answered AccessDenied. *)
Definition absentIsAccessDenied {A : Type}
    (owner : Database -> string -> option string)
    (op : string -> string -> Promise A) : Prop :=
  forall id userId db,
    Uuid.wellFormed id = true ->
    owner db id <> Some userId ->
    exists e, op id userId db = (Throw e, db) /\ isAccessDenied e.

(** The calendar in the design document's words: day 1 of a month at
    00:00:00 and its last day at 23:59:59, months counted from 1.
    [DayFromYear] is the day number of 1 January, and [UTC] the host's map
    from local time to time values, as for the constructor. *)
Module Calendar.
Definition DaysInMonth (leap month : Z) : Z :=
  match month with
  | 2 => 28 + leap
  | 4 | 6 | 9 | 11 => 30
  | _ => 31
  end.

Definition daysBefore (leap month : Z) : Z :=
  foldr Z.add 0 (DaysInMonth leap <$> seqZ 1 (month - 1)).

Definition lastDay (year month : Z) : Z :=
  DaysInMonth (Date.InLeapYear year) month.

Definition civilDay (year month day : Z) : Z :=
  Date.DayFromYear year + daysBefore (Date.InLeapYear year) month
  + (day - 1).

Definition civilTime (UTC : Z -> Z) (year month day hh mm ss : Z) : Z :=
  UTC (civilDay year month day * Date.msPerDay
       + (hh * 3600000 + mm * 60000 + ss * 1000)).

Definition firstInstant (UTC : Z -> Z) (year month : Z) : Z :=
  civilTime UTC year month 1 0 0 0.

Definition lastInstant (UTC : Z -> Z) (year month : Z) : Z :=
  civilTime UTC year month (lastDay year month) 23 59 59.

(** A time value a Date object can hold. *)
Definition representable (t : Z) : Prop := Z.abs t <= 8640000000000000.
End Calendar.

(** A row counts toward the [ty] sum of [userId] over the window [a, b]. *)
Definition countsToward (userId : string) (ty : TransactionType) (a b : Z)
    (x : Transaction.t) : Prop :=
  Transaction.userId x = userId
  /\ Transaction.type x = ty
  /\ a <= Transaction.transactionDate x <= b.

#[global] Instance countsToward_dec userId ty a b x :
  Decision (countsToward userId ty a b x).
Proof. unfold countsToward. apply _. Defined.

Definition rows (db : Database) : list Transaction.t :=
  (map_to_list (transactions db)).*2.

Definition totalOf (userId : string) (ty : TransactionType) (a b : Z)
    (db : Database) : Z :=
  TransactionRepo.sumAmounts (filter (countsToward userId ty a b) (rows db)).

(** The totals in the design document's words: income and expense summed
    over the user's rows of that type dated within the month, and their
    difference, a decimal like them (here as the number nearest to it). *)
Definition monthlyTotalsOf (UTC : Z -> Z) (userId : string) (year month : Z)
    (db : Database) : TransactionRepo.MonthlyTotals :=
  let a := Calendar.firstInstant UTC year month in
  let b := Calendar.lastInstant UTC year month in
  TransactionRepo.mkTotals
    (totalOf userId INCOME a b db)
    (totalOf userId EXPENSE a b db)
    (Double.ofHundredths
       (totalOf userId INCOME a b db - totalOf userId EXPENSE a b db)).

(** C6 as stated, for one call. *)
Definition monthlyTotalsAsSpecified (UTC : Z -> Z) (userId : string)
    (year month : Z) (db : Database) : Prop :=
  TransactionRepo.getMonthlyTotals UTC userId year month db
  = (Ok (monthlyTotalsOf UTC userId year month db), db).

(** * Further properties of the services: their vocabulary *)

(** The row [updateBalance] stores for account [a] and a balance of
    [newBalance] hundredths. *)
Definition rebalanced (now newBalance : Z) (a : Account.t) : Account.t :=
  Account.mk (Account.id a) (Account.userId a) (Account.name a)
    (Account.accountType a) (Account.currency a) newBalance
    (Account.bankName a) (Account.accountNumber a) (Account.isActive a)
    (Account.createdAt a) now.

(** The database [updateBalance] leaves. *)
Definition writeBalance (now : Z) (id : string) (newBalance : Number.t)
    (db : Database) : Database :=
  match accounts db !! id, Column.decimal 15 newBalance with
  | Some a, Some c =>
      withAccounts db (<[id := rebalanced now c a]> (accounts db))
  | _, _ => db
  end.

(** The database [createTransaction] hands to [save] once its checks have
    passed. *)
Definition writePhase (now : Z) (dto : CreateTransactionDto) (db : Database)
    : Database :=
  let fetched (id : string) :=
    Number.ofHundredths (default 0 (balances db !! id)) in
  match type dto with
  | EXPENSE =>
      writeBalance now (accountId dto)
        (Number.sub (fetched (accountId dto)) (amount dto)) db
  | INCOME =>
      writeBalance now (accountId dto)
        (Number.add (fetched (accountId dto)) (amount dto)) db
  | TRANSFER =>
      match toAccountId dto with
      | Some to =>
          writeBalance now to (Number.add (fetched to) (amount dto))
            (writeBalance now (accountId dto)
               (Number.sub (fetched (accountId dto)) (amount dto)) db)
      | None => db
      end
  end.

(** Two versions of an account that differ at most in [balance] and
    [updatedAt]. *)
Definition sameButBalance (a a' : Account.t) : Prop :=
  Account.id a' = Account.id a
  /\ Account.userId a' = Account.userId a
  /\ Account.name a' = Account.name a
  /\ Account.accountType a' = Account.accountType a
  /\ Account.currency a' = Account.currency a
  /\ Account.bankName a' = Account.bankName a
  /\ Account.accountNumber a' = Account.accountNumber a
  /\ Account.isActive a' = Account.isActive a
  /\ Account.createdAt a' = Account.createdAt a.

(** Two versions of an account that agree on owner, type, currency,
    balance and creation time: what no edit of the account's details may
    change. *)
Definition sameLedgerFields (a a' : Account.t) : Prop :=
  Account.id a' = Account.id a
  /\ Account.userId a' = Account.userId a
  /\ Account.accountType a' = Account.accountType a
  /\ Account.currency a' = Account.currency a
  /\ Account.balance a' = Account.balance a
  /\ Account.createdAt a' = Account.createdAt a.

(** An account slot before and after a call that may only rewrite
    balances: no account appears or disappears, an account changes at most
    in balance and updatedAt, and not at all unless it is [touched]. *)
Definition framed (touched : string -> Prop) (before after : option Account.t)
    (k : string) : Prop :=
  match before, after with
  | Some a, Some a' => sameButBalance a a' /\ (~ touched k -> a' = a)
  | None, None => True
  | _, _ => False
  end.

(** The row [AccountRepo.update] stores for account [a]. *)
Definition edited (now : Z) (data : AccountRepo.UpdateAccountData)
    (a : Account.t) : Account.t :=
  Account.mk (Account.id a) (Account.userId a)
    (default (Account.name a) (AccountRepo.u_name data))
    (Account.accountType a) (Account.currency a) (Account.balance a)
    (match AccountRepo.u_bankName data with
     | Some b => Some b
     | None => Account.bankName a
     end)
    (match AccountRepo.u_accountNumber data with
     | Some n => Some n
     | None => Account.accountNumber a
     end)
    (default (Account.isActive a) (AccountRepo.u_isActive data))
    (Account.createdAt a) now.

(** An account slot before and after an edit of the account's details:
    owner, type, currency, balance and creation time stay, and accounts
    other than [id] are not touched at all. *)
Definition detailsOnly (id : string) (before after : option Account.t)
    (k : string) : Prop :=
  match before, after with
  | Some a, Some a' => sameLedgerFields a a' /\ (k <> id -> a' = a)
  | None, None => True
  | _, _ => False
  end.

(** [{ isActive }], the data of the switches of the account service. *)
Definition switch (active : bool) : AccountRepo.UpdateAccountData :=
  AccountRepo.mkUpdate None None None (Some active).

(** Account [a] with a new [updatedAt] and nothing else changed. *)
Definition stamped (now : Z) (a : Account.t) : Account.t :=
  Account.mk (Account.id a) (Account.userId a) (Account.name a)
    (Account.accountType a) (Account.currency a) (Account.balance a)
    (Account.bankName a) (Account.accountNumber a) (Account.isActive a)
    (Account.createdAt a) now.

(** What an edit of the details of account [id] may change in the
    database: nothing but that account's row, and there neither owner,
    type, currency, balance nor creation time. *)
Definition detailsEdit (id : string) (db db' : Database) : Prop :=
  transactions db' = transactions db
  /\ categories db' = categories db
  /\ users db' = users db
  /\ forall k, detailsOnly id (accounts db !! k) (accounts db' !! k) k.

(** A stored account of [userId]. *)
Definition ownAccount (db : Database) (userId : string) (a : Account.t)
    : Prop :=
  (exists k, accounts db !! k = Some a) /\ Account.userId a = userId.

(** The row [createAccount] stores. *)
Definition opened (trim : string -> string) (now : Z) (userId : string)
    (dto : CreateAccountDto.t) (db : Database) : Account.t :=
  Account.mk (fresh (dom (accounts db))) userId
    (trim (CreateAccountDto.name dto)) (CreateAccountDto.accountType dto)
    (CreateAccountDto.currency dto)
    (default 0 (CreateAccountDto.balance dto))
    (Account.trimOrNull trim (CreateAccountDto.bankName dto))
    (Account.trimOrNull trim (CreateAccountDto.accountNumber dto))
    true now now.

(** Two versions of a category that agree on owner, type, activity and
    creation time. *)
Definition sameCategoryCore (c c' : Category.t) : Prop :=
  Category.id c' = Category.id c
  /\ Category.userId c' = Category.userId c
  /\ Category.type c' = Category.type c
  /\ Category.isActive c' = Category.isActive c
  /\ Category.createdAt c' = Category.createdAt c.

(** What an update of category [id] may change in the database: nothing
    but that category's name, icon, colour and updatedAt. *)
Definition categoryEdit (id : string) (db db' : Database) : Prop :=
  accounts db' = accounts db
  /\ transactions db' = transactions db
  /\ users db' = users db
  /\ forall k,
       match categories db !! k, categories db' !! k with
       | Some c, Some c' => sameCategoryCore c c' /\ (k <> id -> c' = c)
       | None, None => True
       | _, _ => False
       end.

(** The money held in all accounts together. *)
Definition sumZ (l : list Z) : Z := foldr Z.add 0 l.

Definition totalBalance (db : Database) : Z :=
  sumZ (map_to_list (balances db)).*2.

(** What a successful [createTransaction] adds to [totalBalance]. *)
Definition netEffect (dto : CreateTransactionDto) : Z :=
  match type dto with
  | INCOME => amountOf dto
  | EXPENSE => - amountOf dto
  | TRANSFER =>
      if bool_decide (toAccountId dto = Some (accountId dto))
      then amountOf dto
      else 0
  end.

(** "Name unique per user among active accounts". *)
Definition uniqueActiveNames (db : Database) : Prop :=
  forall k1 k2 a1 a2,
    accounts db !! k1 = Some a1 ->
    accounts db !! k2 = Some a2 ->
    Account.userId a1 = Account.userId a2 ->
    Account.name a1 = Account.name a2 ->
    Account.isActive a1 = true ->
    Account.isActive a2 = true ->
    k1 = k2.

(** Some active account of [userId] other than [excluded] is named [name]. *)
Definition nameTaken (db : Database) (userId name : string)
    (excluded : option string) : Prop :=
  exists k a,
    accounts db !! k = Some a
    /\ Account.userId a = userId
    /\ Account.name a = name
    /\ Account.isActive a = true
    /\ Some k <> excluded.

(** The rows a listing with filters has to return. *)
Definition listed (userId : string) (f : TransactionRepo.TransactionFilters)
    (db : Database) (x : Transaction.t) : Prop :=
  (exists k, transactions db !! k = Some x)
  /\ TransactionRepo.matches userId f x = true.

(** A transaction touches account [id]: it is its primary account or the
    destination of its transfer. *)
Definition touches (id : string) (x : Transaction.t) : Prop :=
  Transaction.accountId x = id \/ Transaction.toAccountId x = Some id.

(** ** Databases and requests of the scenarios

    The accounts of the design document's scenarios: "Main" with 1000.00,
    "A" with 500.00 and "B" with 0.00, all checking accounts of user
    "u1". *)

Module Scenario.
Definition account (id user : string) (ty : AccountType) (balance : Z)
    : Account.t :=
  Account.mk id user id ty RSD balance None None true 0 0.

Definition db0 : Database :=
  mkDatabase
    (<["A" := account "A" "u1" CHECKING 50000]>
       (<["B" := account "B" "u1" CHECKING 0]>
          (<["Main" := account "Main" "u1" CHECKING 100000]> ∅)))
    ∅ ∅ {["u1"]}.

(** Requests with an amount of [amt] hundredths. *)
Definition expense (acc : string) (amt : Z) : CreateTransactionDto :=
  mkCreateTransactionDto acc None EXPENSE (Number.ofHundredths amt)
    "groceries" None None.

Definition transfer (src dst : string) (amt : Z) : CreateTransactionDto :=
  mkCreateTransactionDto src None TRANSFER (Number.ofHundredths amt) "move"
    None (Some dst).

(** A well-formed id that is the key of no row. *)
Definition unknownId : string := "7d3f2c9a-41b6-4e0d-9c57-0a1b2c3d4e5f".
End Scenario.

Module UuidScenario.
(** The scenarios' accounts and "Main" once more under a key the id
    column can hold. *)
Definition wallet : string := "0b9e4c52-7a1d-4f3e-8c6b-2d5a9e7f1c30".

Definition db : Database :=
  withAccounts Scenario.db0
    (<[wallet := Scenario.account wallet "u1" CHECKING 100000]>
       (accounts Scenario.db0)).

(** An expense of 150.00 on it, filed under a category that is not in
    the table. *)
Definition dto : CreateTransactionDto :=
  mkCreateTransactionDto wallet (Some Scenario.unknownId) EXPENSE
    (Number.ofHundredths 15000) "groceries" None None.
End UuidScenario.

Module VanishedScenario.
(** A transfer row from "A" to an account that is no longer stored. *)
Definition row : Transaction.t :=
  Transaction.mk "t1" "u1" "A" None TRANSFER 20000 "move" 5 5 5
    (Some Scenario.unknownId) (Some "A").

Definition db : Database :=
  withTransactions Scenario.db0 {["t1" := row]}.
End VanishedScenario.

Module DanglingCategory.
(** An expense of 150.00 on "Main" filed under a category that is not
    in the table. *)
Definition dto : CreateTransactionDto :=
  mkCreateTransactionDto "Main" (Some Scenario.unknownId) EXPENSE
    (Number.ofHundredths 15000) "groceries" None None.

End DanglingCategory.

Module ColumnScenario.
(** The scenarios' accounts and two at the ends of the balance column:
    "Vault" with 9999999999999.00 and the credit account "Loan" with
    -9999999999999.99. *)
Definition db : Database :=
  withAccounts Scenario.db0
    (<["Vault" := Scenario.account "Vault" "u1" SAVINGS 999999999999900]>
       (<["Loan" := Scenario.account "Loan" "u1" CREDIT (-999999999999999)]>
          (accounts Scenario.db0))).

(** An expense of 0.015 on "Main". *)
Definition fraction : CreateTransactionDto :=
  mkCreateTransactionDto "Main" None EXPENSE (Number.mk 15 3) "fee" None
    None.
End ColumnScenario.

Module StatsScenario.
Definition UTC (t : Z) : Z := t.

Definition row (id : string) (ty : TransactionType) (amount date : Z)
    : Transaction.t :=
  Transaction.mk id "u1" "Main" None ty amount "entry" date date date
    None None.

(** An income of 80000.00 on 2024-09-01 and an expense of 1500.00 on
    2024-09-10. *)
Definition db : Database :=
  withTransactions Scenario.db0
    (<["t1" := row "t1" INCOME 8000000
                 (Calendar.civilTime UTC 2024 9 1 9 0 0)]>
       (<["t2" := row "t2" EXPENSE 150000
                    (Calendar.civilTime UTC 2024 9 10 18 30 0)]> ∅)).

(** An income of 0.30 on 2024-09-01 and an expense of 0.10 on
    2024-09-10. *)
Definition cents : Database :=
  withTransactions Scenario.db0
    (<["t1" := row "t1" INCOME 30
                 (Calendar.civilTime UTC 2024 9 1 9 0 0)]>
       (<["t2" := row "t2" EXPENSE 10
                    (Calendar.civilTime UTC 2024 9 10 18 30 0)]> ∅)).

(** An income of 100.00 on 1950-09-10. *)
Definition db1950 : Database :=
  withTransactions Scenario.db0
    {["t1" := row "t1" INCOME 10000
                (Calendar.civilTime UTC 1950 9 10 12 0 0)]}.
End StatsScenario.

Module HistoryScenario.
(** The scenarios' accounts with one transfer of 200.00 from "A" to "B". *)
Definition row : Transaction.t :=
  Transaction.mk "t1" "u1" "A" None TRANSFER 20000 "move" 5 5 5 (Some "B")
    (Some "A").

Definition db : Database :=
  withTransactions Scenario.db0 {["t1" := row]}.
End HistoryScenario.

Module AccountScenario.
(** The scenarios' accounts, "B" closed and a second, open account of the
    same user that is also named "B". *)
Definition closedB : Account.t :=
  Account.mk "B" "u1" "B" CHECKING RSD 0 None None false 0 0.

Definition db : Database :=
  withAccounts Scenario.db0
    (<["B2" := Scenario.account "B" "u1" SAVINGS 700]>
       (<["B" := closedB]> (accounts Scenario.db0))).

(** [String.prototype.trim] on strings whose only white space is the
    space character. *)
Fixpoint trimStart (s : string) : string :=
  match s with
  | String c rest => if Ascii.eqb c Ascii.Space then trimStart rest else s
  | EmptyString => s
  end.

Fixpoint reverse (acc s : string) : string :=
  match s with
  | EmptyString => acc
  | String c rest => reverse (String c acc) rest
  end.

Definition trim (s : string) : string :=
  reverse "" (trimStart (reverse "" (trimStart s))).

(** A savings account that is to be named " Main". *)
Definition padded : CreateAccountDto.t :=
  CreateAccountDto.mk " Main" SAVINGS RSD None None None.

Definition renameToB : AccountService.UpdateAccountDto :=
  AccountService.mkUpdateAccountDto (Some "B") None None.
End AccountScenario.

Module CategoryScenario.
Definition food : Category.t :=
  Category.mk "c1" "u1" "Food" CAT_EXPENSE None None true 0 0.

Definition db : Database :=
  withCategories Scenario.db0 {["c1" := food]}.
End CategoryScenario.

(** * Lemmas and theorems *)

(** ** Numbers and columns *)

Lemma unit_pos x : 0 < Number.unit x.
Proof. unfold Number.unit. apply Z.pow_pos_nonneg; lia. Qed.

Lemma unit_add x y :
  Number.unit (Number.add x y) = Number.unit x * Number.unit y.
Proof.
  unfold Number.unit, Number.add. simpl.
  rewrite Nat2Z.inj_add, Z.pow_add_r by lia. reflexivity.
Qed.

Lemma unit_sub x y :
  Number.unit (Number.sub x y) = Number.unit x * Number.unit y.
Proof.
  unfold Number.unit, Number.sub. simpl.
  rewrite Nat2Z.inj_add, Z.pow_add_r by lia. reflexivity.
Qed.

(** A multiple of the divisor is its own rounding. *)
Lemma round_multiple k d : 0 < d -> Column.round (k * d) d = k.
Proof.
  intros Hd. unfold Column.round.
  assert ((2 * Z.abs (k * d) + d) / (2 * d) = Z.abs k) as ->.
  { symmetry. apply (Z.div_unique _ _ _ d); [lia|].
    rewrite Z.abs_mul, (Z.abs_eq d) by lia. lia. }
  rewrite Z.sgn_mul, (Z.sgn_pos d), Z.mul_1_r by lia.
  lia.
Qed.

Lemma hundredths_exact x c :
  Number.isHundredths x c -> Column.hundredths x = c.
Proof.
  unfold Number.isHundredths, Column.hundredths. intros ->.
  apply round_multiple, unit_pos.
Qed.

Lemma isHundredths_ofHundredths c :
  Number.isHundredths (Number.ofHundredths c) c.
Proof. reflexivity. Qed.

Lemma isHundredths_add x y a b c :
  Number.isHundredths x a -> Number.isHundredths y b -> c = a + b ->
  Number.isHundredths (Number.add x y) c.
Proof.
  unfold Number.isHundredths. intros Hx Hy ->. rewrite unit_add.
  unfold Number.add. simpl. nia.
Qed.

Lemma isHundredths_sub x y a b c :
  Number.isHundredths x a -> Number.isHundredths y b -> c = a - b ->
  Number.isHundredths (Number.sub x y) c.
Proof.
  unfold Number.isHundredths. intros Hx Hy ->. rewrite unit_sub.
  unfold Number.sub. simpl. nia.
Qed.

(** Sums and differences of whole hundredths are whole hundredths. *)
Ltac whole :=
  lazymatch goal with
  | |- Number.isHundredths (Number.ofHundredths _) _ =>
      apply isHundredths_ofHundredths
  | |- Number.isHundredths (Number.add _ _) _ =>
      eapply isHundredths_add; [whole | whole | try lia]
  | |- Number.isHundredths (Number.sub _ _) _ =>
      eapply isHundredths_sub; [whole | whole | try lia]
  | |- _ => eassumption
  end.

Lemma decimal_exact precision x c :
  Number.isHundredths x c ->
  Column.decimal precision x
  = if Column.holds precision c then Some c else None.
Proof.
  intros H. unfold Column.decimal. now rewrite (hundredths_exact x c H).
Qed.

Lemma balanceFits_bound c : balanceFits c <-> Z.abs c < 10 ^ 15.
Proof. unfold balanceFits, Column.holds. apply Z.ltb_lt. Qed.

Lemma amountFits_bound c : amountFits c <-> Z.abs c < 10 ^ 10.
Proof. unfold amountFits, Column.holds. apply Z.ltb_lt. Qed.

(** A write of whole hundredths lands as it is, or not at all. *)
Lemma put_exact id x c bal :
  Number.isHundredths x c ->
  put id x bal = if Column.holds 15 c then <[id := c]> bal else bal.
Proof.
  intros H. unfold put. rewrite (decimal_exact 15 x c H).
  now destruct (Column.holds 15 c).
Qed.

Lemma put_fits id x c bal :
  Number.isHundredths x c -> balanceFits c -> put id x bal = <[id := c]> bal.
Proof.
  intros H Hfit. rewrite (put_exact id x c bal H).
  unfold balanceFits in Hfit. now rewrite Hfit.
Qed.

(** The bounds of a request's legs, checked by evaluation. *)
Lemma legsFit_check dto db :
  forallb
    (fun leg : string * Z =>
       match balanceOf db leg.1 with
       | Some b => Column.holds 15 b && Column.holds 15 (b + leg.2)
       | None => true
       end)
    (deltas dto) = true ->
  legsFit dto db.
Proof.
  intros H id delta b Hin Hb.
  rewrite forallb_forall in H.
  specialize (H (id, delta)). simpl in H. rewrite Hb in H.
  apply andb_prop. apply H. now apply list_elem_of_In.
Qed.

Lemma put_is_Some id x bal k :
  is_Some (bal !! id) -> is_Some (put id x bal !! k) <-> is_Some (bal !! k).
Proof.
  intros Hid. unfold put. destruct (Column.decimal 15 x); [|reflexivity].
  rewrite lookup_insert. case_decide; [subst k|reflexivity].
  split; eauto.
Qed.

(** The conversion of a stored decimal to a double agrees with the
    division of doubles where that one is exact in its operands. *)
Example ofHundredths_is_division :
  forallb
    (fun c =>
       PrimFloat.Leibniz.eqb (Double.ofHundredths c)
         (PrimFloat.div (PrimFloat.of_uint63 (Uint63.of_Z c))
            (PrimFloat.of_uint63 100%uint63)))
    (seqZ 1 5000 ++ ((fun k => 999999999999000 + k) <$> seqZ 0 999))%list
  = true.
Proof. vm_compute. reflexivity. Qed.

(** [0.3 - 0.1] is not the number [0.2]. *)
Example minus_is_a_double :
  Double.minus 30 10 <> Double.ofHundredths 20
  /\ Double.minus 8000000 150000 = Double.ofHundredths 7850000.
Proof. split; [vm_compute; discriminate|vm_compute; reflexivity]. Qed.

(** ** The scenarios of the design document, run on the model *)

Example scenario_expense_then_delete :
  let r1 := TransactionService.createTransaction 10 "u1"
              (Scenario.expense "Main" 15000) Scenario.db0 in
  balanceOf r1.2 "Main" = Some 85000 /\
  (Transaction.type <$> transactions r1.2 !! "0") = Some EXPENSE /\
  let r2 := TransactionService.deleteTransaction 20 "0" "u1" r1.2 in
  r2.1 = Ok tt /\
  balanceOf r2.2 "Main" = Some 100000 /\
  transactions r2.2 !! "0" = None.
Proof. vm_compute. repeat split. Qed.

Example scenario_transfer :
  let r1 := TransactionService.createTransaction 10 "u1"
              (Scenario.transfer "A" "B" 20000) Scenario.db0 in
  balanceOf r1.2 "A" = Some 30000 /\
  balanceOf r1.2 "B" = Some 20000.
Proof. vm_compute. repeat split. Qed.

(** ** Running the repositories *)

Lemma isOwnedBy_account_true a u :
  Account.isOwnedBy a u = true <-> Account.userId a = u.
Proof. unfold Account.isOwnedBy. apply String.eqb_eq. Qed.

Lemma isOwnedBy_category_true c u :
  Category.isOwnedBy c u = true <-> Category.userId c = u.
Proof. unfold Category.isOwnedBy. apply String.eqb_eq. Qed.

Lemma isOwnedBy_transaction_true x u :
  Transaction.isOwnedBy x u = true <-> Transaction.userId x = u.
Proof. unfold Transaction.isOwnedBy. apply String.eqb_eq. Qed.

Lemma balances_lookup db id :
  balances db !! id = Account.balance <$> accounts db !! id.
Proof. unfold balances. apply lookup_fmap. Qed.

Lemma save_run now data db x db' :
  TransactionRepo.save now data db = (Ok x, db') ->
  Transaction.id x = fresh (dom (transactions db))
  /\ db' = withTransactions db (<[Transaction.id x := x]> (transactions db))
  /\ transactions db !! Transaction.id x = None
  /\ Transaction.userId x = Transaction.d_userId data
  /\ Transaction.accountId x = Transaction.d_accountId data
  /\ Transaction.type x = Transaction.d_type data
  /\ Transaction.amount x = Column.hundredths (Transaction.d_amount data)
  /\ Transaction.toAccountId x = Transaction.d_toAccountId data.
Proof.
  unfold TransactionRepo.save, Column.decimal. intros H.
  destruct (negb _) in H; [discriminate|].
  destruct (Column.holds 10 _) in H; [|discriminate].
  destruct (_ && _) in H; [|discriminate].
  injection H as <- <-. simpl. repeat split.
  apply not_elem_of_dom, is_fresh.
Qed.

(** A refused insert writes nothing, and is refused by the store's
    client: for the date, for the amount (P2020) or for a foreign key
    (P2003). *)
Lemma save_throw now data db e db' :
  TransactionRepo.save now data db = (Throw e, db') ->
  db' = db
  /\ (e = PrismaClientError
      \/ exists code, e = PrismaClientKnownRequestError code).
Proof.
  unfold TransactionRepo.save. intros H.
  destruct (negb _) in H; [injection H as <- <-; auto|].
  destruct (Column.decimal 10 _) in H; [|injection H as <- <-; eauto].
  destruct (_ && _) in H; [discriminate|].
  injection H as <- <-. eauto.
Qed.

(** What one [updateBalance] on a stored account leaves behind. *)
Lemma save_accounts now data dbw :
  accounts (TransactionRepo.save now data dbw).2 = accounts dbw
  /\ categories (TransactionRepo.save now data dbw).2 = categories dbw
  /\ users (TransactionRepo.save now data dbw).2 = users dbw.
Proof.
  unfold TransactionRepo.save.
  destruct (negb _); [auto|].
  destruct (Column.decimal 10 _); [|auto].
  destruct (_ && _); simpl; auto.
Qed.

(** What the insert has to pass. *)
Lemma save_Ok_iff now data db :
  (exists x db', TransactionRepo.save now data db = (Ok x, db'))
  <-> Date.storable (Transaction.d_transactionDate data) = true
      /\ amountFits (Column.hundredths (Transaction.d_amount data))
      /\ (Transaction.d_userId data ∈ users db)
      /\ is_Some (accounts db !! Transaction.d_accountId data)
      /\ TransactionRepo.categoryKeyHolds db (Transaction.d_categoryId data)
         = true.
Proof.
  unfold TransactionRepo.save, Column.decimal, amountFits.
  destruct (Date.storable _); cbn [negb].
  2: { split; [intros (x & db' & H); discriminate|].
       intros (H & _); discriminate. }
  destruct (Column.holds 10 _).
  2: { split; [intros (x & db' & H); discriminate|].
       intros (_ & H & _); discriminate. }
  destruct (bool_decide (_ ∈ _)) eqn:Hu;
    [apply bool_decide_eq_true in Hu|apply bool_decide_eq_false in Hu];
    (destruct (bool_decide (is_Some _)) eqn:Ha;
     [apply bool_decide_eq_true in Ha|apply bool_decide_eq_false in Ha]);
    destruct (TransactionRepo.categoryKeyHolds _ _); simpl;
    (split; [intros (x & db' & H); first [discriminate|auto 10]|]);
    try (intros (_ & _ & ? & ? & ?); first [contradiction|discriminate]).
  all: intros _; eauto.
Qed.

Lemma updateBalance_effect now id nb db :
  is_Some (accounts db !! id) ->
  exists r db',
    AccountRepo.updateBalance now id nb db = (Ok r, db')
    /\ balances db' = put id nb (balances db)
    /\ transactions db' = transactions db
    /\ categories db' = categories db
    /\ users db' = users db.
Proof.
  intros [a Ha]. unfold AccountRepo.updateBalance, put. rewrite Ha.
  destruct (Column.decimal 15 nb) as [c|].
  - do 2 eexists. split; [reflexivity|]. simpl.
    unfold balances at 1. simpl. rewrite fmap_insert. auto.
  - do 2 eexists. split; [reflexivity|]. auto.
Qed.

Lemma balances_is_Some db id :
  is_Some (balances db !! id) <-> is_Some (accounts db !! id).
Proof. rewrite balances_lookup. apply fmap_is_Some. Qed.

(** ** The outcome of createTransaction and deleteTransaction *)

Lemma createTransaction_outcome now userId dto db :
  match TransactionService.createTransaction now userId dto db with
  | (Ok x, db') =>
      admitted userId dto db
      /\ balances db' = balanceWrites dto (balances db)
      /\ transactions db !! Transaction.id x = None
      /\ transactions db' = <[Transaction.id x := x]> (transactions db)
      /\ Transaction.userId x = userId
      /\ Transaction.accountId x = accountId dto
      /\ Transaction.type x = type dto
      /\ Transaction.amount x = amountOf dto
      /\ Transaction.toAccountId x
         = Transaction.d_toAccountId (newRow now userId dto)
  | (Throw (PrismaClientKnownRequestError _ | PrismaClientError
            | PrismaClientValidationError), db') =>
      admitted userId dto db
      /\ balances db' = balanceWrites dto (balances db)
      /\ transactions db' = transactions db
  | (Throw _, db') => db' = db
  end.
Proof.
  unfold TransactionService.createTransaction, bind at 1.
  unfold AccountRepo.findById at 1.
  destruct (accounts db !! accountId dto) as [a|] eqn:Ha; [|reflexivity].
  destruct (Account.isOwnedBy a userId) eqn:Hown; [|reflexivity].
  apply isOwnedBy_account_true in Hown. cbn [negb].
  assert (Hsrc : is_Some (accounts db !! accountId dto)) by eauto.
  (* every branch ends in the same insert *)
  assert (Hsave : forall dbw,
    balances dbw = balanceWrites dto (balances db) ->
    transactions dbw = transactions db ->
    categories dbw = categories db -> users dbw = users db ->
    admitted userId dto db ->
    match TransactionRepo.save now (newRow now userId dto) dbw with
    | (Ok x, db') =>
        admitted userId dto db
        /\ balances db' = balanceWrites dto (balances db)
        /\ transactions db !! Transaction.id x = None
        /\ transactions db' = <[Transaction.id x := x]> (transactions db)
        /\ Transaction.userId x = userId
        /\ Transaction.accountId x = accountId dto
        /\ Transaction.type x = type dto
        /\ Transaction.amount x = amountOf dto
        /\ Transaction.toAccountId x
           = Transaction.d_toAccountId (newRow now userId dto)
    | (Throw (PrismaClientKnownRequestError _ | PrismaClientError
              | PrismaClientValidationError), db') =>
        admitted userId dto db
        /\ balances db' = balanceWrites dto (balances db)
        /\ transactions db' = transactions db
    | (Throw _, db') => db' = db
    end).
  { intros dbw Hb Ht Hc Hu Hadm.
    destruct (TransactionRepo.save now (newRow now userId dto) dbw)
      as [[x|e] db'] eqn:Hs.
    - apply save_run in Hs as (Hid & -> & Hfresh & Hx).
      rewrite Ht in Hfresh. simpl. rewrite Ht.
      destruct Hx as (? & ? & ? & ? & ?).
      split; [exact Hadm|]. repeat split; auto.
    - apply save_throw in Hs as (-> & [->|[code ->]]); auto. }
  fold (newRow now userId dto).
  destruct (type dto) eqn:Hty.
  - (* income *)
    destruct (updateBalance_effect now (accountId dto)
                (Number.add (Account.getBalance a) (amount dto)) db Hsrc)
      as (r & dbw & Hrun & Hb & Ht & Hc & Hu).
    unfold bind. rewrite Hrun. simpl. apply Hsave; auto.
    + rewrite Hb. unfold balanceWrites. rewrite Hty, balances_lookup, Ha.
      reflexivity.
    + split; [eauto|]. intros; congruence.
  - (* expense *)
    destruct (updateBalance_effect now (accountId dto)
                (Number.sub (Account.getBalance a) (amount dto)) db Hsrc)
      as (r & dbw & Hrun & Hb & Ht & Hc & Hu).
    unfold bind. rewrite Hrun. simpl. apply Hsave; auto.
    + rewrite Hb. unfold balanceWrites. rewrite Hty, balances_lookup, Ha.
      reflexivity.
    + split; [eauto|]. intros; congruence.
  - (* transfer *)
    destruct (toAccountId dto) as [to|] eqn:Hto; [|reflexivity].
    simpl truthy. destruct (String.eqb to "") eqn:Hempty; [reflexivity|].
    apply String.eqb_neq in Hempty. cbn [negb].
    unfold bind, AccountRepo.findById.
    destruct (accounts db !! to) as [b|] eqn:Hb0; [|reflexivity].
    destruct (Account.isOwnedBy b userId) eqn:Hown2; [|reflexivity].
    apply isOwnedBy_account_true in Hown2. cbn [negb].
    destruct (updateBalance_effect now (accountId dto)
                (Number.sub (Account.getBalance a) (amount dto)) db Hsrc)
      as (r & db1 & Hrun & Hb & Ht & Hc & Hu).
    assert (Hdst : is_Some (accounts db1 !! to)).
    { apply balances_is_Some. rewrite Hb.
      apply put_is_Some; apply balances_is_Some; eauto. }
    destruct (updateBalance_effect now to
                (Number.add (Account.getBalance b) (amount dto)) db1 Hdst)
      as (r2 & db2 & Hrun2 & Hb2 & Ht2 & Hc2 & Hu2).
    rewrite Hrun. cbv beta iota. rewrite Hrun2. cbv beta iota.
    unfold ret.
    apply Hsave; try congruence.
    + rewrite Hb2, Hb. unfold balanceWrites.
      rewrite Hty, Hto, !balances_lookup, Ha, Hb0. reflexivity.
    + split; [eauto|]. intros _. exists to, b. auto.
Qed.

Lemma delete_run id dbw x :
  transactions dbw !! id = Some x ->
  TransactionRepo.delete id dbw
  = (Ok true, withTransactions dbw (base.delete id (transactions dbw))).
Proof. intros H. unfold TransactionRepo.delete. now rewrite H. Qed.

Lemma getTransaction_run id userId db x :
  transactions db !! id = Some x ->
  Transaction.userId x = userId ->
  TransactionService.getTransaction id userId db = (Ok x, db).
Proof.
  intros Hx Hown. unfold TransactionService.getTransaction, bind,
    TransactionRepo.findById. rewrite Hx.
  apply isOwnedBy_transaction_true in Hown. now rewrite Hown.
Qed.

Lemma deleteTransaction_outcome now id userId db x :
  transactions db !! id = Some x ->
  Transaction.userId x = userId ->
  exists db',
    TransactionService.deleteTransaction now id userId db = (Ok tt, db')
    /\ transactions db' = base.delete id (transactions db)
    /\ categories db' = categories db
    /\ users db' = users db
    /\ balances db' = reversalWrites x (balances db)
    /\ (skipsReversal x db -> accounts db' = accounts db).
Proof.
  intros Hx Hown.
  unfold TransactionService.deleteTransaction.
  unfold bind at 1. rewrite (getTransaction_run _ _ _ _ Hx Hown).
  assert (Hend : forall dbw (m : Promise unit),
    m db = (Ok tt, dbw) ->
    transactions dbw = transactions db ->
    categories dbw = categories db -> users dbw = users db ->
    balances dbw = reversalWrites x (balances db) ->
    (skipsReversal x db -> accounts dbw = accounts db) ->
    exists db',
      bind m (fun _ => bind (TransactionRepo.delete id) (fun _ => ret tt)) db
      = (Ok tt, db')
      /\ transactions db' = base.delete id (transactions db)
      /\ categories db' = categories db
      /\ users db' = users db
      /\ balances db' = reversalWrites x (balances db)
      /\ (skipsReversal x db -> accounts db' = accounts db)).
  { intros dbw m Hm Ht Hc Hu Hb Hs. unfold bind. rewrite Hm.
    rewrite (delete_run id dbw x) by congruence.
    eexists. split; [reflexivity|]. simpl. rewrite Ht. auto. }
  assert (Hno : forall a, accounts db !! Transaction.accountId x = Some a ->
    (Transaction.type x <> TRANSFER
     \/ exists to b, Transaction.toAccountId x = Some to /\ to <> ""
                     /\ accounts db !! to = Some b) ->
    forall dbw, skipsReversal x db -> accounts dbw = accounts db).
  { intros a Ha Hc dbw [Hs|[Hs1 Hs2]]; [congruence|].
    destruct Hc as [Hc|(to & b & Hto & Hne & Hb)]; [congruence|].
    destruct (Hs2 to Hto); congruence. }
  unfold bind at 1. unfold AccountRepo.findById at 1. cbv beta iota.
  set (amt := Number.ofHundredths (Transaction.amount x)).
  assert (Hrev : reversalWrites x (balances db)
    = match accounts db !! Transaction.accountId x with
      | Some a =>
          match Transaction.type x with
          | EXPENSE =>
              put (Transaction.accountId x)
                (Number.add (Account.getBalance a) amt) (balances db)
          | INCOME =>
              put (Transaction.accountId x)
                (Number.sub (Account.getBalance a) amt) (balances db)
          | TRANSFER =>
              match Transaction.toAccountId x with
              | Some to =>
                  match accounts db !! to with
                  | Some b =>
                      if String.eqb to "" then balances db
                      else put to (Number.sub (Account.getBalance b) amt)
                             (put (Transaction.accountId x)
                                (Number.add (Account.getBalance a) amt)
                                (balances db))
                  | None => balances db
                  end
              | None => balances db
              end
          end
      | None => balances db
      end).
  { unfold reversalWrites. rewrite balances_lookup.
    destruct (accounts db !! Transaction.accountId x); [|reflexivity].
    simpl. destruct (Transaction.type x); try reflexivity.
    destruct (Transaction.toAccountId x) as [to|]; [|reflexivity].
    rewrite balances_lookup. now destruct (accounts db !! to). }
  rewrite Hrev in Hend |- *. clear Hrev.
  destruct (accounts db !! Transaction.accountId x) as [a|] eqn:Ha.
  2: { eapply Hend; auto; reflexivity. }
  assert (Hsrc : is_Some (accounts db !! Transaction.accountId x)) by eauto.
  specialize (Hno a eq_refl).
  unfold Transaction.isExpense, Transaction.isIncome, Transaction.isTransfer.
  destruct (Transaction.type x) eqn:Hty; simpl bool_decide; cbv iota.
  - destruct (updateBalance_effect now (Transaction.accountId x)
                (Number.sub (Account.getBalance a) amt) db Hsrc)
      as (r & dbw & Hrun & Hb & Ht & Hc & Hu).
    eapply (Hend dbw); eauto;
      first [ unfold bind; rewrite Hrun; reflexivity | apply Hno; now left ].
  - destruct (updateBalance_effect now (Transaction.accountId x)
                (Number.add (Account.getBalance a) amt) db Hsrc)
      as (r & dbw & Hrun & Hb & Ht & Hc & Hu).
    eapply (Hend dbw); eauto;
      first [ unfold bind; rewrite Hrun; reflexivity | apply Hno; now left ].
  - destruct (Transaction.toAccountId x) as [to|] eqn:Hto.
    2: { eapply Hend; auto; reflexivity. }
    simpl truthy.
    destruct (accounts db !! to) as [b|] eqn:Hb0.
    2: { destruct (negb (String.eqb to "")); eapply Hend; auto;
           try reflexivity.
         unfold bind, AccountRepo.findById. cbn [andb]. now rewrite Hb0. }
    destruct (String.eqb to "") eqn:Hempty; cbn [negb]; cbv iota.
    { eapply Hend; auto; reflexivity. }
    apply String.eqb_neq in Hempty.
    destruct (updateBalance_effect now (Transaction.accountId x)
                (Number.add (Account.getBalance a) amt) db Hsrc)
      as (r & db1 & Hrun & Hb & Ht & Hc & Hu).
    assert (Hdst : is_Some (accounts db1 !! to)).
    { apply balances_is_Some. rewrite Hb.
      apply put_is_Some; apply balances_is_Some; eauto. }
    destruct (updateBalance_effect now to
                (Number.sub (Account.getBalance b) amt) db1 Hdst)
      as (r2 & db2 & Hrun2 & Hb2 & Ht2 & Hc2 & Hu2).
    eapply (Hend db2); try congruence.
    + unfold bind, AccountRepo.findById. cbn [andb]. cbv beta iota.
      rewrite Hb0, Hrun. cbv beta iota. rewrite Hrun2. reflexivity.
    + apply Hno. right. exists to, b. auto.
Qed.

(** ** Create followed by delete *)

Lemma created_toAccountId now userId dto to :
  type dto = TRANSFER -> toAccountId dto = Some to -> to <> "" ->
  Transaction.d_toAccountId (newRow now userId dto) = Some to.
Proof.
  intros Hty Hto Hne. unfold newRow, Transaction.create. simpl.
  rewrite Hty, Hto. simpl. unfold orNull, truthy.
  apply String.eqb_neq in Hne. now rewrite Hne.
Qed.

(** With an amount of whole hundredths and balances the column holds,
    the balance writes of a request are the plain ones. *)
Lemma balanceWrites_plain userId dto db :
  admitted userId dto db -> wholeHundredths dto -> legsFit dto db ->
  balanceWrites dto (balances db) = plainWrites dto (balances db).
Proof.
  intros [(a & Ha & _) Htr] Hw Hfit.
  assert (Hba : balances db !! accountId dto = Some (Account.balance a))
    by (rewrite balances_lookup, Ha; reflexivity).
  unfold wholeHundredths in Hw. unfold legsFit, deltas in Hfit.
  unfold balanceWrites, plainWrites.
  destruct (type dto) eqn:Hty.
  - rewrite Hba. simpl. apply put_fits; [whole|].
    eapply Hfit; [repeat constructor|exact Hba].
  - rewrite Hba. simpl. apply put_fits; [whole|].
    rewrite <- Z.add_opp_r.
    eapply Hfit; [repeat constructor|exact Hba].
  - destruct (Htr eq_refl) as (to & b & Hto & _ & Hb & _).
    assert (Hbb : balances db !! to = Some (Account.balance b))
      by (rewrite balances_lookup, Hb; reflexivity).
    rewrite Hto in *. rewrite Hba, Hbb. simpl.
    rewrite (put_fits (accountId dto) _ (Account.balance a - amountOf dto)).
    + apply put_fits; [whole|].
      eapply Hfit; [repeat constructor|exact Hbb].
    + whole.
    + rewrite <- Z.add_opp_r.
      eapply Hfit; [repeat constructor|exact Hba].
Qed.

(** The reversal of a row just created undoes the writes of its create. *)
Lemma reversal_undoes_writes now userId dto db x :
  admitted userId dto db -> wholeHundredths dto -> legsFit dto db ->
  Transaction.accountId x = accountId dto ->
  Transaction.type x = type dto ->
  Transaction.amount x = amountOf dto ->
  Transaction.toAccountId x
  = Transaction.d_toAccountId (newRow now userId dto) ->
  reversalWrites x (balanceWrites dto (balances db)) = balances db.
Proof.
  intros Hadm Hw Hfit Hacc Hty Hamt Hto.
  rewrite (balanceWrites_plain userId) by assumption.
  destruct Hadm as [(a & Ha & _) Htr].
  assert (Hba : balances db !! accountId dto = Some (Account.balance a))
    by (rewrite balances_lookup, Ha; reflexivity).
  assert (Hfa : balanceFits (Account.balance a)).
  { unfold legsFit, deltas in Hfit.
    destruct (type dto) eqn:Hdty;
      [| |destruct (Htr eq_refl) as (to & _ & Hdto & _); rewrite Hdto in Hfit];
      eapply Hfit; first [exact Hba | repeat constructor]. }
  unfold reversalWrites, plainWrites. rewrite Hacc, Hty, Hamt.
  destruct (type dto) eqn:Hdty.
  - rewrite lookup_insert_eq, Hba. simpl.
    rewrite (put_fits _ _ (Account.balance a)); [|whole|exact Hfa].
    rewrite insert_insert_eq. now apply insert_id.
  - rewrite lookup_insert_eq, Hba. simpl.
    rewrite (put_fits _ _ (Account.balance a)); [|whole|exact Hfa].
    rewrite insert_insert_eq. now apply insert_id.
  - destruct (Htr eq_refl) as (to & b & Hdto & Hne & Hb & _).
    rewrite (created_toAccountId now userId dto to Hdty Hdto Hne) in Hto.
    assert (Hbb : balances db !! to = Some (Account.balance b))
      by (rewrite balances_lookup, Hb; reflexivity).
    assert (Hfb : balanceFits (Account.balance b)).
    { unfold legsFit, deltas in Hfit. rewrite Hdty, Hdto in Hfit.
      eapply Hfit; [repeat constructor|exact Hbb]. }
    rewrite Hto, Hdto, Hba, Hbb. simpl.
    apply String.eqb_neq in Hne. rewrite Hne.
    rewrite lookup_insert_eq.
    destruct (decide (to = accountId dto)) as [Heq|Hdiff].
    + rewrite Heq in *. rewrite lookup_insert_eq.
      assert (Account.balance b = Account.balance a) as Hab by congruence.
      rewrite (put_fits _ (Number.sub _ _) (Account.balance a));
        [|whole|exact Hfa].
      apply map_eq. intros k. unfold put.
      destruct (Column.decimal 15 _); rewrite !lookup_insert;
        (case_decide; [subst k; now rewrite Hba|reflexivity]).
    + rewrite lookup_insert_ne, lookup_insert_eq by congruence.
      rewrite (put_fits (accountId dto) _ (Account.balance a));
        [|whole|exact Hfa].
      rewrite (put_fits to _ (Account.balance b)); [|whole|exact Hfb].
      apply map_eq. intros k. rewrite !lookup_insert.
      repeat case_decide; subst; congruence.
Qed.

(** C5, as the code has it.  Round trip: for an expense whose amount has
    no digit beyond the second, on an account X whose balance the balance
    column holds before and after the debit, a successful
    createTransaction followed at once by deleteTransaction of the created
    transaction succeeds, returns the stored balance of X (indeed of every
    account) to its value before the create, and the transaction row is
    gone (the table of transactions is the one before the create). *)
Theorem expense_create_delete_round_trip
    now now' userId dto db x db1 :
  type dto = EXPENSE ->
  wholeHundredths dto ->
  legsFit dto db ->
  TransactionService.createTransaction now userId dto db = (Ok x, db1) ->
  exists db2,
    TransactionService.deleteTransaction now' (Transaction.id x) userId db1
    = (Ok tt, db2)
    /\ balanceOf db2 (accountId dto) = balanceOf db (accountId dto)
    /\ balances db2 = balances db
    /\ transactions db2 !! Transaction.id x = None
    /\ transactions db2 = transactions db.
Proof.
  intros Hty Hw Hfit Hrun.
  pose proof (createTransaction_outcome now userId dto db) as Hout.
  rewrite Hrun in Hout.
  destruct Hout as (Hadm & Hb1 & Hfresh & Ht1 & Hu & Hacc & Htx & Hamt & Hto).
  destruct (deleteTransaction_outcome now' (Transaction.id x) userId db1 x)
    as (db2 & Hdel & Ht2 & _ & _ & Hb2 & _); auto.
  { rewrite Ht1. apply lookup_insert_eq. }
  assert (Hbal : balances db2 = balances db).
  { rewrite Hb2, Hb1.
    now apply (reversal_undoes_writes now userId dto db x). }
  exists db2. split; [exact Hdel|].
  split; [unfold balanceOf; now rewrite Hbal|].
  split; [exact Hbal|].
  rewrite Ht2, Ht1. split.
  - apply lookup_delete_eq.
  - rewrite delete_insert_eq. now apply delete_id.
Qed.

Lemma expense_create_delete_round_trip_witness :
  exists x db1,
    TransactionService.createTransaction 10 "u1"
      (Scenario.expense "Main" 15000) Scenario.db0 = (Ok x, db1)
    /\ exists db2,
         TransactionService.deleteTransaction 20 (Transaction.id x) "u1" db1
         = (Ok tt, db2)
         /\ balanceOf db2 "Main" = balanceOf Scenario.db0 "Main"
         /\ balances db2 = balances Scenario.db0
         /\ transactions db2 !! Transaction.id x = None
         /\ transactions db2 = transactions Scenario.db0.
Proof.
  do 2 eexists. split; [vm_compute; reflexivity|].
  apply (expense_create_delete_round_trip 10 20 "u1"
           (Scenario.expense "Main" 15000) Scenario.db0).
  - reflexivity.
  - reflexivity.
  - apply legsFit_check. reflexivity.
  - vm_compute. reflexivity.
Defined.

(** C5 as stated fails: an expense of 0.015 on "Main" with 1000.00 is
    accepted; the create stores the balance 999.985 as 999.99 and the
    amount as 0.02, and the delete that follows leaves 1000.01. *)
Lemma expense_round_trip_fails_on_a_third_digit :
  ~ expenseRoundTrip 10 20 "u1" ColumnScenario.fraction Scenario.db0.
Proof.
  intros H.
  edestruct H as (db2 & Hdel & Hbal & _);
    [reflexivity|vm_compute; reflexivity|].
  vm_compute in Hdel. injection Hdel as <-.
  vm_compute in Hbal. discriminate.
Qed.

Example expense_of_a_third_digit :
  let r1 := TransactionService.createTransaction 10 "u1"
              ColumnScenario.fraction Scenario.db0 in
  balanceOf r1.2 "Main" = Some 99999 /\
  (Transaction.amount <$> transactions r1.2 !! "0") = Some 2 /\
  let r2 := TransactionService.deleteTransaction 20 "0" "u1" r1.2 in
  r2.1 = Ok tt /\
  balanceOf r2.2 "Main" = Some 100001.
Proof. vm_compute. repeat split. Qed.

(** The same at the end of the balance column: the debit of 0.01 on
    "Loan" with -9999999999999.99 is refused by the column and dropped,
    the row is stored, and the delete credits 0.01. *)
Example expense_at_the_column_bound :
  let r1 := TransactionService.createTransaction 10 "u1"
              (Scenario.expense "Loan" 1) ColumnScenario.db in
  (exists x, r1.1 = Ok x) /\
  balanceOf r1.2 "Loan" = Some (-999999999999999) /\
  let r2 := TransactionService.deleteTransaction 20 "0" "u1" r1.2 in
  r2.1 = Ok tt /\
  balanceOf r2.2 "Loan" = Some (-999999999999998).
Proof. vm_compute. split; [eexists; reflexivity|repeat split]. Qed.

(** C4, as the code has it.  Transfer symmetry: for distinct accounts X
    and Y, an amount A with no digit beyond the second, and balances the
    balance column holds before and after the transfer, a successful
    createTransaction of type transfer with accountId = X and
    toAccountId = Y (both accounts then exist and belong to the caller)
    lowers the stored balance of X by exactly A and raises that of Y by
    exactly A; deleteTransaction of that transaction right after succeeds
    and puts both balances back to their values before the transfer. *)
Theorem transfer_create_delete_symmetry
    now now' userId dto db x db1 X Y :
  type dto = TRANSFER ->
  accountId dto = X ->
  toAccountId dto = Some Y ->
  X <> Y ->
  wholeHundredths dto ->
  legsFit dto db ->
  TransactionService.createTransaction now userId dto db = (Ok x, db1) ->
  exists ax ay,
    accounts db !! X = Some ax /\ Account.userId ax = userId
    /\ accounts db !! Y = Some ay /\ Account.userId ay = userId
    /\ balanceOf db1 X = Some (Account.balance ax - amountOf dto)
    /\ balanceOf db1 Y = Some (Account.balance ay + amountOf dto)
    /\ exists db2,
         TransactionService.deleteTransaction now' (Transaction.id x)
           userId db1 = (Ok tt, db2)
         /\ balanceOf db2 X = Some (Account.balance ax)
         /\ balanceOf db2 Y = Some (Account.balance ay)
         /\ transactions db2 = transactions db.
Proof.
  intros Hty HX Hto Hne Hw Hfit Hrun.
  pose proof (createTransaction_outcome now userId dto db) as Hout.
  rewrite Hrun in Hout.
  destruct Hout as (Hadm & Hb1 & Hfresh & Ht1 & Hu & Hacc & Htx & Hamt & Hxto).
  pose proof (reversal_undoes_writes now userId dto db x
                Hadm Hw Hfit Hacc Htx Hamt Hxto) as Hback.
  rewrite <- Hb1 in Hback.
  rewrite (balanceWrites_plain userId) in Hb1 by assumption.
  destruct Hadm as [(ax & Hax & Hox) Htr].
  destruct (Htr Hty) as (to & ay & Hto' & Hnonempty & Hay & Hoy).
  rewrite Hto in Hto'. injection Hto' as <-.
  rewrite HX in *.
  assert (Hbal1 : balances db1
    = <[Y := Account.balance ay + amountOf dto]>
        (<[X := Account.balance ax - amountOf dto]> (balances db))).
  { rewrite Hb1. unfold plainWrites.
    rewrite Hty, Hto, HX, !balances_lookup, Hax, Hay. reflexivity. }
  exists ax, ay. repeat (split; [assumption|]).
  split.
  { unfold balanceOf. rewrite Hbal1, lookup_insert_ne by congruence.
    apply lookup_insert_eq. }
  split.
  { unfold balanceOf. rewrite Hbal1. apply lookup_insert_eq. }
  destruct (deleteTransaction_outcome now' (Transaction.id x) userId db1 x)
    as (db2 & Hdel & Ht2 & _ & _ & Hb2 & _); auto.
  { rewrite Ht1. apply lookup_insert_eq. }
  assert (Hbal2 : balances db2 = balances db).
  { now rewrite Hb2. }
  exists db2. split; [exact Hdel|].
  unfold balanceOf. rewrite Hbal2, !balances_lookup, Hax, Hay.
  repeat split.
  rewrite Ht2, Ht1, delete_insert_eq. now apply delete_id.
Qed.

Lemma transfer_create_delete_symmetry_witness :
  exists x db1,
    TransactionService.createTransaction 10 "u1"
      (Scenario.transfer "A" "B" 20000) Scenario.db0 = (Ok x, db1)
    /\ exists ax ay,
         accounts Scenario.db0 !! "A" = Some ax /\ Account.userId ax = "u1"
         /\ accounts Scenario.db0 !! "B" = Some ay /\ Account.userId ay = "u1"
         /\ balanceOf db1 "A" = Some (Account.balance ax - 20000)
         /\ balanceOf db1 "B" = Some (Account.balance ay + 20000)
         /\ exists db2,
              TransactionService.deleteTransaction 20 (Transaction.id x)
                "u1" db1 = (Ok tt, db2)
              /\ balanceOf db2 "A" = Some (Account.balance ax)
              /\ balanceOf db2 "B" = Some (Account.balance ay)
              /\ transactions db2 = transactions Scenario.db0.
Proof.
  do 2 eexists. split; [vm_compute; reflexivity|].
  apply (transfer_create_delete_symmetry 10 20 "u1"
           (Scenario.transfer "A" "B" 20000) Scenario.db0 _ _ "A" "B").
  - reflexivity.
  - reflexivity.
  - reflexivity.
  - discriminate.
  - reflexivity.
  - apply legsFit_check. reflexivity.
  - vm_compute. reflexivity.
Defined.

(** C4 as stated fails: a transfer of 200.00 from "A" to "Vault", which
    holds 9999999999999.00, succeeds; the credit of "Vault" is refused by
    the balance column and dropped, so its balance is not raised, and the
    delete that follows debits it by 200.00. *)
Lemma transfer_symmetry_fails_at_the_column_bound :
  ~ transferSymmetry 10 20 "u1" (Scenario.transfer "A" "Vault" 20000)
      ColumnScenario.db.
Proof.
  intros H.
  edestruct (H "A" "Vault" (Scenario.account "A" "u1" CHECKING 50000)
               (Scenario.account "Vault" "u1" SAVINGS 999999999999900))
    as (_ & Hy & _);
    [reflexivity|reflexivity|reflexivity|discriminate
    |vm_compute; reflexivity|vm_compute; reflexivity
    |vm_compute; reflexivity|].
  vm_compute in Hy. discriminate.
Qed.

Example transfer_at_the_column_bound :
  let r1 := TransactionService.createTransaction 10 "u1"
              (Scenario.transfer "A" "Vault" 20000) ColumnScenario.db in
  (exists x, r1.1 = Ok x) /\
  balanceOf r1.2 "A" = Some 30000 /\
  balanceOf r1.2 "Vault" = Some 999999999999900 /\
  let r2 := TransactionService.deleteTransaction 20 "0" "u1" r1.2 in
  r2.1 = Ok tt /\
  balanceOf r2.2 "A" = Some 50000 /\
  balanceOf r2.2 "Vault" = Some 999999999979900.
Proof. vm_compute. split; [eexists; reflexivity|repeat split]. Qed.

(** ** Deleting when an account has vanished *)

(** C8.  deleteTransaction of a transaction the caller owns, when a
    referenced account has vanished: the call succeeds and the row is
    deleted in every case; if the primary account no longer exists no
    account is touched; for a transfer whose destination no longer exists
    no account is touched either (neither the source credit nor the
    destination debit is applied); and when source and destination both
    exist, and the balance column holds the two new balances, the source
    is credited and the destination debited. *)
Theorem deleteTransaction_vanished_account now id userId db x :
  transactions db !! id = Some x ->
  Transaction.userId x = userId ->
  exists db',
    TransactionService.deleteTransaction now id userId db = (Ok tt, db')
    /\ transactions db' = base.delete id (transactions db)
    /\ transactions db' !! id = None
    /\ (accounts db !! Transaction.accountId x = None ->
        accounts db' = accounts db)
    /\ (Transaction.type x = TRANSFER ->
        forall to, Transaction.toAccountId x = Some to ->
          (accounts db !! to = None -> accounts db' = accounts db)
          /\ (forall a b,
                to <> "" ->
                accounts db !! Transaction.accountId x = Some a ->
                accounts db !! to = Some b ->
                balanceFits (Account.balance a + Transaction.amount x) ->
                balanceFits (Account.balance b - Transaction.amount x) ->
                balances db'
                = <[to := Account.balance b - Transaction.amount x]>
                    (<[Transaction.accountId x
                       := Account.balance a + Transaction.amount x]>
                       (balances db)))).
Proof.
  intros Hx Hown.
  destruct (deleteTransaction_outcome now id userId db x Hx Hown)
    as (db' & Hrun & Ht & _ & _ & Hb & Hskip).
  exists db'. split; [exact Hrun|]. split; [exact Ht|].
  split; [rewrite Ht; apply lookup_delete_eq|].
  split; [intros Hgone; apply Hskip; now left|].
  intros Hty to Hto. split.
  - intros Hgone. apply Hskip. right. split; [exact Hty|].
    intros to' Hto'. right. congruence.
  - intros a b Hne Ha Hb0 Hfa Hfb. rewrite Hb. unfold reversalWrites.
    rewrite balances_lookup, Ha. simpl.
    rewrite Hty, Hto, balances_lookup, Hb0. simpl.
    apply String.eqb_neq in Hne. rewrite Hne.
    rewrite (put_fits (Transaction.accountId x) _
               (Account.balance a + Transaction.amount x));
      [|whole|exact Hfa].
    apply put_fits; [whole|exact Hfb].
Qed.

Lemma deleteTransaction_vanished_account_witness :
  (exists db',
     TransactionService.deleteTransaction 20 "t1" "u1" VanishedScenario.db
     = (Ok tt, db')
     /\ transactions db' = base.delete "t1" (transactions VanishedScenario.db)
     /\ transactions db' !! "t1" = None
     /\ accounts db' = accounts VanishedScenario.db)
  /\ exists db',
       TransactionService.deleteTransaction 20 "t1" "u1" HistoryScenario.db
       = (Ok tt, db')
       /\ balances db'
          = <["B" := 0 - 20000]>
              (<["A" := 50000 + 20000]> (balances HistoryScenario.db)).
Proof.
  split.
  - destruct (deleteTransaction_vanished_account 20 "t1" "u1"
                VanishedScenario.db VanishedScenario.row)
      as (db' & Hrun & Ht & Hgone & _ & Htransfer).
    + vm_compute. reflexivity.
    + reflexivity.
    + exists db'. repeat (split; [assumption|]).
      apply (Htransfer eq_refl Scenario.unknownId eq_refl).
      vm_compute. reflexivity.
  - destruct (deleteTransaction_vanished_account 20 "t1" "u1"
                HistoryScenario.db HistoryScenario.row)
      as (db' & Hrun & _ & _ & _ & Htransfer).
    + vm_compute. reflexivity.
    + reflexivity.
    + exists db'. split; [exact Hrun|].
      apply (proj2 (Htransfer eq_refl "B" eq_refl)
               (Scenario.account "A" "u1" CHECKING 50000)
               (Scenario.account "B" "u1" CHECKING 0)).
      * discriminate.
      * vm_compute. reflexivity.
      * vm_compute. reflexivity.
      * reflexivity.
      * reflexivity.
Defined.

(** ** Updating a transaction *)

(** C9.  updateTransaction, for every patch: when it succeeds the caller
    owns the target row, the row keeps its id, userId, accountId, type,
    amount, toAccountId, fromAccountId and createdAt, only categoryId,
    description and transactionDate take the patch's values where the
    patch has them (and the updatedAt stamp is refreshed), and every other
    row is as before; when it fails nothing is written.  In both cases the
    accounts table is untouched, and the outcome does not depend on it:
    the update path neither writes nor reads a balance. *)
Theorem updateTransaction_frame now id userId dto db :
  match TransactionService.updateTransaction now id userId dto db with
  | (Ok x', db') =>
      exists x,
        transactions db !! id = Some x
        /\ Transaction.userId x = userId
        /\ transactions db' = <[id := x']> (transactions db)
        /\ x' = Transaction.mk
                  (Transaction.id x) (Transaction.userId x)
                  (Transaction.accountId x)
                  (match TransactionRepo.u_categoryId dto with
                   | Some c => Some c
                   | None => Transaction.categoryId x
                   end)
                  (Transaction.type x) (Transaction.amount x)
                  (default (Transaction.description x)
                     (TransactionRepo.u_description dto))
                  (default (Transaction.transactionDate x)
                     (TransactionRepo.u_transactionDate dto))
                  (Transaction.createdAt x) now
                  (Transaction.toAccountId x) (Transaction.fromAccountId x)
        /\ accounts db' = accounts db
        /\ categories db' = categories db
        /\ users db' = users db
  | (Throw _, db') => db' = db
  end
  /\ forall accs,
       TransactionService.updateTransaction now id userId dto
         (withAccounts db accs)
       = let (r, db') :=
           TransactionService.updateTransaction now id userId dto db in
         (r, withAccounts db' accs).
Proof.
  unfold TransactionService.updateTransaction,
    TransactionService.getTransaction, TransactionRepo.update,
    TransactionRepo.findById, TransactionRepo.categoryKeyHolds,
    bind, ret, throw.
  simpl.
  destruct (transactions db !! id) as [x|] eqn:Hx; [|split; reflexivity].
  destruct (Transaction.isOwnedBy x userId) eqn:Hown; simpl;
    [|split; reflexivity].
  rewrite Hx.
  apply isOwnedBy_transaction_true in Hown.
  destruct (TransactionRepo.u_categoryId dto) as [c|];
    [destruct (bool_decide (is_Some (categories db !! c)))|]; simpl;
    split; try reflexivity; exists x; auto 10.
Qed.

(** ** Atomicity of createTransaction *)

Lemma balanceWrites_deltas userId dto db :
  admitted userId dto db ->
  toAccountId dto <> Some (accountId dto) \/ type dto <> TRANSFER ->
  wholeHundredths dto -> legsFit dto db ->
  balanceWrites dto (balances db) = foldl applyDelta (balances db) (deltas dto).
Proof.
  intros Hadm Hdistinct Hw Hfit.
  rewrite (balanceWrites_plain userId) by assumption.
  destruct Hadm as [(a & Ha & _) Htr].
  unfold plainWrites, deltas, applyDelta.
  destruct (type dto) eqn:Hty; simpl.
  - apply map_eq. intros k. rewrite lookup_insert, lookup_alter.
    case_decide; [subst k|reflexivity].
    rewrite balances_lookup, Ha. simpl. f_equal.
  - apply map_eq. intros k. rewrite lookup_insert, lookup_alter.
    case_decide; [subst k|reflexivity].
    rewrite balances_lookup, Ha. simpl. f_equal.
  - destruct (Htr eq_refl) as (to & b & Hto & _ & Hb & _).
    rewrite Hto. simpl.
    assert (Hne : accountId dto <> to).
    { destruct Hdistinct as [H|H]; congruence. }
    apply map_eq. intros k.
    rewrite !lookup_insert, !lookup_alter.
    repeat case_decide; subst; try congruence;
      rewrite ?lookup_alter, ?balances_lookup, ?Ha, ?Hb;
      repeat case_decide; try congruence; simpl; f_equal.
Qed.

(** C3, as the code has it.  For a request whose account ids have passed
    the DTO's validation, createTransaction makes all its checks (the
    source account exists and is the caller's; a transfer names a
    destination that exists and is the caller's) before its first write: a
    call they reject leaves the database as it was.  It then writes the
    balances and inserts the row last, with no rollback: when the insert is
    refused (the store does not take the date, the amount column does not
    hold the amount, or a foreign key fails) the call throws the error of
    the store's client, no row is created, and the balance writes stay.
    When the call succeeds the row is inserted under a fresh id and the
    balance writes are in place.  For an amount with no digit beyond the
    second, each balance write is the balance fetched at the start of the
    call with the amount added or subtracted, and a write the balance
    column cannot hold is dropped without an error; for income, expense
    and a transfer between two different accounts whose balances the
    column holds, before and after, the balance writes are exactly the
    deltas of the request. *)
Theorem createTransaction_writes_before_insert now userId dto db :
  (idsValidated dto ->
   match TransactionService.createTransaction now userId dto db with
   | (Ok x, db') =>
       admitted userId dto db
       /\ transactions db !! Transaction.id x = None
       /\ transactions db' = <[Transaction.id x := x]> (transactions db)
       /\ (wholeHundredths dto ->
           balances db' = balanceWrites dto (balances db))
   | (Throw (PrismaClientKnownRequestError _ | PrismaClientError
             | PrismaClientValidationError), db') =>
       admitted userId dto db
       /\ transactions db' = transactions db
       /\ (wholeHundredths dto ->
           balances db' = balanceWrites dto (balances db))
   | (Throw _, db') => db' = db
   end)
  /\ (admitted userId dto db ->
      toAccountId dto <> Some (accountId dto) \/ type dto <> TRANSFER ->
      wholeHundredths dto ->
      legsFit dto db ->
      balanceWrites dto (balances db)
      = foldl applyDelta (balances db) (deltas dto)).
Proof.
  split; [intros _|apply balanceWrites_deltas].
  pose proof (createTransaction_outcome now userId dto db) as H.
  destruct (TransactionService.createTransaction now userId dto db)
    as [[x|e] db'].
  - destruct H as (? & ? & ? & ? & _). auto.
  - destruct e; auto; destruct H as (? & ? & ?); auto.
Qed.

Example createTransaction_dangling_category :
  let r := TransactionService.createTransaction 10 "u1"
             DanglingCategory.dto Scenario.db0 in
  r.1 = Throw (PrismaClientKnownRequestError "P2003")
  /\ transactions r.2 = transactions Scenario.db0
  /\ balanceOf Scenario.db0 "Main" = Some 100000
  /\ balanceOf r.2 "Main" = Some 85000.
Proof. vm_compute. repeat split. Qed.

(** C3 as stated fails: a call that throws after the balance write leaves
    the new balance behind. *)
Lemma createTransaction_partial_state :
  ~ leavesNoPartialState 10 "u1" DanglingCategory.dto Scenario.db0.
Proof.
  unfold leavesNoPartialState.
  destruct (TransactionService.createTransaction 10 "u1"
              DanglingCategory.dto Scenario.db0) as [r db'] eqn:Hrun.
  vm_compute in Hrun. injection Hrun as <- <-.
  intros [_ H]. apply (f_equal (fun m => m !! "Main")) in H.
  vm_compute in H. discriminate.
Qed.

Lemma createTransaction_writes_before_insert_witness :
  (let r := TransactionService.createTransaction 10 "u1" UuidScenario.dto
              UuidScenario.db in
   r.1 = Throw (PrismaClientKnownRequestError "P2003")
   /\ admitted "u1" UuidScenario.dto UuidScenario.db
   /\ transactions r.2 = transactions UuidScenario.db
   /\ balances r.2
      = balanceWrites UuidScenario.dto (balances UuidScenario.db))
  /\ admitted "u1" (Scenario.transfer "A" "B" 20000) Scenario.db0
  /\ balanceWrites (Scenario.transfer "A" "B" 20000) (balances Scenario.db0)
     = foldl applyDelta (balances Scenario.db0)
         (deltas (Scenario.transfer "A" "B" 20000)).
Proof.
  split.
  - assert (Hids : idsValidated UuidScenario.dto)
      by (split; [reflexivity|discriminate]).
    pose proof (proj1 (createTransaction_writes_before_insert 10 "u1"
                         UuidScenario.dto UuidScenario.db) Hids) as H.
    cbv zeta.
    destruct (TransactionService.createTransaction 10 "u1" UuidScenario.dto
                UuidScenario.db) as [r db'] eqn:Hrun.
    assert (Hr : r = Throw (PrismaClientKnownRequestError "P2003")).
    { apply (f_equal fst) in Hrun. vm_compute in Hrun. now symmetry. }
    rewrite Hr in H. destruct H as (Hadm & Ht & Hb).
    split; [exact Hr|]. split; [exact Hadm|]. split; [exact Ht|].
    apply Hb. reflexivity.
  - assert (Hadm : admitted "u1" (Scenario.transfer "A" "B" 20000)
                     Scenario.db0).
    { split.
      - eexists. split; reflexivity.
      - intros _. do 2 eexists. repeat split; try reflexivity.
        discriminate. }
    split; [exact Hadm|].
    apply (proj2 (createTransaction_writes_before_insert 10 "u1"
                    (Scenario.transfer "A" "B" 20000) Scenario.db0)).
    + exact Hadm.
    + left. discriminate.
    + reflexivity.
    + apply legsFit_check. reflexivity.
Defined.

(** ** A transfer from an account to itself *)



Example self_transfer_run :
  let r := TransactionService.createTransaction 10 "u1"
             (Scenario.transfer "Main" "Main" 15000) Scenario.db0 in
  (exists x, r.1 = Ok x) /\ balanceOf r.2 "Main" = Some 115000.
Proof. vm_compute. split; [eexists|]; reflexivity. Qed.


(** ** The non-negative balance rule *)

(** The entity's check lets a balance through only if it respects the
    rule. *)
Lemma entity_updateBalance_checked now a nb a' :
  Account.updateBalance now a nb = inr a' ->
  Account.accountType a <> CREDIT -> 0 <= nb.
Proof.
  unfold Account.updateBalance. intros H Hty.
  destruct (nb <? 0) eqn:Hneg; [|lia].
  rewrite bool_decide_eq_false_2 in H by exact Hty. discriminate.
Qed.

(** [AccountService.updateAccountBalance] runs the entity's check before
    the write, and so keeps the rule. *)
Lemma updateAccountBalance_keeps_rule now accountId userId balance db :
  nonNegativeBalances db ->
  nonNegativeBalances
    (AccountService.updateAccountBalance now accountId userId balance db).2.
Proof.
  intros Hinv.
  unfold AccountService.updateAccountBalance, AccountService.getAccountById,
    bind, AccountRepo.findById, throw, ret.
  destruct (accounts db !! accountId) as [a|] eqn:Ha; [|exact Hinv].
  destruct (Account.isOwnedBy a userId); simpl; [|exact Hinv].
  destruct (Account.updateBalance now a balance) as [msg|a'] eqn:Hcheck;
    [exact Hinv|].
  unfold AccountRepo.updateBalance. rewrite Ha.
  rewrite (decimal_exact 15 _ balance (isHundredths_ofHundredths _)).
  destruct (Column.holds 15 balance); simpl; [|exact Hinv].
  unfold nonNegativeBalances. simpl.
  apply map_Forall_insert_2; [|exact Hinv].
  simpl. apply (entity_updateBalance_checked now a balance a' Hcheck).
Qed.

(** [TransactionService.createTransaction] does not: an expense of whole
    hundredths on a stored account of the caller is written whenever the
    column holds the new balance, be it negative, and the call succeeds
    whenever the insert is accepted. *)
Lemma expense_is_written_unchecked now userId dto db a :
  type dto = EXPENSE ->
  accounts db !! accountId dto = Some a ->
  Account.userId a = userId ->
  wholeHundredths dto ->
  balanceFits (Account.balance a - amountOf dto) ->
  insertAccepted now userId dto db ->
  exists x db',
    TransactionService.createTransaction now userId dto db = (Ok x, db')
    /\ balanceOf db' (accountId dto)
       = Some (Account.balance a - amountOf dto).
Proof.
  intros Hty Ha Hown Hw Hfit (Hdate & Hamt & Huser & Hcat).
  assert (Hsrc : is_Some (accounts db !! accountId dto)) by eauto.
  destruct (updateBalance_effect now (accountId dto)
              (Number.sub (Account.getBalance a) (amount dto)) db Hsrc)
    as (r1 & db1 & Hrun1 & Hb1 & Ht1 & Hc1 & Hu1).
  assert (Hbal : balances db1 !! accountId dto
                 = Some (Account.balance a - amountOf dto)).
  { rewrite Hb1.
    rewrite (put_fits _ _ (Account.balance a - amountOf dto));
      [apply lookup_insert_eq| |exact Hfit].
    unfold wholeHundredths in Hw. unfold Account.getBalance. whole. }
  assert (Hrun : TransactionService.createTransaction now userId dto db
                 = TransactionRepo.save now (newRow now userId dto) db1).
  { unfold TransactionService.createTransaction, newRow, bind,
      AccountRepo.findById.
    rewrite Ha. apply isOwnedBy_account_true in Hown. rewrite Hown.
    cbn [negb]. rewrite Hty, Hrun1. reflexivity. }
  rewrite Hrun.
  destruct (proj2 (save_Ok_iff now (newRow now userId dto) db1))
    as (x & db' & Hsave).
  { simpl. rewrite Hu1. repeat (split; [assumption|]). split.
    - apply balances_is_Some. rewrite Hbal. eauto.
    - unfold TransactionRepo.categoryKeyHolds in *. now rewrite Hc1. }
  exists x, db'. split; [exact Hsave|].
  unfold balanceOf, balances.
  replace db' with (TransactionRepo.save now (newRow now userId dto) db1).2
    by now rewrite Hsave.
  rewrite (proj1 (save_accounts _ _ _)). exact Hbal.
Qed.

Lemma nonNegativeBalances_db0 : nonNegativeBalances Scenario.db0.
Proof.
  intros k a Hk _. simpl in Hk.
  repeat (rewrite lookup_insert in Hk; case_decide;
          [injection Hk as <-; simpl; lia|]).
  rewrite lookup_empty in Hk. discriminate.
Qed.

(** C1 at its failing input.  From a database that satisfies the rule,
    createTransaction with an expense of 10000.00 on the checking account
    "Main" (balance 1000.00) succeeds and stores the balance -9000.00: the
    rule is broken after the call. *)
Theorem createTransaction_overdraws_checking_account :
  let r := TransactionService.createTransaction 10 "u1"
             (Scenario.expense "Main" 1000000) Scenario.db0 in
  nonNegativeBalances Scenario.db0
  /\ (exists x, r.1 = Ok x)
  /\ (Account.accountType <$> accounts r.2 !! "Main") = Some CHECKING
  /\ balanceOf r.2 "Main" = Some (-900000)
  /\ ~ nonNegativeBalances r.2.
Proof.
  split; [exact nonNegativeBalances_db0|].
  split; [vm_compute; eexists; reflexivity|].
  split; [vm_compute; reflexivity|].
  split; [vm_compute; reflexivity|].
  intros H.
  assert (Hmain : accounts (TransactionService.createTransaction 10 "u1"
                     (Scenario.expense "Main" 1000000) Scenario.db0).2
                  !! "Main"
                  = Some (Account.mk "Main" "u1" "Main" CHECKING RSD
                            (-900000) None None true 0 10))
    by (vm_compute; reflexivity).
  specialize (H "Main" _ Hmain). simpl in H.
  assert (0 <= -900000) by (apply H; discriminate). lia.
Qed.

(** C2 at its failing input, the design document's own scenario: account
    A holds 300.00 after the transfer; the expense of 10000.00 on A is not
    rejected, the call succeeds, the row is stored and A holds -9700.00. *)
Theorem createTransaction_accepts_expense_beyond_balance :
  let db1 := (TransactionService.createTransaction 10 "u1"
                (Scenario.transfer "A" "B" 20000) Scenario.db0).2 in
  let r := TransactionService.createTransaction 11 "u1"
             (Scenario.expense "A" 1000000) db1 in
  balanceOf db1 "A" = Some 30000
  /\ (Account.accountType <$> accounts db1 !! "A") = Some CHECKING
  /\ (exists x, r.1 = Ok x /\ transactions r.2 !! Transaction.id x = Some x)
  /\ balanceOf r.2 "A" = Some (-970000)
  /\ ~ (exists e, r.1 = Throw e /\ isInvalidBalanceOperation e).
Proof.
  split; [vm_compute; reflexivity|].
  split; [vm_compute; reflexivity|].
  split; [vm_compute; eexists; split; reflexivity|].
  split; [vm_compute; reflexivity|].
  intros (e & He & _). vm_compute in He. discriminate.
Qed.

(** ** Existence before ownership *)

Lemma bind_throw {A B} (m : Promise A) (k : A -> Promise B) db e db' :
  m db = (Throw e, db') -> bind m k db = (Throw e, db').
Proof. intros H. unfold bind. now rewrite H. Qed.

Lemma not_owned_account a u :
  Account.userId a <> u -> Account.isOwnedBy a u = false.
Proof. intros H. now apply String.eqb_neq. Qed.

Lemma not_owned_transaction x u :
  Transaction.userId x <> u -> Transaction.isOwnedBy x u = false.
Proof. intros H. now apply String.eqb_neq. Qed.

Lemma not_owned_category c u :
  Category.userId c <> u -> Category.isOwnedBy c u = false.
Proof. intros H. now apply String.eqb_neq. Qed.

Lemma getTransaction_guard :
  existenceBeforeOwnership transactionOwner TransactionService.getTransaction.
Proof.
  intros id u db.
  unfold transactionOwner, TransactionService.getTransaction, bind,
    TransactionRepo.findById.
  destruct (transactions db !! id) as [x|]; simpl; split.
  - discriminate.
  - intros o [= <-] Hne. rewrite (not_owned_transaction x u Hne).
    eexists. split; [reflexivity|exact I].
  - intros _. eexists. split; [reflexivity|exact I].
  - discriminate.
Qed.

Lemma getAccountById_guard :
  existenceBeforeOwnership accountOwner AccountService.getAccountById.
Proof.
  intros id u db.
  unfold accountOwner, AccountService.getAccountById, bind,
    AccountRepo.findById.
  destruct (accounts db !! id) as [a|]; simpl; split.
  - discriminate.
  - intros o [= <-] Hne. rewrite (not_owned_account a u Hne).
    eexists. split; [reflexivity|exact I].
  - intros _. eexists. split; [reflexivity|exact I].
  - discriminate.
Qed.

Lemma getCategory_guard :
  existenceBeforeOwnership categoryOwner CategoryService.getCategory.
Proof.
  intros id u db.
  unfold categoryOwner, CategoryService.getCategory, bind,
    CategoryRepo.findById.
  destruct (categories db !! id) as [c|]; simpl; split.
  - discriminate.
  - intros o [= <-] Hne. rewrite (not_owned_category c u Hne).
    eexists. split; [reflexivity|exact I].
  - intros _. eexists. split; [reflexivity|exact I].
  - discriminate.
Qed.

(** The guard of [createTransaction], on the source and on the
    destination account. *)
Lemma createTransaction_guard now userId dto db :
  accountOwner db (accountId dto) <> Some userId ->
  exists e,
    TransactionService.createTransaction now userId dto db = (Throw e, db)
    /\ isAccessDenied e.
Proof.
  intros Ho. unfold accountOwner in Ho.
  unfold TransactionService.createTransaction, bind, AccountRepo.findById.
  destruct (accounts db !! accountId dto) as [a|].
  - assert (Hne : Account.userId a <> userId)
      by (intros H; apply Ho; simpl; now rewrite H).
    rewrite (not_owned_account a userId Hne).
    eexists. split; [reflexivity|exact I].
  - eexists. split; [reflexivity|exact I].
Qed.

Lemma createTransaction_destination_guard now userId dto db to :
  accountOwner db (accountId dto) = Some userId ->
  type dto = TRANSFER ->
  toAccountId dto = Some to ->
  to <> "" ->
  accountOwner db to <> Some userId ->
  exists e,
    TransactionService.createTransaction now userId dto db = (Throw e, db)
    /\ isAccessDenied e.
Proof.
  intros Hsrc Hty Hto Hne Ho. unfold accountOwner in *.
  unfold TransactionService.createTransaction, bind, AccountRepo.findById.
  destruct (accounts db !! accountId dto) as [a|]; [|discriminate].
  injection Hsrc as Hsrc. apply isOwnedBy_account_true in Hsrc.
  rewrite Hsrc, Hty, Hto. unfold truthy.
  apply String.eqb_neq in Hne. rewrite Hne. cbn [negb]. cbv beta iota.
  destruct (accounts db !! to) as [b|].
  - assert (Hnb : Account.userId b <> userId)
      by (intros H; apply Ho; simpl; now rewrite H).
    rewrite (not_owned_account b userId Hnb).
    eexists. split; [reflexivity|exact I].
  - eexists. split; [reflexivity|exact I].
Qed.

Lemma getAccountTransactions_guard :
  absentIsAccessDenied accountOwner TransactionService.getAccountTransactions.
Proof.
  intros id u db _ Ho.
  unfold accountOwner in Ho.
  unfold TransactionService.getAccountTransactions, bind,
    AccountRepo.findById.
  destruct (accounts db !! id) as [a|].
  - assert (Hne : Account.userId a <> u)
      by (intros H; apply Ho; simpl; now rewrite H).
    rewrite (not_owned_account a u Hne).
    eexists. split; [reflexivity|exact I].
  - eexists. split; [reflexivity|exact I].
Qed.

(** Every remaining by-id operation opens with one of the three guards. *)
Ltac behind_guard G :=
  let id := fresh "id" in
  let u := fresh "u" in
  let db := fresh "db" in
  let Hm := fresh "Hm" in
  let Hf := fresh "Hf" in
  let e := fresh "e" in
  let Hrun := fresh "Hrun" in
  let He := fresh "He" in
  intros id u db; destruct (G id u db) as [Hm Hf]; split;
  [ intros Hn; destruct (Hm Hn) as (e & Hrun & He)
  | intros o Ho Hne; destruct (Hf o Ho Hne) as (e & Hrun & He) ];
  exists e; (split; [apply bind_throw; exact Hrun | exact He]).

(** An operation that answers an absent entity NotFound and somebody
    else's AccessDenied, and never the owner AccessDenied, is guarded. *)
Lemma guardedById_intro {A} (owner : Database -> string -> option string)
    (op : string -> string -> Promise A) :
  existenceBeforeOwnership owner op ->
  (forall id userId db e db',
     owner db id = Some userId ->
     op id userId db = (Throw e, db') -> ~ isAccessDenied e) ->
  guardedById owner op.
Proof.
  intros Hguard Howner id userId db.
  destruct (Hguard id userId db) as [Hm Hf].
  split; [intros _; exact Hm|]. split; [exact Hf|].
  intros Ho e db'. now apply Howner.
Qed.

(** Past the guard, no branch of a by-id operation throws
    ForbiddenException. *)
Ltac past_guard :=
  repeat match goal with
         | H : context [match ?t with _ => _ end] |- _ => destruct t eqn:?
         end;
  simplify_eq; simpl; tauto.

Ltac owner_of_transaction :=
  let Ho := fresh "Ho" in
  let Hrun := fresh "Hrun" in
  let Hx := fresh "Hx" in
  intros id userId db e db' Ho Hrun;
  unfold transactionOwner in Ho;
  unfold TransactionService.getTransaction, TransactionRepo.findById,
    bind, ret, throw in Hrun;
  cbv beta iota in Hrun;
  destruct (transactions db !! id) as [x|] eqn:Hx; [|discriminate Ho];
  injection Ho as Ho; apply isOwnedBy_transaction_true in Ho;
  rewrite Ho in Hrun; cbn [negb] in Hrun; cbv beta iota in Hrun.

Ltac owner_of_account :=
  let Ho := fresh "Ho" in
  let Hrun := fresh "Hrun" in
  let Hx := fresh "Hx" in
  intros id userId db e db' Ho Hrun;
  unfold accountOwner in Ho;
  unfold AccountService.getAccountById, AccountRepo.findById,
    bind, ret, throw in Hrun;
  cbv beta iota in Hrun;
  destruct (accounts db !! id) as [x|] eqn:Hx; [|discriminate Ho];
  injection Ho as Ho; apply isOwnedBy_account_true in Ho;
  rewrite Ho in Hrun; cbn [negb] in Hrun; cbv beta iota in Hrun.

Ltac owner_of_category :=
  let Ho := fresh "Ho" in
  let Hrun := fresh "Hrun" in
  let Hx := fresh "Hx" in
  intros id userId db e db' Ho Hrun;
  unfold categoryOwner in Ho;
  unfold CategoryService.getCategory, CategoryRepo.findById,
    bind, ret, throw in Hrun;
  cbv beta iota in Hrun;
  destruct (categories db !! id) as [x|] eqn:Hx; [|discriminate Ho];
  injection Ho as Ho; apply isOwnedBy_category_true in Ho;
  rewrite Ho in Hrun; cbn [negb] in Hrun; cbv beta iota in Hrun.

(** C7, as the code has it.  For ids the id columns can hold, the by-id
    reads and mutations of the three services (getTransaction,
    updateTransaction, deleteTransaction; getAccountById, updateAccount,
    updateAccountBalance, deactivateAccount, activateAccount,
    deleteAccount; getCategory, updateCategory, deleteCategory) check
    existence before ownership: an absent entity is answered NotFound, a
    present one owned by somebody else AccessDenied, nothing is written in
    either case, and the owner is never answered AccessDenied.
    createTransaction (for its source and its destination account) and
    getAccountTransactions answer AccessDenied in both cases: an absent
    account is not told apart from somebody else's. *)
Theorem existence_before_ownership now insensitiveEquals :
  (guardedById transactionOwner TransactionService.getTransaction
   /\ (forall dto,
         guardedById transactionOwner
           (fun id u => TransactionService.updateTransaction now id u dto))
   /\ guardedById transactionOwner
        (TransactionService.deleteTransaction now))
  /\ (guardedById accountOwner AccountService.getAccountById
      /\ (forall dto,
            guardedById accountOwner
              (fun id u => AccountService.updateAccount now id u dto))
      /\ (forall balance,
            guardedById accountOwner
              (fun id u =>
                 AccountService.updateAccountBalance now id u balance))
      /\ guardedById accountOwner (AccountService.deactivateAccount now)
      /\ guardedById accountOwner (AccountService.activateAccount now)
      /\ guardedById accountOwner (AccountService.deleteAccount now))
  /\ (guardedById categoryOwner CategoryService.getCategory
      /\ (forall dto,
            guardedById categoryOwner
              (fun id u =>
                 CategoryService.updateCategory insensitiveEquals now id u
                   dto))
      /\ guardedById categoryOwner (CategoryService.deleteCategory now))
  /\ (absentIsAccessDenied accountOwner
        TransactionService.getAccountTransactions
      /\ (forall userId dto db,
            Uuid.wellFormed (accountId dto) = true ->
            accountOwner db (accountId dto) <> Some userId ->
            exists e,
              TransactionService.createTransaction now userId dto db
              = (Throw e, db)
              /\ isAccessDenied e)
      /\ (forall userId dto db to,
            accountOwner db (accountId dto) = Some userId ->
            type dto = TRANSFER ->
            toAccountId dto = Some to ->
            Uuid.wellFormed to = true ->
            accountOwner db to <> Some userId ->
            exists e,
              TransactionService.createTransaction now userId dto db
              = (Throw e, db)
              /\ isAccessDenied e)).
Proof.
  split; [|split; [|split]].
  - split; [|split].
    + apply guardedById_intro; [apply getTransaction_guard|].
      owner_of_transaction. discriminate.
    + intros dto. apply guardedById_intro.
      * unfold TransactionService.updateTransaction.
        behind_guard getTransaction_guard.
      * unfold TransactionService.updateTransaction at 1.
        owner_of_transaction.
        unfold bind, TransactionRepo.update, ret, throw in Hrun.
        past_guard.
    + apply guardedById_intro.
      * unfold TransactionService.deleteTransaction.
        behind_guard getTransaction_guard.
      * intros id userId db e db' Ho Hrun.
        unfold transactionOwner in Ho.
        destruct (transactions db !! id) as [x|] eqn:Hx; [|discriminate Ho].
        injection Ho as Ho.
        destruct (deleteTransaction_outcome now id userId db x Hx Ho)
          as (db2 & Hdel & _).
        congruence.
  - split; [|split; [|split; [|split; [|split]]]].
    + apply guardedById_intro; [apply getAccountById_guard|].
      owner_of_account. discriminate.
    + intros dto. apply guardedById_intro.
      * unfold AccountService.updateAccount.
        behind_guard getAccountById_guard.
      * unfold AccountService.updateAccount at 1.
        owner_of_account.
        unfold bind, AccountRepo.existsByUserIdAndName, AccountRepo.update,
          ret, throw in Hrun.
        past_guard.
    + intros balance. apply guardedById_intro.
      * unfold AccountService.updateAccountBalance.
        behind_guard getAccountById_guard.
      * unfold AccountService.updateAccountBalance at 1.
        owner_of_account.
        unfold bind, AccountRepo.updateBalance, ret, throw in Hrun.
        past_guard.
    + apply guardedById_intro.
      * unfold AccountService.deactivateAccount.
        behind_guard getAccountById_guard.
      * unfold AccountService.deactivateAccount at 1.
        owner_of_account.
        unfold bind, AccountRepo.update, ret, throw in Hrun.
        past_guard.
    + apply guardedById_intro.
      * unfold AccountService.activateAccount.
        behind_guard getAccountById_guard.
      * unfold AccountService.activateAccount at 1.
        owner_of_account.
        unfold bind, AccountRepo.update, ret, throw in Hrun.
        past_guard.
    + apply guardedById_intro.
      * unfold AccountService.deleteAccount.
        behind_guard getAccountById_guard.
      * unfold AccountService.deleteAccount at 1.
        owner_of_account.
        unfold bind, AccountRepo.update, ret, throw in Hrun.
        past_guard.
  - split; [|split].
    + apply guardedById_intro; [apply getCategory_guard|].
      owner_of_category. discriminate.
    + intros dto. apply guardedById_intro.
      * unfold CategoryService.updateCategory.
        behind_guard getCategory_guard.
      * unfold CategoryService.updateCategory at 1.
        owner_of_category.
        unfold bind, CategoryRepo.existsByUserIdAndName, CategoryRepo.update,
          ret, throw in Hrun.
        past_guard.
    + apply guardedById_intro.
      * unfold CategoryService.deleteCategory.
        behind_guard getCategory_guard.
      * unfold CategoryService.deleteCategory at 1.
        owner_of_category.
        unfold bind, CategoryRepo.update, ret, throw in Hrun.
        past_guard.
  - split; [|split].
    + apply getAccountTransactions_guard.
    + intros userId dto db _. apply createTransaction_guard.
    + intros userId dto db to Hsrc Hty Hto Hwf.
      apply createTransaction_destination_guard; try assumption.
      intros ->. discriminate.
Qed.

Lemma existence_before_ownership_witness :
  (exists e,
     TransactionService.getTransaction Scenario.unknownId "u1" Scenario.db0
     = (Throw e, Scenario.db0)
     /\ isNotFound e)
  /\ (exists e,
        AccountService.updateAccountBalance 10 "Main" "u2" 5 Scenario.db0
        = (Throw e, Scenario.db0)
        /\ isAccessDenied e)
  /\ (forall e db',
        AccountService.updateAccountBalance 10 "Main" "u1" (-5) Scenario.db0
        = (Throw e, db') ->
        ~ isAccessDenied e)
  /\ (exists e,
        TransactionService.createTransaction 10 "u1"
          (Scenario.expense Scenario.unknownId 15000) Scenario.db0
        = (Throw e, Scenario.db0)
        /\ isAccessDenied e).
Proof.
  destruct (existence_before_ownership 10 String.eqb)
    as (Htx & Hacc & _ & Hcreate).
  split; [|split; [|split]].
  - destruct Htx as (Hget & _).
    apply (proj1 (Hget Scenario.unknownId "u1" Scenario.db0));
      reflexivity.
  - destruct Hacc as (_ & _ & Hbal & _).
    apply (proj1 (proj2 (Hbal 5 "Main" "u2" Scenario.db0)) "u1").
    + vm_compute. reflexivity.
    + discriminate.
  - destruct Hacc as (_ & _ & Hbal & _).
    apply (proj2 (proj2 (Hbal (-5) "Main" "u1" Scenario.db0))).
    vm_compute. reflexivity.
  - destruct Hcreate as (_ & Hsrc & _). apply Hsrc.
    + reflexivity.
    + vm_compute. discriminate.
Defined.

(** C7 as stated fails for createTransaction: the source account it names
    is absent, and the answer is AccessDenied, not NotFound. *)
Lemma createTransaction_absent_account_not_NotFound :
  ~ existenceBeforeOwnership accountOwner
      (fun id u =>
         TransactionService.createTransaction 10 u
           (Scenario.expense id 15000)).
Proof.
  intros H.
  destruct (H Scenario.unknownId "u1" Scenario.db0) as [Hmissing _].
  destruct Hmissing as (e & Hrun & He); [reflexivity|].
  vm_compute in Hrun. injection Hrun as <-. exact He.
Qed.

Example createTransaction_absent_account :
  TransactionService.createTransaction 10 "u1"
    (Scenario.expense Scenario.unknownId 15000) Scenario.db0
  = (Throw (ForbiddenException "Access denied to this account"), Scenario.db0).
Proof. reflexivity. Qed.

(** ** The monthly window *)

Lemma DayFromYear_epoch : Date.DayFromYear 1970 = 0.
Proof. reflexivity. Qed.

Lemma DayFromYear_succ y :
  Date.DayFromYear (y + 1) = Date.DayFromYear y + Date.DaysInYear y.
Proof.
  unfold Date.DayFromYear, Date.DaysInYear.
  destruct (y mod 4 =? 0) eqn:H4; destruct (y mod 100 =? 0) eqn:H100;
    destruct (y mod 400 =? 0) eqn:H400; simpl;
    rewrite ?Z.eqb_eq, ?Z.eqb_neq in *;
    Z.to_euclidean_division_equations; lia.
Qed.

Lemma DaysInYear_leap y : Date.DaysInYear y = 365 + Date.InLeapYear y.
Proof.
  unfold Date.InLeapYear, Date.DaysInYear.
  destruct (y mod 4 =? 0), (y mod 100 =? 0), (y mod 400 =? 0); reflexivity.
Qed.

Lemma month_cases m :
  1 <= m <= 12 ->
  m = 1 \/ m = 2 \/ m = 3 \/ m = 4 \/ m = 5 \/ m = 6 \/ m = 7 \/ m = 8
  \/ m = 9 \/ m = 10 \/ m = 11 \/ m = 12.
Proof. lia. Qed.

Ltac eval_month_tables :=
  repeat match goal with
         | |- context [seqZ 1 ?n] =>
             let l := eval vm_compute in (seqZ 1 n) in
             change (seqZ 1 n) with l
         end;
  repeat match goal with
         | |- context [Date.MonthStart (?a - ?b) _] =>
             let v := eval vm_compute in (a - b) in
             change (a - b) with v
         end;
  cbn [fmap list_fmap foldr Calendar.DaysInMonth Date.MonthStart].

Lemma MonthStart_daysBefore leap m :
  1 <= m <= 12 -> Date.MonthStart (m - 1) leap = Calendar.daysBefore leap m.
Proof.
  intros H. apply month_cases in H. unfold Calendar.daysBefore.
  repeat (destruct H as [->|H]); try subst m; eval_month_tables; lia.
Qed.

Lemma MonthStart_month_end leap m :
  1 <= m <= 11 ->
  Date.MonthStart m leap
  = Calendar.daysBefore leap m + Calendar.DaysInMonth leap m.
Proof.
  intros H. assert (H' : 1 <= m <= 12) by lia.
  apply month_cases in H'. unfold Calendar.daysBefore.
  repeat (destruct H' as [->|H']); try subst m; try lia;
    eval_month_tables; lia.
Qed.

Lemma daysBefore_december leap : Calendar.daysBefore leap 12 = 334 + leap.
Proof. unfold Calendar.daysBefore. eval_month_tables. lia. Qed.

(** [new Date(year, month - 1, 1)] is the first instant of the month. *)
Lemma construct_startDate UTC year month :
  1 <= month <= 12 -> ~ (0 <= year <= 99) ->
  Date.construct UTC year (month - 1) 1 0 0 0
  = Date.TimeClip (Calendar.firstInstant UTC year month).
Proof.
  intros Hm Hy. unfold Date.construct, Calendar.firstInstant,
    Calendar.civilTime, Calendar.civilDay, Date.MakeDate, Date.MakeDay,
    Date.MakeTime.
  replace ((0 <=? year) && (year <=? 99)) with false
    by (symmetry; apply andb_false_iff; lia).
  rewrite Z.div_small, Z.mod_small, !Z.add_0_r by lia.
  rewrite MonthStart_daysBefore by exact Hm.
  do 2 f_equal. unfold Date.msPerDay. lia.
Qed.

(** [new Date(year, month, 0, 23, 59, 59)]: day 0 of the next month is the
    last day of this one. *)
Lemma construct_endDate UTC year month :
  1 <= month <= 12 -> ~ (0 <= year <= 99) ->
  Date.construct UTC year month 0 23 59 59
  = Date.TimeClip (Calendar.lastInstant UTC year month).
Proof.
  intros Hm Hy. unfold Date.construct, Calendar.lastInstant,
    Calendar.civilTime, Calendar.civilDay, Calendar.lastDay, Date.MakeDate,
    Date.MakeDay, Date.MakeTime.
  replace ((0 <=? year) && (year <=? 99)) with false
    by (symmetry; apply andb_false_iff; lia).
  do 2 f_equal.
  destruct (decide (month = 12)) as [->|Hne].
  - change (12 / 12) with 1. change (12 mod 12) with 0.
    rewrite DayFromYear_succ, DaysInYear_leap, daysBefore_december.
    simpl Date.MonthStart. simpl Calendar.DaysInMonth.
    unfold Date.msPerDay. lia.
  - rewrite Z.div_small, Z.mod_small, !Z.add_0_r by lia.
    rewrite MonthStart_month_end by lia. unfold Date.msPerDay. lia.
Qed.

(** ** Monthly totals *)

Lemma inSum_countsToward userId ty a b x :
  TransactionRepo.inSum userId ty (Some a) (Some b) x = true
  <-> countsToward userId ty a b x.
Proof.
  unfold TransactionRepo.inSum, countsToward.
  rewrite !andb_true_iff, String.eqb_eq, bool_decide_eq_true, !Z.leb_le.
  tauto.
Qed.

Lemma filter_inSum userId ty a b l :
  List.filter (TransactionRepo.inSum userId ty (Some a) (Some b)) l
  = filter (countsToward userId ty a b) l.
Proof.
  induction l as [|x l IH]; [reflexivity|].
  simpl. rewrite filter_cons, IH.
  destruct (TransactionRepo.inSum userId ty (Some a) (Some b) x) eqn:Hx.
  - apply inSum_countsToward in Hx. now rewrite decide_True.
  - rewrite decide_False; [reflexivity|].
    intros Hc. apply inSum_countsToward in Hc. congruence.
Qed.

Lemma storable_representable t :
  Date.storable t = true -> Calendar.representable t.
Proof.
  unfold Date.storable, Calendar.representable. intros H.
  apply andb_prop in H as [H1 H2].
  apply Z.leb_le in H1. apply Z.leb_le in H2. lia.
Qed.

Lemma getSumByType_run userId ty a b db :
  Date.storable a = true -> Date.storable b = true ->
  TransactionRepo.getSumByType userId ty (Some (Some a)) (Some (Some b)) db
  = (Ok (totalOf userId ty a b db), db).
Proof.
  intros Ha Hb.
  unfold TransactionRepo.getSumByType, totalOf, rows. simpl.
  rewrite Ha, Hb. simpl. now rewrite filter_inSum.
Qed.

Lemma sumAmounts_Permutation l l' :
  l ≡ₚ l' -> TransactionRepo.sumAmounts l = TransactionRepo.sumAmounts l'.
Proof.
  unfold TransactionRepo.sumAmounts.
  induction 1; rewrite ?fmap_cons; simpl; lia.
Qed.

Lemma totalOf_insert_other userId ty a b db k x :
  transactions db !! k = None ->
  Transaction.type x <> ty ->
  totalOf userId ty a b (withTransactions db (<[k := x]> (transactions db)))
  = totalOf userId ty a b db.
Proof.
  intros Hfresh Hty. unfold totalOf, rows. simpl.
  apply sumAmounts_Permutation.
  rewrite (map_to_list_insert _ _ _ Hfresh). simpl.
  rewrite filter_cons, decide_False; [reflexivity|].
  unfold countsToward. tauto.
Qed.

Lemma totalOf_empty_window userId ty a b db :
  (forall x, x ∈ rows db -> ~ a <= Transaction.transactionDate x <= b) ->
  totalOf userId ty a b db = 0.
Proof.
  intros Hout. unfold totalOf.
  induction (rows db) as [|x l IH]; [reflexivity|].
  rewrite filter_cons, decide_False.
  - apply IH. intros y Hy. apply Hout. now right.
  - intros (_ & _ & Hin). apply (Hout x); [now left|exact Hin].
Qed.

(** The answer of [getMonthlyTotals] over a window the store takes. *)
Lemma getMonthlyTotals_run UTC userId year month db a b :
  Date.construct UTC year (month - 1) 1 0 0 0 = Some a ->
  Date.construct UTC year month 0 23 59 59 = Some b ->
  Date.storable a = true ->
  Date.storable b = true ->
  TransactionRepo.getMonthlyTotals UTC userId year month db
  = (Ok (TransactionRepo.mkTotals
           (totalOf userId INCOME a b db)
           (totalOf userId EXPENSE a b db)
           (Double.minus (totalOf userId INCOME a b db)
              (totalOf userId EXPENSE a b db))),
     db).
Proof.
  intros Ha Hb Hsa Hsb. unfold TransactionRepo.getMonthlyTotals.
  rewrite Ha, Hb. unfold bind.
  rewrite !getSumByType_run by assumption. reflexivity.
Qed.

(** C6, as the code has it.  For a month from 1 to 12 of a year outside
    0..99, whose first and last instants the store takes as dates:
    getMonthlyTotals returns, without error and without writing, income
    equal to the sum of the amounts of the user's income rows dated from
    day 1 at 00:00:00 to the last day at 23:59:59 (both ends included),
    expense equal to the same sum over the expense rows, and net equal to
    the difference of the two as the language computes it on its numbers,
    which need not be the decimal difference (0.30 and 0.10 give
    0.19999999999999998); a transfer row added to the table changes
    nothing in the answer; and when no row is dated in the window the
    answer is {income: 0, expense: 0, net: 0}. *)
Theorem getMonthlyTotals_window UTC userId year month db :
  1 <= month <= 12 ->
  ~ (0 <= year <= 99) ->
  Date.storable (Calendar.firstInstant UTC year month) = true ->
  Date.storable (Calendar.lastInstant UTC year month) = true ->
  let a := Calendar.firstInstant UTC year month in
  let b := Calendar.lastInstant UTC year month in
  TransactionRepo.getMonthlyTotals UTC userId year month db
  = (Ok (TransactionRepo.mkTotals
           (totalOf userId INCOME a b db)
           (totalOf userId EXPENSE a b db)
           (Double.minus (totalOf userId INCOME a b db)
              (totalOf userId EXPENSE a b db))),
     db)
  /\ (forall k x,
        transactions db !! k = None ->
        Transaction.type x = TRANSFER ->
        (TransactionRepo.getMonthlyTotals UTC userId year month
           (withTransactions db (<[k := x]> (transactions db)))).1
        = (TransactionRepo.getMonthlyTotals UTC userId year month db).1)
  /\ ((forall x, x ∈ rows db ->
         ~ a <= Transaction.transactionDate x <= b) ->
      (TransactionRepo.getMonthlyTotals UTC userId year month db).1
      = Ok (TransactionRepo.mkTotals 0 0 0%float)).
Proof.
  intros Hm Hy Ha Hb a b.
  assert (Hrun : forall db0,
    TransactionRepo.getMonthlyTotals UTC userId year month db0
    = (Ok (TransactionRepo.mkTotals
             (totalOf userId INCOME a b db0)
             (totalOf userId EXPENSE a b db0)
             (Double.minus (totalOf userId INCOME a b db0)
                (totalOf userId EXPENSE a b db0))),
       db0)).
  { intros db0. apply getMonthlyTotals_run; try assumption.
    - rewrite construct_startDate by assumption.
      unfold Date.TimeClip.
      now rewrite (proj2 (Z.leb_le _ _) (storable_representable _ Ha)).
    - rewrite construct_endDate by assumption.
      unfold Date.TimeClip.
      now rewrite (proj2 (Z.leb_le _ _) (storable_representable _ Hb)). }
  split; [apply Hrun|split].
  - intros k x Hfresh Hty. rewrite !Hrun. simpl.
    rewrite !totalOf_insert_other by (assumption || congruence).
    reflexivity.
  - intros Hout. rewrite Hrun. simpl.
    rewrite !totalOf_empty_window by exact Hout. reflexivity.
Qed.

Example scenario_monthly_stats :
  (TransactionService.getMonthlyStats StatsScenario.UTC "u1" 2024 9
     StatsScenario.db).1
  = Ok (TransactionRepo.mkTotals 8000000 150000 78500%float)
  /\ (TransactionService.getMonthlyStats StatsScenario.UTC "u1" 2024 8
        StatsScenario.db).1
     = Ok (TransactionRepo.mkTotals 0 0 0%float).
Proof. vm_compute. split; reflexivity. Qed.

(** An income of 0.30 and an expense of 0.10 in September 2024: net is
    0.19999999999999998 (0x1.9999999999999p-3), not the number 0.2 of the
    decimal difference (0x1.999999999999ap-3). *)
Example net_is_a_difference_of_doubles :
  (TransactionService.getMonthlyStats StatsScenario.UTC "u1" 2024 9
     StatsScenario.cents).1
  = Ok (TransactionRepo.mkTotals 30 10 0x1.9999999999999p-3%float)
  /\ monthlyTotalsOf StatsScenario.UTC "u1" 2024 9 StatsScenario.cents
     = TransactionRepo.mkTotals 30 10 0x1.999999999999ap-3%float
  /\ 0x1.9999999999999p-3%float <> 0x1.999999999999ap-3%float.
Proof.
  split; [vm_compute; reflexivity|].
  split; [vm_compute; reflexivity|].
  intros H. apply (f_equal (PrimFloat.eqb 0x1.999999999999ap-3%float)) in H.
  vm_compute in H. discriminate.
Qed.

Lemma getMonthlyTotals_window_witness :
  TransactionRepo.getMonthlyTotals StatsScenario.UTC "u1" 2024 9
    StatsScenario.db
  = (Ok (TransactionRepo.mkTotals 8000000 150000 78500%float),
     StatsScenario.db).
Proof.
  apply (getMonthlyTotals_window StatsScenario.UTC "u1" 2024 9
           StatsScenario.db).
  - lia.
  - lia.
  - reflexivity.
  - reflexivity.
Defined.

(** C6 as stated fails for a year from 0 to 99: asked for September of
    the year 50, the code sums September 1950. *)
Lemma getMonthlyTotals_two_digit_year :
  ~ monthlyTotalsAsSpecified StatsScenario.UTC "u1" 50 9 StatsScenario.db1950.
Proof.
  unfold monthlyTotalsAsSpecified. vm_compute. discriminate.
Qed.

Example getMonthlyTotals_two_digit_year_run :
  (TransactionRepo.getMonthlyTotals StatsScenario.UTC "u1" 50 9
     StatsScenario.db1950).1
  = Ok (TransactionRepo.mkTotals 10000 0 100%float)
  /\ monthlyTotalsOf StatsScenario.UTC "u1" 50 9 StatsScenario.db1950
     = TransactionRepo.mkTotals 0 0 0%float
  /\ Date.construct StatsScenario.UTC 50 8 1 0 0 0
     = Some (Calendar.firstInstant StatsScenario.UTC 1950 9).
Proof. vm_compute. repeat split. Qed.


(** * Further properties of the services *)

(** ** createTransaction, step by step *)

Lemma updateBalance_writeBalance now id nb db :
  exists r,
    AccountRepo.updateBalance now id nb db = (Ok r, writeBalance now id nb db).
Proof.
  unfold AccountRepo.updateBalance, writeBalance.
  destruct (accounts db !! id), (Column.decimal 15 nb); eexists; reflexivity.
Qed.

Lemma writeBalance_tables now id nb db :
  transactions (writeBalance now id nb db) = transactions db
  /\ categories (writeBalance now id nb db) = categories db
  /\ users (writeBalance now id nb db) = users db.
Proof.
  unfold writeBalance.
  destruct (accounts db !! id), (Column.decimal 15 nb); auto.
Qed.

Lemma writeBalance_lookup now id nb db k :
  accounts (writeBalance now id nb db) !! k
  = match Column.decimal 15 nb with
    | Some c =>
        if decide (id = k)
        then rebalanced now c <$> accounts db !! k
        else accounts db !! k
    | None => accounts db !! k
    end.
Proof.
  unfold writeBalance.
  destruct (accounts db !! id) as [a|] eqn:Ha,
    (Column.decimal 15 nb) as [c|]; simpl; try reflexivity.
  - rewrite lookup_insert. case_decide; subst; [now rewrite Ha|reflexivity].
  - case_decide; subst; [now rewrite Ha|reflexivity].
Qed.

Lemma writePhase_tables now dto db :
  transactions (writePhase now dto db) = transactions db
  /\ categories (writePhase now dto db) = categories db
  /\ users (writePhase now dto db) = users db.
Proof.
  unfold writePhase.
  destruct (type dto); [| |destruct (toAccountId dto)];
    rewrite ?(proj1 (writeBalance_tables _ _ _ _)),
            ?(proj1 (proj2 (writeBalance_tables _ _ _ _))),
            ?(proj2 (proj2 (writeBalance_tables _ _ _ _)));
    auto.
Qed.

(** Once the checks have passed, [createTransaction] is its balance writes
    followed by [save]. *)
Lemma createTransaction_admitted_run now userId dto db :
  admitted userId dto db ->
  TransactionService.createTransaction now userId dto db
  = TransactionRepo.save now (newRow now userId dto) (writePhase now dto db).
Proof.
  intros [(a & Ha & Hown) Htr].
  apply isOwnedBy_account_true in Hown.
  unfold TransactionService.createTransaction, newRow, writePhase, bind,
    AccountRepo.findById.
  rewrite Ha, Hown. cbn [negb]. rewrite balances_lookup, Ha.
  destruct (type dto) eqn:Hty.
  - destruct (updateBalance_writeBalance now (accountId dto)
                (Number.add (Account.getBalance a) (amount dto)) db)
      as [r ->].
    reflexivity.
  - destruct (updateBalance_writeBalance now (accountId dto)
                (Number.sub (Account.getBalance a) (amount dto)) db)
      as [r ->].
    reflexivity.
  - destruct (Htr eq_refl) as (to & b & Hto & Hne & Hb & Hownb).
    apply isOwnedBy_account_true in Hownb.
    rewrite Hto. unfold truthy. apply String.eqb_neq in Hne. rewrite Hne.
    cbn [negb]. cbv beta iota. rewrite Hb, Hownb. cbn [negb]. cbv beta iota.
    rewrite balances_lookup, Hb.
    destruct (updateBalance_writeBalance now (accountId dto)
                (Number.sub (Account.getBalance a) (amount dto)) db)
      as [r ->].
    cbv beta iota.
    destruct (updateBalance_writeBalance now to
                (Number.add (Account.getBalance b) (amount dto))
                (writeBalance now (accountId dto)
                   (Number.sub (Account.getBalance a) (amount dto)) db))
      as [r2 ->].
    reflexivity.
Qed.

Lemma createTransaction_not_admitted now userId dto db :
  ~ admitted userId dto db ->
  exists e,
    TransactionService.createTransaction now userId dto db = (Throw e, db)
    /\ (e = ForbiddenException "Access denied to this account"
        \/ e = ForbiddenException "Access denied to destination account"
        \/ e = BadRequestException
                 "Destination account required for transfers").
Proof.
  intros Hnot.
  unfold TransactionService.createTransaction, bind, AccountRepo.findById,
    throw.
  destruct (accounts db !! accountId dto) as [a|] eqn:Ha; [|eauto].
  destruct (Account.isOwnedBy a userId) eqn:Hown; cbn [negb]; [|eauto].
  apply isOwnedBy_account_true in Hown.
  destruct (type dto) eqn:Hty;
    try (exfalso; apply Hnot; split; [eauto|intros; congruence]).
  destruct (toAccountId dto) as [to|] eqn:Hto; [|eauto 6].
  unfold truthy. destruct (String.eqb to "") eqn:Hempty; cbn [negb];
    [eauto 6|].
  apply String.eqb_neq in Hempty. cbv beta iota.
  destruct (accounts db !! to) as [b|] eqn:Hb; [|eauto 6].
  destruct (Account.isOwnedBy b userId) eqn:Hownb; cbn [negb]; [|eauto 6].
  apply isOwnedBy_account_true in Hownb.
  exfalso. apply Hnot. split; [eauto|]. intros _. exists to, b. auto.
Qed.





(** X2.  The row a successful createTransaction stores: it belongs to the
    caller, carries the request's account, type and description, the
    request's amount as the amount column keeps it (rounded to two
    digits: 0.015 is stored as 0.02), a falsy categoryId as null, the
    request's date or else the time of the call, and a key no row had
    before.  For a transfer toAccountId is the destination asked for and
    fromAccountId repeats accountId, both accounts being stored accounts
    of the caller; for an income or an expense both are null, whatever
    toAccountId the request carried. *)
Theorem createTransaction_row now userId dto db x db' :
  TransactionService.createTransaction now userId dto db = (Ok x, db') ->
  x = Transaction.mk (Transaction.id x) userId (accountId dto)
        (orNull (categoryId dto)) (type dto) (amountOf dto)
        (description dto) (orNow now (transactionDate dto)) now now
        (Transaction.toAccountId x) (Transaction.fromAccountId x)
  /\ amountOf dto = Column.round (Number.digits (amount dto) * 100)
                      (10 ^ Z.of_nat (Number.scale (amount dto)))
  /\ transactions db !! Transaction.id x = None
  /\ transactions db' !! Transaction.id x = Some x
  /\ (type dto = TRANSFER ->
      exists to a b,
        toAccountId dto = Some to
        /\ Transaction.toAccountId x = Some to
        /\ Transaction.fromAccountId x = Some (accountId dto)
        /\ accounts db !! accountId dto = Some a
        /\ Account.userId a = userId
        /\ accounts db !! to = Some b
        /\ Account.userId b = userId)
  /\ (type dto <> TRANSFER ->
      Transaction.toAccountId x = None
      /\ Transaction.fromAccountId x = None).
Proof.
  intros Hrun.
  pose proof (createTransaction_outcome now userId dto db) as Hout.
  rewrite Hrun in Hout.
  destruct Hout as (Hadm & _ & Hfresh & Ht & _).
  rewrite createTransaction_admitted_run in Hrun by exact Hadm.
  unfold TransactionRepo.save, Column.decimal in Hrun.
  destruct (negb _) in Hrun; [discriminate|].
  destruct (Column.holds 10 _) in Hrun; [|discriminate].
  destruct (_ && _) in Hrun; [|discriminate].
  injection Hrun as Hx _.
  split; [rewrite <- Hx; reflexivity|].
  split; [reflexivity|].
  split; [exact Hfresh|].
  split; [rewrite Ht; apply lookup_insert_eq|].
  destruct Hadm as [(a & Ha & Hown) Htr].
  split.
  - intros Hty. destruct (Htr Hty) as (to & b & Hto & Hne & Hb & Hownb).
    exists to, a, b. rewrite <- Hx. simpl.
    rewrite Hty, Hto. simpl. unfold orNull, truthy.
    apply String.eqb_neq in Hne. rewrite Hne. simpl. auto 10.
  - intros Hty. rewrite <- Hx. simpl.
    rewrite !bool_decide_eq_false_2 by exact Hty. auto.
Qed.

Lemma createTransaction_row_witness :
  (exists x db',
     TransactionService.createTransaction 10 "u1"
       (Scenario.transfer "A" "B" 20000) Scenario.db0 = (Ok x, db')
     /\ Transaction.toAccountId x = Some "B"
     /\ Transaction.fromAccountId x = Some "A"
     /\ Transaction.amount x = 20000
     /\ Transaction.transactionDate x = 10)
  /\ exists x db',
       TransactionService.createTransaction 10 "u1" ColumnScenario.fraction
         Scenario.db0 = (Ok x, db')
       /\ Transaction.amount x = 2.
Proof.
  split.
  - do 2 eexists. split; [vm_compute; reflexivity|].
    destruct (createTransaction_row 10 "u1" (Scenario.transfer "A" "B" 20000)
                Scenario.db0 _ _ eq_refl) as (Hx & _ & _ & _ & Htr & _).
    destruct (Htr eq_refl) as (to & a & b & Hto & Hxto & Hxfrom & _).
    injection Hto as <-.
    split; [exact Hxto|]. split; [exact Hxfrom|]. split; reflexivity.
  - do 2 eexists. split; [vm_compute; reflexivity|].
    destruct (createTransaction_row 10 "u1" ColumnScenario.fraction
                Scenario.db0 _ _ eq_refl) as (Hx & _).
    apply (f_equal Transaction.amount) in Hx. exact Hx.
Defined.

Lemma sameButBalance_refl a : sameButBalance a a.
Proof. unfold sameButBalance. auto 10. Qed.

Lemma sameButBalance_rebalanced now nb a a' :
  sameButBalance a a' -> sameButBalance a (rebalanced now nb a').
Proof. unfold sameButBalance, rebalanced. simpl. auto. Qed.

Lemma framed_refl touched o k : framed touched o o k.
Proof.
  destruct o as [a|]; simpl; [|exact I].
  split; [apply sameButBalance_refl|auto].
Qed.

Lemma framed_writeBalance (touched : string -> Prop) now id nb db0 db k :
  touched id ->
  framed touched (accounts db0 !! k) (accounts db !! k) k ->
  framed touched (accounts db0 !! k)
    (accounts (writeBalance now id nb db) !! k) k.
Proof.
  intros Hid H. rewrite writeBalance_lookup.
  destruct (Column.decimal 15 nb) as [c|]; [|exact H].
  case_decide; [subst k|exact H].
  unfold framed in *.
  destruct (accounts db0 !! id) as [a|], (accounts db !! id) as [a'|];
    simpl; try contradiction; auto.
  destruct H as [H _]. split.
  - now apply sameButBalance_rebalanced.
  - intros Hn. contradiction.
Qed.

(** X3.  Whatever its outcome, createTransaction leaves the categories and
    the users as they were, creates and removes no account, changes in an
    account nothing but its balance and its updatedAt stamp, and leaves
    every account other than the source (and, for a transfer, the
    destination) exactly as it was. *)
Theorem createTransaction_frame now userId dto db r db' :
  TransactionService.createTransaction now userId dto db = (r, db') ->
  categories db' = categories db
  /\ users db' = users db
  /\ forall k,
       framed (fun k => k = accountId dto
                        \/ (type dto = TRANSFER /\ toAccountId dto = Some k))
         (accounts db !! k) (accounts db' !! k) k.
Proof.
  intros Hrun.
  pose proof (createTransaction_outcome now userId dto db) as Hout.
  rewrite Hrun in Hout.
  assert (Hadm : admitted userId dto db \/ db' = db).
  { destruct r as [x|e]; [left; tauto|].
    destruct e; auto; left; tauto. }
  destruct Hadm as [Hadm| ->].
  2: { repeat split; auto. intros k. apply framed_refl. }
  rewrite createTransaction_admitted_run in Hrun by exact Hadm.
  assert (Hdb : db' = (TransactionRepo.save now (newRow now userId dto)
                         (writePhase now dto db)).2) by now rewrite Hrun.
  destruct (save_accounts now (newRow now userId dto) (writePhase now dto db))
    as (Ha & Hc & Hu).
  destruct (writePhase_tables now dto db) as (_ & Hc' & Hu').
  rewrite Hdb, Ha, Hc, Hu. split; [exact Hc'|]. split; [exact Hu'|].
  intros k. unfold writePhase.
  destruct (type dto) eqn:Hty.
  - apply framed_writeBalance; [now left|apply framed_refl].
  - apply framed_writeBalance; [now left|apply framed_refl].
  - destruct (toAccountId dto) as [to|] eqn:Hto; [|apply framed_refl].
    apply framed_writeBalance; [right; auto|].
    apply framed_writeBalance; [now left|apply framed_refl].
Qed.

Lemma createTransaction_frame_witness :
  exists r db',
    TransactionService.createTransaction 10 "u1"
      (Scenario.transfer "A" "B" 20000) Scenario.db0 = (r, db')
    /\ accounts db' !! "Main" = accounts Scenario.db0 !! "Main"
    /\ categories db' = categories Scenario.db0.
Proof.
  do 2 eexists. split; [reflexivity|].
  destruct (createTransaction_frame 10 "u1" (Scenario.transfer "A" "B" 20000)
              Scenario.db0 _ _ eq_refl) as (Hc & _ & Hk).
  split; [|exact Hc].
  specialize (Hk "Main").
  destruct (accounts Scenario.db0 !! "Main") as [a|] eqn:Ha;
    [|vm_compute in Ha; discriminate].
  destruct (accounts _ !! "Main") as [a'|]; simpl in Hk; [|contradiction].
  destruct Hk as [_ Hk]. f_equal. apply Hk.
  intros [H|[_ H]]; discriminate.
Defined.

(** ** Reading back what was written *)

(** X4.  After a successful createTransaction, getTransaction with the new
    id gives the caller exactly the row that was returned, and gives any
    other user AccessDenied. *)
Theorem created_transaction_is_readable now userId dto db x db' :
  TransactionService.createTransaction now userId dto db = (Ok x, db') ->
  TransactionService.getTransaction (Transaction.id x) userId db'
  = (Ok x, db')
  /\ forall other,
       other <> userId ->
       TransactionService.getTransaction (Transaction.id x) other db'
       = (Throw (ForbiddenException "Access denied"), db').
Proof.
  intros Hrun.
  pose proof (createTransaction_outcome now userId dto db) as Hout.
  rewrite Hrun in Hout.
  destruct Hout as (_ & _ & _ & Ht & Hu & _).
  assert (Hx : transactions db' !! Transaction.id x = Some x)
    by (rewrite Ht; apply lookup_insert_eq).
  split.
  - now apply getTransaction_run.
  - intros other Hne.
    unfold TransactionService.getTransaction, bind, TransactionRepo.findById.
    rewrite Hx, not_owned_transaction by congruence. reflexivity.
Qed.

Lemma created_transaction_is_readable_witness :
  exists x db',
    TransactionService.createTransaction 10 "u1"
      (Scenario.expense "Main" 15000) Scenario.db0 = (Ok x, db')
    /\ TransactionService.getTransaction (Transaction.id x) "u1" db'
       = (Ok x, db')
    /\ TransactionService.getTransaction (Transaction.id x) "u2" db'
       = (Throw (ForbiddenException "Access denied"), db').
Proof.
  do 2 eexists. split; [vm_compute; reflexivity|].
  destruct (created_transaction_is_readable 10 "u1"
              (Scenario.expense "Main" 15000) Scenario.db0 _ _ eq_refl)
    as [Hown Hother].
  split; [exact Hown|]. apply Hother. discriminate.
Defined.

(** X5.  A transaction can be deleted once: after a successful
    deleteTransaction, deleting the same id again fails with NotFound and
    writes nothing, so a reversal is never applied twice. *)
Theorem deleteTransaction_twice now now' id userId db db' :
  TransactionService.deleteTransaction now id userId db = (Ok tt, db') ->
  TransactionService.deleteTransaction now' id userId db'
  = (Throw (NotFoundException "Transaction not found"), db').
Proof.
  intros Hrun.
  assert (Hx : exists x, transactions db !! id = Some x
                         /\ Transaction.userId x = userId).
  { unfold TransactionService.deleteTransaction, bind at 1 in Hrun.
    unfold TransactionService.getTransaction, bind at 1,
      TransactionRepo.findById in Hrun.
    destruct (transactions db !! id) as [x|]; [|discriminate].
    destruct (Transaction.isOwnedBy x userId) eqn:Hown; [|discriminate].
    apply isOwnedBy_transaction_true in Hown. eauto. }
  destruct Hx as (x & Hx & Hown).
  destruct (deleteTransaction_outcome now id userId db x Hx Hown)
    as (db2 & Hrun2 & Ht & _).
  rewrite Hrun in Hrun2. injection Hrun2 as <-.
  unfold TransactionService.deleteTransaction.
  apply bind_throw.
  unfold TransactionService.getTransaction, bind, TransactionRepo.findById.
  now rewrite Ht, lookup_delete_eq.
Qed.

Lemma deleteTransaction_twice_witness :
  exists db',
    TransactionService.deleteTransaction 20 "t1" "u1" VanishedScenario.db
    = (Ok tt, db')
    /\ TransactionService.deleteTransaction 30 "t1" "u1" db'
       = (Throw (NotFoundException "Transaction not found"), db').
Proof.
  eexists. split; [vm_compute; reflexivity|].
  apply (deleteTransaction_twice 20 30 "t1" "u1" VanishedScenario.db).
  vm_compute. reflexivity.
Defined.

(** X6.  updateTransaction with a categoryId that names no category: the
    write is refused by the foreign key, the repository answers null, and
    the caller is told NotFound "Transaction not found" although the
    transaction exists and is theirs; nothing is written. *)
Theorem updateTransaction_unknown_category now id userId dto db x c :
  transactions db !! id = Some x ->
  Transaction.userId x = userId ->
  TransactionRepo.u_categoryId dto = Some c ->
  categories db !! c = None ->
  TransactionService.updateTransaction now id userId dto db
  = (Throw (NotFoundException "Transaction not found"), db).
Proof.
  intros Hx Hown Hc Hnone.
  unfold TransactionService.updateTransaction, bind.
  rewrite (getTransaction_run _ _ _ _ Hx Hown).
  unfold TransactionRepo.update, TransactionRepo.categoryKeyHolds.
  rewrite Hx, Hc, bool_decide_eq_false_2; [reflexivity|].
  rewrite Hnone. intros [? ?]. discriminate.
Qed.

Lemma updateTransaction_unknown_category_witness :
  TransactionService.updateTransaction 30 "t1" "u1"
    (TransactionRepo.mkUpdate (Some Scenario.unknownId) None None)
    VanishedScenario.db
  = (Throw (NotFoundException "Transaction not found"), VanishedScenario.db).
Proof.
  apply (updateTransaction_unknown_category 30 "t1" "u1" _
           VanishedScenario.db VanishedScenario.row Scenario.unknownId).
  - vm_compute. reflexivity.
  - reflexivity.
  - reflexivity.
  - reflexivity.
Defined.

(** ** The money in all accounts together *)

Lemma sumZ_Permutation l l' : l ≡ₚ l' -> sumZ l = sumZ l'.
Proof. unfold sumZ. induction 1; simpl; lia. Qed.

Lemma sumZ_insert (m : gmap string Z) k old v :
  m !! k = Some old ->
  sumZ (map_to_list (<[k := v]> m)).*2 = sumZ (map_to_list m).*2 - old + v.
Proof.
  intros Hk.
  rewrite <- (insert_delete_eq m k v).
  rewrite (sumZ_Permutation _ ((k, v) :: map_to_list (delete k m)).*2)
    by (apply fmap_Permutation, map_to_list_insert, lookup_delete_eq).
  rewrite (sumZ_Permutation (map_to_list m).*2
             ((k, old) :: map_to_list (delete k m)).*2)
    by (apply fmap_Permutation; symmetry; now apply map_to_list_delete).
  simpl. lia.
Qed.

(** X7.  What a successful createTransaction does to the sum of all
    balances, for an amount with no digit beyond the second and balances
    the balance column holds before and after: an income raises it by the
    amount, an expense lowers it by the amount, a transfer between two
    different accounts leaves it unchanged, and a transfer from an account
    to itself raises it by the amount. *)
Theorem createTransaction_total_balance now userId dto db x db' :
  wholeHundredths dto ->
  legsFit dto db ->
  TransactionService.createTransaction now userId dto db = (Ok x, db') ->
  totalBalance db' = totalBalance db + netEffect dto.
Proof.
  intros Hw Hfit Hrun.
  pose proof (createTransaction_outcome now userId dto db) as Hout.
  rewrite Hrun in Hout.
  destruct Hout as (Hadm & Hb & _).
  rewrite (balanceWrites_plain userId) in Hb by assumption.
  destruct Hadm as [(a & Ha & _) Htr].
  unfold totalBalance, netEffect. rewrite Hb. unfold plainWrites.
  assert (Hsrc : balances db !! accountId dto = Some (Account.balance a))
    by (rewrite balances_lookup, Ha; reflexivity).
  destruct (type dto) eqn:Hty.
  - rewrite (sumZ_insert _ _ _ _ Hsrc), Hsrc. simpl. lia.
  - rewrite (sumZ_insert _ _ _ _ Hsrc), Hsrc. simpl. lia.
  - destruct (Htr eq_refl) as (to & b & Hto & _ & Hb0 & _).
    rewrite Hto.
    assert (Hdst : balances db !! to = Some (Account.balance b))
      by (rewrite balances_lookup, Hb0; reflexivity).
    rewrite Hsrc, Hdst. simpl.
    destruct (decide (to = accountId dto)) as [->|Hne].
    + rewrite bool_decide_eq_true_2 by reflexivity.
      rewrite (sumZ_insert _ _ (Account.balance a - amountOf dto))
        by apply lookup_insert_eq.
      rewrite (sumZ_insert _ _ _ _ Hsrc).
      rewrite Hsrc in Hdst. injection Hdst as Hdst. lia.
    + rewrite bool_decide_eq_false_2 by congruence.
      rewrite (sumZ_insert _ _ (Account.balance b))
        by (rewrite lookup_insert_ne by congruence; exact Hdst).
      rewrite (sumZ_insert _ _ _ _ Hsrc). lia.
Qed.

Lemma createTransaction_total_balance_witness :
  exists x db',
    TransactionService.createTransaction 10 "u1"
      (Scenario.transfer "A" "B" 20000) Scenario.db0 = (Ok x, db')
    /\ totalBalance db' = totalBalance Scenario.db0 + 0.
Proof.
  do 2 eexists. split; [vm_compute; reflexivity|].
  eapply (createTransaction_total_balance 10 "u1"
            (Scenario.transfer "A" "B" 20000) Scenario.db0).
  - reflexivity.
  - apply legsFit_check. reflexivity.
  - reflexivity.
Defined.

(** ** Listing transactions *)

#[global] Instance newerFirst_total : Total TransactionRepo.newerFirst.
Proof. intros x y. unfold TransactionRepo.newerFirst. lia. Qed.

#[global] Instance newerFirst_trans : Transitive TransactionRepo.newerFirst.
Proof. intros x y z. unfold TransactionRepo.newerFirst. lia. Qed.

Lemma elem_of_rows db x :
  x ∈ rows db <-> exists k, transactions db !! k = Some x.
Proof.
  unfold rows. rewrite list_elem_of_fmap. split.
  - intros ([k y] & -> & Hin). exists k. now apply elem_of_map_to_list.
  - intros (k & Hk). exists (k, x). split; [reflexivity|].
    now apply elem_of_map_to_list.
Qed.

Lemma elem_of_List_filter {A} (p : A -> bool) (l : list A) x :
  x ∈ List.filter p l <-> x ∈ l /\ p x = true.
Proof. rewrite !list_elem_of_In. apply filter_In. Qed.

Lemma elem_of_findByFilters userId f db x :
  x ∈ merge_sort TransactionRepo.newerFirst
        (List.filter (TransactionRepo.matches userId f)
           (map_to_list (transactions db)).*2)
  <-> listed userId f db x.
Proof.
  rewrite merge_sort_Permutation, elem_of_List_filter.
  unfold listed. now rewrite <- elem_of_rows.
Qed.


(** X9.  getAccountTransactions, for a stored account of the caller
    (non-empty id): the list holds exactly the caller's stored rows whose
    accountId or toAccountId is that account, so a transfer shows in the
    history of its source and of its destination. *)
Theorem getAccountTransactions_history id userId db :
  accountOwner db id = Some userId ->
  id <> "" ->
  exists l,
    TransactionService.getAccountTransactions id userId db = (Ok l, db)
    /\ (forall x,
          x ∈ l
          <-> (exists k, transactions db !! k = Some x)
              /\ Transaction.userId x = userId
              /\ touches id x)
    /\ StronglySorted TransactionRepo.newerFirst l.
Proof.
  intros Ho Hne. unfold accountOwner in Ho.
  unfold TransactionService.getAccountTransactions, bind,
    AccountRepo.findById.
  destruct (accounts db !! id) as [a|]; [|discriminate].
  injection Ho as Ho. apply isOwnedBy_account_true in Ho. rewrite Ho.
  cbn [negb]. unfold TransactionRepo.findByFilters.
  eexists. split; [reflexivity|].
  split; [|apply StronglySorted_merge_sort; apply _].
  intros x. rewrite elem_of_findByFilters.
  unfold listed, TransactionRepo.matches, touches.
  simpl. apply String.eqb_neq in Hne. rewrite Hne. simpl.
  rewrite !andb_true_r, andb_true_iff, orb_true_iff, String.eqb_eq,
    !bool_decide_eq_true.
  split; intros (? & ? & [?|?]); repeat split; auto; left; congruence.
Qed.

Lemma getAccountTransactions_history_witness :
  exists l,
    TransactionService.getAccountTransactions "B" "u1" HistoryScenario.db
    = (Ok l, HistoryScenario.db)
    /\ (forall x,
          x ∈ l
          <-> (exists k, transactions HistoryScenario.db !! k = Some x)
              /\ Transaction.userId x = "u1"
              /\ touches "B" x)
    /\ StronglySorted TransactionRepo.newerFirst l.
Proof.
  apply (getAccountTransactions_history "B" "u1" HistoryScenario.db).
  - reflexivity.
  - discriminate.
Defined.


(** ** Monthly totals after a create *)

Lemma createTransaction_saved_row now userId dto db x db' :
  TransactionService.createTransaction now userId dto db = (Ok x, db') ->
  transactions db !! Transaction.id x = None
  /\ transactions db' = <[Transaction.id x := x]> (transactions db)
  /\ Transaction.userId x = userId
  /\ Transaction.type x = type dto
  /\ Transaction.amount x = amountOf dto
  /\ Transaction.transactionDate x = orNow now (transactionDate dto).
Proof.
  intros Hrun.
  pose proof (createTransaction_outcome now userId dto db) as Hout.
  rewrite Hrun in Hout.
  destruct Hout as (Hadm & _ & Hfresh & Ht & Hu & _ & Hty & Hamt & _).
  repeat (split; [assumption|]).
  rewrite createTransaction_admitted_run in Hrun by exact Hadm.
  unfold TransactionRepo.save in Hrun.
  destruct (negb _) in Hrun; [discriminate|].
  destruct (Column.decimal 10 _) in Hrun; [|discriminate].
  destruct (_ && _) in Hrun; [|discriminate].
  injection Hrun as Hx _. rewrite <- Hx. reflexivity.
Qed.

Lemma totalOf_insert userId ty a b db db' k x :
  transactions db !! k = None ->
  transactions db' = <[k := x]> (transactions db) ->
  totalOf userId ty a b db'
  = totalOf userId ty a b db
    + (if decide (countsToward userId ty a b x)
       then Transaction.amount x else 0).
Proof.
  intros Hfresh Ht. unfold totalOf, rows. rewrite Ht.
  rewrite (sumAmounts_Permutation _
             (filter (countsToward userId ty a b)
                ((k, x) :: map_to_list (transactions db)).*2))
    by (apply filter_Permutation, fmap_Permutation;
        now apply map_to_list_insert).
  rewrite fmap_cons, filter_cons. cbn [snd].
  destruct (decide (countsToward userId ty a b x));
    unfold TransactionRepo.sumAmounts; rewrite ?fmap_cons; cbn [foldr]; lia.
Qed.

(** X10.  Monthly totals follow the ledger.  Let the two Date objects of
    getMonthlyTotals(year, month) be valid, with time values a and b that
    the store takes as dates.  After a successful createTransaction by the
    same user whose date (the request's, or else the time of the call)
    lies in [a, b], the monthly income is higher by the stored amount (the
    request's, rounded to two digits) if the transaction is an income, the
    monthly expense is higher by it if the transaction is an expense, and
    a transfer changes neither; a transaction dated outside [a, b] changes
    neither; and net is, before as after, the difference of income and
    expense as the language computes it on its numbers. *)
Theorem getMonthlyTotals_after_create
    UTC now userId dto db x db' year month a b :
  TransactionService.createTransaction now userId dto db = (Ok x, db') ->
  Date.construct UTC year (month - 1) 1 0 0 0 = Some a ->
  Date.construct UTC year month 0 23 59 59 = Some b ->
  Date.storable a = true ->
  Date.storable b = true ->
  exists t t',
    TransactionRepo.getMonthlyTotals UTC userId year month db = (Ok t, db)
    /\ TransactionRepo.getMonthlyTotals UTC userId year month db'
       = (Ok t', db')
    /\ let inside :=
         bool_decide (a <= orNow now (transactionDate dto) <= b) in
       let gain (ty : TransactionType) :=
         if inside && bool_decide (type dto = ty) then amountOf dto else 0 in
       TransactionRepo.income t' = TransactionRepo.income t + gain INCOME
       /\ TransactionRepo.expense t'
          = TransactionRepo.expense t + gain EXPENSE
       /\ TransactionRepo.net t
          = Double.minus (TransactionRepo.income t)
              (TransactionRepo.expense t)
       /\ TransactionRepo.net t'
          = Double.minus (TransactionRepo.income t')
              (TransactionRepo.expense t').
Proof.
  intros Hrun Ha Hb Hsa Hsb.
  destruct (createTransaction_saved_row _ _ _ _ _ _ Hrun)
    as (Hfresh & Ht & Hu & Hty & Hamt & Hdate).
  do 2 eexists.
  split; [apply (getMonthlyTotals_run _ _ _ _ _ a b Ha Hb Hsa Hsb)|].
  split; [apply (getMonthlyTotals_run _ _ _ _ _ a b Ha Hb Hsa Hsb)|].
  assert (Hgain : forall ty,
    (if decide (countsToward userId ty a b x)
     then Transaction.amount x else 0)
    = if bool_decide (a <= orNow now (transactionDate dto) <= b)
         && bool_decide (type dto = ty)
      then amountOf dto else 0).
  { intros ty. rewrite Hamt.
    destruct (decide (countsToward userId ty a b x)) as [Hc|Hn];
      unfold countsToward in *; rewrite Hty, Hdate in *.
    - destruct Hc as (_ & H1 & H2). now rewrite !bool_decide_eq_true_2.
    - destruct (bool_decide (a <= _ <= b)) eqn:E1; [|reflexivity].
      destruct (bool_decide (type dto = ty)) eqn:E2; [|reflexivity].
      apply bool_decide_eq_true in E1, E2. tauto. }
  simpl.
  rewrite !(totalOf_insert userId _ a b db db' _ x Hfresh Ht), !Hgain.
  repeat split; lia.
Qed.

Lemma getMonthlyTotals_after_create_witness :
  exists x db' t t',
    TransactionService.createTransaction
      (Calendar.civilTime StatsScenario.UTC 2024 9 15 12 0 0) "u1"
      (Scenario.expense "Main" 15000) StatsScenario.db = (Ok x, db')
    /\ TransactionRepo.getMonthlyTotals StatsScenario.UTC "u1" 2024 9
         StatsScenario.db = (Ok t, StatsScenario.db)
    /\ TransactionRepo.getMonthlyTotals StatsScenario.UTC "u1" 2024 9 db'
       = (Ok t', db')
    /\ TransactionRepo.expense t' = TransactionRepo.expense t + 15000
    /\ TransactionRepo.income t' = TransactionRepo.income t + 0.
Proof.
  destruct (getMonthlyTotals_after_create StatsScenario.UTC
              (Calendar.civilTime StatsScenario.UTC 2024 9 15 12 0 0) "u1"
              (Scenario.expense "Main" 15000) StatsScenario.db _ _ 2024 9
              _ _ eq_refl eq_refl eq_refl eq_refl eq_refl)
    as (t & t' & Ht & Ht' & Hi & He & _).
  do 2 eexists. exists t, t'.
  split; [reflexivity|]. split; [exact Ht|]. split; [exact Ht'|].
  split; [exact He|exact Hi].
Defined.

(** ** A month outside 1..12 *)

Lemma MakeDay_next_year year month date :
  Date.MakeDay year (month + 12) date = Date.MakeDay (year + 1) month date.
Proof.
  unfold Date.MakeDay.
  replace (month + 12) with (month + 1 * 12) by lia.
  rewrite Z.div_add, Z.mod_add by lia.
  replace (year + (month / 12 + 1)) with (year + 1 + month / 12) by lia.
  reflexivity.
Qed.

(** X11.  getMonthlyTotals does not check the month: month + 12 of a year
    is answered as the same month of the next year (month 13 of 2024 is
    January 2025), both years being outside 0..99. *)
Theorem getMonthlyTotals_month_overflow UTC userId year month db :
  ~ (0 <= year <= 99) ->
  ~ (0 <= year + 1 <= 99) ->
  TransactionRepo.getMonthlyTotals UTC userId year (month + 12) db
  = TransactionRepo.getMonthlyTotals UTC userId (year + 1) month db.
Proof.
  intros Hy Hy'.
  assert (Hc : forall m d h mi s,
    Date.construct UTC year (m + 12) d h mi s
    = Date.construct UTC (year + 1) m d h mi s).
  { intros. unfold Date.construct.
    replace ((0 <=? year) && (year <=? 99)) with false
      by (symmetry; apply andb_false_iff; lia).
    replace ((0 <=? year + 1) && (year + 1 <=? 99)) with false
      by (symmetry; apply andb_false_iff; lia).
    now rewrite MakeDay_next_year. }
  unfold TransactionRepo.getMonthlyTotals.
  replace (month + 12 - 1) with (month - 1 + 12) by lia.
  now rewrite !Hc.
Qed.

Lemma getMonthlyTotals_month_overflow_witness :
  TransactionRepo.getMonthlyTotals StatsScenario.UTC "u1" 2023 (9 + 12)
    StatsScenario.db
  = TransactionRepo.getMonthlyTotals StatsScenario.UTC "u1" (2023 + 1) 9
      StatsScenario.db.
Proof.
  apply (getMonthlyTotals_month_overflow StatsScenario.UTC "u1" 2023 9
           StatsScenario.db); lia.
Defined.

(** ** The account service: reading and writing one account *)

Lemma getAccountById_owned id userId a db :
  accounts db !! id = Some a ->
  Account.userId a = userId ->
  AccountService.getAccountById id userId db = (Ok a, db).
Proof.
  intros Ha Hu.
  unfold AccountService.getAccountById, bind, AccountRepo.findById.
  rewrite Ha. cbv beta iota.
  rewrite (proj2 (isOwnedBy_account_true a userId) Hu). reflexivity.
Qed.

Lemma getAccountById_run id userId db :
  (exists a, accounts db !! id = Some a
             /\ Account.userId a = userId
             /\ AccountService.getAccountById id userId db = (Ok a, db))
  \/ (exists e, AccountService.getAccountById id userId db = (Throw e, db)).
Proof.
  unfold AccountService.getAccountById, bind, AccountRepo.findById.
  destruct (accounts db !! id) as [a|] eqn:Ha; cbv beta iota.
  - destruct (Account.isOwnedBy a userId) eqn:Ho; cbn [negb].
    + left. exists a. split; [reflexivity|].
      split; [now apply isOwnedBy_account_true|reflexivity].
    + right. eexists. reflexivity.
  - right. eexists. reflexivity.
Qed.

Lemma update_edited now id data a db :
  accounts db !! id = Some a ->
  AccountRepo.update now id data db
  = (Ok (Some (edited now data a)),
     withAccounts db (<[id := edited now data a]> (accounts db))).
Proof. intros Ha. unfold AccountRepo.update. rewrite Ha. reflexivity. Qed.

Lemma deactivateAccount_owned now id userId a db :
  accounts db !! id = Some a ->
  Account.userId a = userId ->
  AccountService.deactivateAccount now id userId db
  = (Ok (edited now (switch false) a),
     withAccounts db (<[id := edited now (switch false) a]> (accounts db))).
Proof.
  intros Ha Hu. unfold AccountService.deactivateAccount, bind.
  rewrite (getAccountById_owned id userId a db Ha Hu). cbv beta iota.
  fold (switch false). rewrite (update_edited now id _ a db Ha). reflexivity.
Qed.

Lemma activateAccount_owned now id userId a db :
  accounts db !! id = Some a ->
  Account.userId a = userId ->
  AccountService.activateAccount now id userId db
  = (Ok (edited now (switch true) a),
     withAccounts db (<[id := edited now (switch true) a]> (accounts db))).
Proof.
  intros Ha Hu. unfold AccountService.activateAccount, bind.
  rewrite (getAccountById_owned id userId a db Ha Hu). cbv beta iota.
  fold (switch true). rewrite (update_edited now id _ a db Ha). reflexivity.
Qed.

Lemma deleteAccount_owned now id userId a db :
  accounts db !! id = Some a ->
  Account.userId a = userId ->
  AccountService.deleteAccount now id userId db
  = (Ok tt,
     withAccounts db (<[id := edited now (switch false) a]> (accounts db))).
Proof.
  intros Ha Hu. unfold AccountService.deleteAccount, bind.
  rewrite (getAccountById_owned id userId a db Ha Hu). cbv beta iota.
  fold (switch false). rewrite (update_edited now id _ a db Ha). reflexivity.
Qed.

(** X12.  updateAccountBalance on a stored account of the caller: a
    negative balance for an account that is not a credit account is
    refused with BadRequest "Non-credit accounts cannot have negative
    balance" and nothing is written; any other balance that the balance
    column holds (below 10^13 in absolute value) is stored, the updated
    account is returned and no other row changes; and any other balance
    that the column does not hold is answered NotFound "Account not
    found", although the account exists, and nothing is written. *)
Theorem updateAccountBalance_outcome now id userId balance a db :
  accounts db !! id = Some a ->
  Account.userId a = userId ->
  (balance < 0 /\ Account.accountType a <> CREDIT ->
   AccountService.updateAccountBalance now id userId balance db
   = (Throw (BadRequestException
               "Non-credit accounts cannot have negative balance"), db))
  /\ (0 <= balance \/ Account.accountType a = CREDIT ->
      balanceFits balance ->
      AccountService.updateAccountBalance now id userId balance db
      = (Ok (rebalanced now balance a),
         withAccounts db
           (<[id := rebalanced now balance a]> (accounts db))))
  /\ (0 <= balance \/ Account.accountType a = CREDIT ->
      ~ balanceFits balance ->
      AccountService.updateAccountBalance now id userId balance db
      = (Throw (NotFoundException "Account not found"), db)).
Proof.
  intros Ha Hu.
  unfold AccountService.updateAccountBalance, bind.
  rewrite (getAccountById_owned id userId a db Ha Hu). cbv beta iota.
  unfold Account.updateBalance.
  assert (Hpass : 0 <= balance \/ Account.accountType a = CREDIT ->
    (balance <? 0) && negb (bool_decide (Account.accountType a = CREDIT))
    = false).
  { intros [Hpos|Hty].
    - now rewrite (proj2 (Z.ltb_ge _ _) Hpos).
    - rewrite bool_decide_eq_true_2 by exact Hty.
      now rewrite andb_false_r. }
  split; [|split].
  - intros [Hneg Hty].
    rewrite (proj2 (Z.ltb_lt _ _) Hneg).
    rewrite bool_decide_eq_false_2 by exact Hty. reflexivity.
  - intros Hok Hfit. rewrite (Hpass Hok). cbv beta iota.
    unfold AccountRepo.updateBalance. rewrite Ha.
    rewrite (decimal_exact 15 _ balance (isHundredths_ofHundredths _)).
    unfold balanceFits in Hfit. rewrite Hfit. reflexivity.
  - intros Hok Hfit. rewrite (Hpass Hok). cbv beta iota.
    unfold AccountRepo.updateBalance. rewrite Ha.
    rewrite (decimal_exact 15 _ balance (isHundredths_ofHundredths _)).
    unfold balanceFits in Hfit.
    destruct (Column.holds 15 balance); [contradiction|reflexivity].
Qed.

Lemma updateAccountBalance_outcome_witness :
  AccountService.updateAccountBalance 10 "Main" "u1" (-1) Scenario.db0
  = (Throw (BadRequestException
              "Non-credit accounts cannot have negative balance"),
     Scenario.db0)
  /\ AccountService.updateAccountBalance 10 "Main" "u1" 2500 Scenario.db0
     = (Ok (rebalanced 10 2500 (Scenario.account "Main" "u1" CHECKING 100000)),
        withAccounts Scenario.db0
          (<["Main" := rebalanced 10 2500
                         (Scenario.account "Main" "u1" CHECKING 100000)]>
             (accounts Scenario.db0)))
  /\ AccountService.updateAccountBalance 10 "Main" "u1" (10 ^ 15)
       Scenario.db0
     = (Throw (NotFoundException "Account not found"), Scenario.db0).
Proof.
  split; [|split].
  - apply (updateAccountBalance_outcome 10 "Main" "u1" (-1)
             (Scenario.account "Main" "u1" CHECKING 100000) Scenario.db0);
      [reflexivity|reflexivity|].
    split; [lia|discriminate].
  - apply (updateAccountBalance_outcome 10 "Main" "u1" 2500
             (Scenario.account "Main" "u1" CHECKING 100000) Scenario.db0);
      [reflexivity|reflexivity| |reflexivity].
    left. lia.
  - apply (updateAccountBalance_outcome 10 "Main" "u1" (10 ^ 15)
             (Scenario.account "Main" "u1" CHECKING 100000) Scenario.db0);
      [reflexivity|reflexivity| |discriminate].
    left. lia.
Defined.

(** ** The account service: what an edit may change *)

Lemma filter_nonempty {A} (p : A -> bool) (l : list A) :
  (0 <? Z.of_nat (length (List.filter p l))) = true
  <-> exists x, x ∈ l /\ p x = true.
Proof.
  rewrite Z.ltb_lt. split.
  - destruct (List.filter p l) as [|x l'] eqn:Hf; simpl; [lia|].
    intros _. exists x. apply elem_of_List_filter. rewrite Hf. left.
  - intros (x & Hx). apply elem_of_List_filter in Hx.
    destruct (List.filter p l); [inversion Hx|simpl; lia].
Qed.

Lemma existsByUserIdAndName_run userId name excludeId db :
  exists b,
    AccountRepo.existsByUserIdAndName userId name excludeId db = (Ok b, db)
    /\ (b = true <-> nameTaken db userId name (orNull excludeId)).
Proof.
  unfold AccountRepo.existsByUserIdAndName. eexists. split; [reflexivity|].
  rewrite filter_nonempty. unfold nameTaken, orNull. split.
  - intros ([k a] & Hin & Hhit). apply elem_of_map_to_list in Hin.
    simpl in Hhit. rewrite !andb_true_iff, !String.eqb_eq in Hhit.
    destruct Hhit as [[[Hu Hn] Hact] Hex].
    exists k, a. repeat (split; [assumption|]).
    destruct (truthy excludeId); [|discriminate].
    now apply negb_true_iff, bool_decide_eq_false in Hex.
  - intros (k & a & Hk & Hu & Hn & Hact & Hex).
    exists (k, a). split; [now apply elem_of_map_to_list|].
    simpl. rewrite !andb_true_iff, !String.eqb_eq.
    repeat (split; [|try assumption]); try assumption.
    destruct (truthy excludeId); [|reflexivity].
    now apply negb_true_iff, bool_decide_eq_false.
Qed.

Lemma detailsOnly_refl id o k : detailsOnly id o o k.
Proof.
  destruct o as [a|]; simpl; [|exact I].
  split; [repeat split|auto].
Qed.

Lemma detailsEdit_refl id db : detailsEdit id db db.
Proof. repeat (split; [reflexivity|]). intros k. apply detailsOnly_refl. Qed.

Lemma detailsEdit_edited now id data a db :
  accounts db !! id = Some a ->
  detailsEdit id db
    (withAccounts db (<[id := edited now data a]> (accounts db))).
Proof.
  intros Ha. repeat (split; [reflexivity|]). intros k. simpl.
  rewrite lookup_insert. case_decide as Hk.
  - subst k. rewrite Ha. simpl. split; [repeat split|congruence].
  - apply detailsOnly_refl.
Qed.

Lemma updateAccount_run now id userId dto db :
  (exists e, AccountService.updateAccount now id userId dto db = (Throw e, db))
  \/ exists a,
       accounts db !! id = Some a
       /\ Account.userId a = userId
       /\ (truthy (AccountService.name dto) = true ->
           ~ nameTaken db userId (default "" (AccountService.name dto))
               (orNull (Some id)))
       /\ let a' := edited now
                      (AccountRepo.mkUpdate (AccountService.name dto)
                         (AccountService.bankName dto)
                         (AccountService.accountNumber dto) None) a in
          AccountService.updateAccount now id userId dto db
          = (Ok a', withAccounts db (<[id := a']> (accounts db))).
Proof.
  unfold AccountService.updateAccount, bind.
  destruct (getAccountById_run id userId db)
    as [(a & Ha & Hu & Hrun)|(e & Hrun)]; rewrite Hrun; cbv beta iota;
    [|left; eexists; reflexivity].
  destruct (truthy (AccountService.name dto)) eqn:Ht.
  - destruct (existsByUserIdAndName_run userId
                (default "" (AccountService.name dto)) (Some id) db)
      as (b & Hex & Hb).
    rewrite Hex. cbv beta iota. destruct b.
    + left. eexists. reflexivity.
    + right. exists a. split; [exact Ha|]. split; [exact Hu|].
      split; [intros _ Htaken; apply Hb in Htaken; discriminate|].
      cbv zeta. unfold ret. cbv beta iota.
      rewrite (update_edited now id _ a db Ha). reflexivity.
  - right. exists a. split; [exact Ha|]. split; [exact Hu|].
    split; [discriminate|].
    cbv zeta. unfold ret. cbv beta iota.
    rewrite (update_edited now id _ a db Ha). reflexivity.
Qed.

Lemma switch_run now id userId db :
  (exists e,
     AccountService.deactivateAccount now id userId db = (Throw e, db)
     /\ AccountService.activateAccount now id userId db = (Throw e, db)
     /\ AccountService.deleteAccount now id userId db = (Throw e, db))
  \/ exists a, accounts db !! id = Some a /\ Account.userId a = userId.
Proof.
  unfold AccountService.deactivateAccount, AccountService.activateAccount,
    AccountService.deleteAccount, bind.
  destruct (getAccountById_run id userId db)
    as [(a & Ha & Hu & Hrun)|(e & Hrun)]; rewrite Hrun; cbv beta iota.
  - right. exists a. split; assumption.
  - left. exists e. repeat split.
Qed.

Lemma updateAccount_detailsEdit now id userId dto db :
  detailsEdit id db (AccountService.updateAccount now id userId dto db).2.
Proof.
  destruct (updateAccount_run now id userId dto db)
    as [(e & ->)|(a & Ha & _ & _ & ->)]; simpl;
    [apply detailsEdit_refl|now apply detailsEdit_edited].
Qed.

Lemma deactivateAccount_detailsEdit now id userId db :
  detailsEdit id db (AccountService.deactivateAccount now id userId db).2.
Proof.
  destruct (switch_run now id userId db)
    as [(e & -> & _)|(a & Ha & Hu)]; [apply detailsEdit_refl|].
  rewrite (deactivateAccount_owned now id userId a db Ha Hu).
  now apply detailsEdit_edited.
Qed.

Lemma activateAccount_detailsEdit now id userId db :
  detailsEdit id db (AccountService.activateAccount now id userId db).2.
Proof.
  destruct (switch_run now id userId db)
    as [(e & _ & -> & _)|(a & Ha & Hu)]; [apply detailsEdit_refl|].
  rewrite (activateAccount_owned now id userId a db Ha Hu).
  now apply detailsEdit_edited.
Qed.

Lemma deleteAccount_detailsEdit now id userId db :
  detailsEdit id db (AccountService.deleteAccount now id userId db).2.
Proof.
  destruct (switch_run now id userId db)
    as [(e & _ & _ & ->)|(a & Ha & Hu)]; [apply detailsEdit_refl|].
  rewrite (deleteAccount_owned now id userId a db Ha Hu).
  now apply detailsEdit_edited.
Qed.

(** X13.  No edit of an account's details touches the ledger: whatever
    updateAccount, deactivateAccount, activateAccount and deleteAccount
    return, they leave transactions, categories and users as they were,
    add and remove no account, change no account but the one addressed,
    and keep that account's owner, type, currency, balance and creation
    time. *)
Theorem account_edits_keep_the_ledger now id userId dto db :
  detailsEdit id db (AccountService.updateAccount now id userId dto db).2
  /\ detailsEdit id db (AccountService.deactivateAccount now id userId db).2
  /\ detailsEdit id db (AccountService.activateAccount now id userId db).2
  /\ detailsEdit id db (AccountService.deleteAccount now id userId db).2.
Proof.
  split; [apply updateAccount_detailsEdit|].
  split; [apply deactivateAccount_detailsEdit|].
  split; [apply activateAccount_detailsEdit|apply deleteAccount_detailsEdit].
Qed.

Lemma detailsEdit_nonNegativeBalances id db db' :
  detailsEdit id db db' -> nonNegativeBalances db -> nonNegativeBalances db'.
Proof.
  intros (_ & _ & _ & Hacc) Hinv k a' Hk Hty.
  specialize (Hacc k). rewrite Hk in Hacc.
  destruct (accounts db !! k) as [a|] eqn:Ha; simpl in Hacc; [|contradiction].
  destruct Hacc as [(_ & _ & Hty' & _ & Hbal & _) _].
  rewrite Hbal. apply (Hinv k a Ha). now rewrite <- Hty'.
Qed.

(** ** The account service: opening an account *)

Lemma createAccount_run trim now userId dto db :
  (nameTaken db userId (CreateAccountDto.name dto) None
   /\ AccountService.createAccount trim now userId dto db
      = (Throw (BadRequestException "Account with this name already exists"),
         db))
  \/ (~ nameTaken db userId (CreateAccountDto.name dto) None
      /\ ~ balanceFits (default 0 (CreateAccountDto.balance dto))
      /\ AccountService.createAccount trim now userId dto db
         = (Throw (PrismaClientKnownRequestError "P2020"), db))
  \/ (~ nameTaken db userId (CreateAccountDto.name dto) None
      /\ balanceFits (default 0 (CreateAccountDto.balance dto))
      /\ (userId ∉ users db)
      /\ AccountService.createAccount trim now userId dto db
         = (Throw (PrismaClientKnownRequestError "P2003"), db))
  \/ (~ nameTaken db userId (CreateAccountDto.name dto) None
      /\ balanceFits (default 0 (CreateAccountDto.balance dto))
      /\ (userId ∈ users db)
      /\ AccountService.createAccount trim now userId dto db
         = (Ok (opened trim now userId dto db),
            withAccounts db
              (<[fresh (dom (accounts db)) := opened trim now userId dto db]>
                 (accounts db)))).
Proof.
  unfold AccountService.createAccount, bind.
  destruct (existsByUserIdAndName_run userId (CreateAccountDto.name dto)
              None db) as (b & Hex & Hb).
  rewrite Hex. cbv beta iota. simpl orNull in Hb. destruct b.
  - left. split; [now apply Hb|reflexivity].
  - assert (~ nameTaken db userId (CreateAccountDto.name dto) None) as Hfree
      by (intros Ht; apply Hb in Ht; discriminate).
    right. unfold AccountRepo.save, Account.create, balanceFits. simpl.
    destruct (Column.holds 15 _) eqn:Hfit; cbn [negb].
    + right. case_bool_decide as Hu.
      * right. split; [assumption|]. split; [reflexivity|].
        split; [assumption|reflexivity].
      * left. split; [assumption|]. split; [reflexivity|].
        split; [assumption|reflexivity].
    + left. split; [assumption|]. split; [discriminate|reflexivity].
Qed.


(** X14.  The account service keeps "balance >= 0 unless the account is a
    credit account": from a database that satisfies the rule, and with an
    initial balance that is not negative, neither createAccount nor
    updateAccountBalance, updateAccount, deactivateAccount, activateAccount
    or deleteAccount leaves a database that breaks it, whatever they
    return. *)
Theorem account_service_keeps_nonNegativeBalances
    trim now id userId balance upd dto db :
  nonNegativeBalances db ->
  0 <= default 0 (CreateAccountDto.balance dto) ->
  nonNegativeBalances (AccountService.createAccount trim now userId dto db).2
  /\ nonNegativeBalances
       (AccountService.updateAccountBalance now id userId balance db).2
  /\ nonNegativeBalances (AccountService.updateAccount now id userId upd db).2
  /\ nonNegativeBalances (AccountService.deactivateAccount now id userId db).2
  /\ nonNegativeBalances (AccountService.activateAccount now id userId db).2
  /\ nonNegativeBalances (AccountService.deleteAccount now id userId db).2.
Proof.
  intros Hinv Hpos.
  split; [|split; [now apply updateAccountBalance_keeps_rule|]].
  - destruct (createAccount_run trim now userId dto db)
      as [[_ ->]|[(_ & _ & ->)|[(_ & _ & _ & ->)|(_ & _ & _ & ->)]]];
      simpl; try exact Hinv.
    apply map_Forall_insert_2; [|exact Hinv]. intros _. exact Hpos.
  - repeat split;
      (eapply detailsEdit_nonNegativeBalances; [|exact Hinv]).
    + apply updateAccount_detailsEdit.
    + apply deactivateAccount_detailsEdit.
    + apply activateAccount_detailsEdit.
    + apply deleteAccount_detailsEdit.
Qed.

Lemma account_service_keeps_nonNegativeBalances_witness :
  nonNegativeBalances
    (AccountService.createAccount AccountScenario.trim 10 "u1"
       AccountScenario.padded Scenario.db0).2
  /\ nonNegativeBalances
       (AccountService.updateAccountBalance 10 "Main" "u1" (-1)
          Scenario.db0).2.
Proof.
  destruct (account_service_keeps_nonNegativeBalances AccountScenario.trim 10
              "Main" "u1" (-1) AccountScenario.renameToB
              AccountScenario.padded Scenario.db0)
    as (Hcreate & Hbal & _).
  - exact nonNegativeBalances_db0.
  - simpl. lia.
  - split; [exact Hcreate|exact Hbal].
Defined.


(** ** The account service: one name, one active account *)

Lemma uniqueActiveNames_insert id a' db :
  (forall k b,
     k <> id ->
     accounts db !! k = Some b ->
     Account.userId b = Account.userId a' ->
     Account.name b = Account.name a' ->
     Account.isActive b = true ->
     Account.isActive a' = true ->
     False) ->
  uniqueActiveNames db ->
  uniqueActiveNames (withAccounts db (<[id := a']> (accounts db))).
Proof.
  intros Hclash Hinv k1 k2 a1 a2 H1 H2 Hu Hn Ha1 Ha2. simpl in H1, H2.
  rewrite lookup_insert in H1, H2.
  destruct (decide (id = k1)) as [E1|Hk1], (decide (id = k2)) as [E2|Hk2].
  - congruence.
  - injection H1 as <-. exfalso.
    apply (Hclash k2 a2); auto; congruence.
  - injection H2 as <-. exfalso.
    apply (Hclash k1 a1); auto; congruence.
  - apply (Hinv k1 k2 a1 a2); assumption.
Qed.

Lemma uniqueActiveNames_closed now id a db :
  uniqueActiveNames db ->
  uniqueActiveNames
    (withAccounts db (<[id := edited now (switch false) a]> (accounts db))).
Proof.
  apply uniqueActiveNames_insert. intros k b _ _ _ _ _ Hact. discriminate.
Qed.

Lemma uniqueActiveNames_db0 : uniqueActiveNames Scenario.db0.
Proof.
  assert (forall k a, accounts Scenario.db0 !! k = Some a
                      -> Account.name a = k) as Hname.
  { intros k a Hk. simpl in Hk.
    repeat (rewrite lookup_insert in Hk; case_decide;
            [injection Hk as <-; simpl; congruence|]).
    rewrite lookup_empty in Hk. discriminate. }
  intros k1 k2 a1 a2 H1 H2 _ Hn _ _.
  apply Hname in H1, H2. congruence.
Qed.

(** X16.  "One active account per name and user" is kept by createAccount
    when the name has no white space to trim, by updateAccount when the
    new name is not the empty string, and by deactivateAccount and
    deleteAccount always, whatever these calls return. *)
Theorem account_names_stay_unique trim now id userId upd dto db :
  uniqueActiveNames db ->
  trim (CreateAccountDto.name dto) = CreateAccountDto.name dto ->
  AccountService.name upd <> Some "" ->
  uniqueActiveNames (AccountService.createAccount trim now userId dto db).2
  /\ uniqueActiveNames (AccountService.updateAccount now id userId upd db).2
  /\ uniqueActiveNames (AccountService.deactivateAccount now id userId db).2
  /\ uniqueActiveNames (AccountService.deleteAccount now id userId db).2.
Proof.
  intros Hinv Htrim Hname. split; [|split].
  - destruct (createAccount_run trim now userId dto db)
      as [[_ ->]|[(_ & _ & ->)|[(_ & _ & _ & ->)|(Hfree & _ & _ & ->)]]];
      simpl; try exact Hinv.
    apply uniqueActiveNames_insert; [|exact Hinv].
    intros k b _ Hk Hu Hn Hact _. apply Hfree.
    exists k, b. simpl in Hu, Hn. rewrite Htrim in Hn.
    repeat (split; [assumption|]). discriminate.
  - destruct (updateAccount_run now id userId upd db)
      as [(e & ->)|(a & Ha & Hu & Hfree & ->)]; simpl; [exact Hinv|].
    apply uniqueActiveNames_insert; [|exact Hinv].
    intros k b Hk Hb Hub Hnb Hact Hact'. simpl in Hub, Hnb, Hact'.
    destruct (AccountService.name upd) as [n|] eqn:Hn; simpl in *.
    + assert (String.eqb n "" = false) as Hne
        by (apply String.eqb_neq; congruence).
      rewrite Hne in Hfree. apply Hfree; [reflexivity|].
      exists k, b. split; [exact Hb|]. split; [congruence|].
      split; [exact Hnb|]. split; [exact Hact|].
      unfold orNull. destruct (truthy (Some id)); congruence.
    + apply Hk. apply (Hinv k id b a); assumption.
  - destruct (switch_run now id userId db)
      as [(e & -> & _ & ->)|(a & Ha & Hu)]; [split; exact Hinv|].
    rewrite (deactivateAccount_owned now id userId a db Ha Hu),
      (deleteAccount_owned now id userId a db Ha Hu).
    split; now apply uniqueActiveNames_closed.
Qed.

Lemma account_names_stay_unique_witness :
  uniqueActiveNames
    (AccountService.createAccount AccountScenario.trim 10 "u1"
       (CreateAccountDto.mk "Cash" CASH RSD None None None) Scenario.db0).2
  /\ uniqueActiveNames
       (AccountService.updateAccount 10 "A" "u1" AccountScenario.renameToB
          Scenario.db0).2.
Proof.
  destruct (account_names_stay_unique AccountScenario.trim 10 "A" "u1"
              AccountScenario.renameToB
              (CreateAccountDto.mk "Cash" CASH RSD None None None)
              Scenario.db0)
    as (Hcreate & Hupdate & _).
  - exact uniqueActiveNames_db0.
  - reflexivity.
  - discriminate.
  - split; [exact Hcreate|exact Hupdate].
Defined.


(** X17.  activateAccount does not look at names: reopening a closed
    account of the caller while another active account of the caller has
    the same name succeeds, and leaves two active accounts of one user
    with one name. *)
Theorem activateAccount_ignores_names now id userId a k b db :
  accounts db !! id = Some a ->
  Account.userId a = userId ->
  Account.isActive a = false ->
  accounts db !! k = Some b ->
  Account.userId b = userId ->
  Account.name b = Account.name a ->
  Account.isActive b = true ->
  exists a' db',
    AccountService.activateAccount now id userId db = (Ok a', db')
    /\ Account.isActive a' = true
    /\ Account.name a' = Account.name a
    /\ ~ uniqueActiveNames db'.
Proof.
  intros Ha Hu Hclosed Hb Hub Hn Hact.
  assert (k <> id) as Hk by congruence.
  rewrite (activateAccount_owned now id userId a db Ha Hu).
  eexists. eexists. split; [reflexivity|].
  split; [reflexivity|]. split; [reflexivity|].
  intros Huniq. apply Hk.
  apply (Huniq k id b (edited now (switch true) a)); simpl; try congruence.
  - now rewrite lookup_insert_ne by congruence.
  - apply lookup_insert_eq.
Qed.

Lemma activateAccount_ignores_names_witness :
  exists a' db',
    AccountService.activateAccount 10 "B" "u1" AccountScenario.db
    = (Ok a', db')
    /\ Account.isActive a' = true
    /\ Account.name a' = "B"
    /\ ~ uniqueActiveNames db'.
Proof.
  apply (activateAccount_ignores_names 10 "B" "u1" AccountScenario.closedB
           "B2" (Scenario.account "B" "u1" SAVINGS 700) AccountScenario.db);
    reflexivity.
Defined.



(** ** The account service: listing accounts *)

#[global] Instance olderFirst_total : Total AccountRepo.olderFirst.
Proof. intros a b. unfold AccountRepo.olderFirst. lia. Qed.

#[global] Instance olderFirst_trans : Transitive AccountRepo.olderFirst.
Proof. intros a b c. unfold AccountRepo.olderFirst. lia. Qed.

#[global] Instance activeThenOlderFirst_total
  : Total AccountRepo.activeThenOlderFirst.
Proof.
  intros a b. unfold AccountRepo.activeThenOlderFirst.
  destruct (Account.isActive a), (Account.isActive b);
    destruct (Z.le_ge_cases (Account.createdAt a) (Account.createdAt b));
    auto.
Qed.

#[global] Instance activeThenOlderFirst_trans
  : Transitive AccountRepo.activeThenOlderFirst.
Proof.
  intros a b c. unfold AccountRepo.activeThenOlderFirst. intros H1 H2.
  destruct (Account.isActive a), (Account.isActive b),
    (Account.isActive c);
    destruct H1 as [[? ?]|[? ?]], H2 as [[? ?]|[? ?]];
    try discriminate;
    first [left; split; reflexivity | right; split; [reflexivity|lia]].
Qed.

Lemma elem_of_accounts db a :
  a ∈ (map_to_list (accounts db)).*2 <-> exists k, accounts db !! k = Some a.
Proof.
  rewrite list_elem_of_fmap. split.
  - intros ([k y] & -> & Hin). exists k. now apply elem_of_map_to_list.
  - intros (k & Hk). exists (k, a). split; [reflexivity|].
    now apply elem_of_map_to_list.
Qed.

(** X19.  The account listings read and never write.  getUserAccounts
    returns exactly the stored accounts of the caller, active ones first
    and older ones first among equals; getActiveUserAccounts returns
    exactly the active ones among them, oldest first; and
    getUserAccountsCount is the length of that second list.  No account of
    another user is ever listed. *)
Theorem account_listings userId db :
  exists l la,
    AccountService.getUserAccounts userId db = (Ok l, db)
    /\ AccountService.getActiveUserAccounts userId db = (Ok la, db)
    /\ AccountService.getUserAccountsCount userId db
       = (Ok (Z.of_nat (length la)), db)
    /\ (forall a, a ∈ l <-> ownAccount db userId a)
    /\ (forall a, a ∈ la <-> ownAccount db userId a
                             /\ Account.isActive a = true)
    /\ StronglySorted AccountRepo.activeThenOlderFirst l
    /\ StronglySorted AccountRepo.olderFirst la.
Proof.
  eexists. eexists. split; [reflexivity|]. split; [reflexivity|].
  split.
  { unfold AccountService.getUserAccountsCount, AccountRepo.countByUserId.
    now rewrite merge_sort_Permutation. }
  split.
  { intros a. rewrite merge_sort_Permutation, elem_of_List_filter,
      elem_of_accounts, String.eqb_eq. reflexivity. }
  split.
  { intros a. rewrite merge_sort_Permutation, elem_of_List_filter,
      elem_of_accounts, andb_true_iff, String.eqb_eq.
    unfold ownAccount. tauto. }
  split; apply StronglySorted_merge_sort; apply _.
Qed.

Lemma elem_of_getActiveUserAccounts userId db la a :
  AccountService.getActiveUserAccounts userId db = (Ok la, db) ->
  a ∈ la <-> ownAccount db userId a /\ Account.isActive a = true.
Proof.
  intros [= <-].
  rewrite merge_sort_Permutation, elem_of_List_filter,
    elem_of_accounts, andb_true_iff, String.eqb_eq.
  unfold ownAccount. tauto.
Qed.

Lemma elem_of_getUserAccounts userId db l a :
  AccountService.getUserAccounts userId db = (Ok l, db) ->
  a ∈ l <-> ownAccount db userId a.
Proof.
  intros [= <-].
  rewrite merge_sort_Permutation, elem_of_List_filter,
    elem_of_accounts, String.eqb_eq. reflexivity.
Qed.


(** ** The account service: closing and reopening an account *)

(** X21.  deleteAccount deletes nothing.  For a stored account of the
    caller it succeeds, leaves the same database as deactivateAccount and
    every transaction in place; the account's row stays, with isActive
    false and its balance, can still be read with getAccountById and is
    still in getUserAccounts, and is gone only from
    getActiveUserAccounts. *)
Theorem deleteAccount_is_soft now id userId a db :
  accounts db !! id = Some a ->
  Account.userId a = userId ->
  exists a' db',
    AccountService.deleteAccount now id userId db = (Ok tt, db')
    /\ db' = (AccountService.deactivateAccount now id userId db).2
    /\ transactions db' = transactions db
    /\ accounts db' !! id = Some a'
    /\ Account.isActive a' = false
    /\ Account.balance a' = Account.balance a
    /\ AccountService.getAccountById id userId db' = (Ok a', db')
    /\ (forall l, AccountService.getUserAccounts userId db' = (Ok l, db') ->
                  a' ∈ l)
    /\ (forall la,
          AccountService.getActiveUserAccounts userId db' = (Ok la, db') ->
          a' ∉ la).
Proof.
  intros Ha Hu.
  rewrite (deleteAccount_owned now id userId a db Ha Hu),
    (deactivateAccount_owned now id userId a db Ha Hu).
  eexists. eexists. split; [reflexivity|]. split; [reflexivity|].
  split; [reflexivity|].
  assert (accounts
            (withAccounts db
               (<[id := edited now (switch false) a]> (accounts db))) !! id
          = Some (edited now (switch false) a)) as Hrow
    by apply lookup_insert_eq.
  split; [exact Hrow|]. split; [reflexivity|]. split; [reflexivity|].
  split; [now apply getAccountById_owned|].
  split.
  - intros l Hl. apply (elem_of_getUserAccounts _ _ _ _ Hl).
    split; [eexists; exact Hrow|exact Hu].
  - intros la Hla Hin. apply (elem_of_getActiveUserAccounts _ _ _ _ Hla) in Hin.
    destruct Hin as [_ Hact]. discriminate.
Qed.

Lemma deleteAccount_is_soft_witness :
  exists a' db',
    AccountService.deleteAccount 10 "Main" "u1" Scenario.db0 = (Ok tt, db')
    /\ accounts db' !! "Main" = Some a'
    /\ Account.isActive a' = false
    /\ Account.balance a' = 100000.
Proof.
  destruct (deleteAccount_is_soft 10 "Main" "u1"
              (Scenario.account "Main" "u1" CHECKING 100000) Scenario.db0
              eq_refl eq_refl)
    as (a' & db' & Hrun & _ & _ & Hrow & Hact & Hbal & _).
  exists a', db'. repeat (split; [assumption|]). exact Hbal.
Defined.

(** X22.  deactivateAccount followed by activateAccount restores an
    active account of the caller: the database is the one before the two
    calls but for the account's updatedAt, which is the time of the second
    call. *)
Theorem deactivate_activate_round_trip now1 now2 id userId a db :
  accounts db !! id = Some a ->
  Account.userId a = userId ->
  Account.isActive a = true ->
  exists a1 db1,
    AccountService.deactivateAccount now1 id userId db = (Ok a1, db1)
    /\ Account.isActive a1 = false
    /\ AccountService.activateAccount now2 id userId db1
       = (Ok (stamped now2 a),
          withAccounts db (<[id := stamped now2 a]> (accounts db))).
Proof.
  intros Ha Hu Hact.
  rewrite (deactivateAccount_owned now1 id userId a db Ha Hu).
  eexists. eexists. split; [reflexivity|]. split; [reflexivity|].
  rewrite (activateAccount_owned now2 id userId
             (edited now1 (switch false) a));
    [|apply lookup_insert_eq|exact Hu].
  unfold withAccounts. simpl accounts. rewrite insert_insert_eq.
  replace (edited now2 (switch true) (edited now1 (switch false) a))
    with (stamped now2 a); [reflexivity|].
  unfold stamped, edited. simpl. now rewrite Hact.
Qed.

Lemma deactivate_activate_round_trip_witness :
  exists a1 db1,
    AccountService.deactivateAccount 10 "A" "u1" Scenario.db0 = (Ok a1, db1)
    /\ Account.isActive a1 = false
    /\ AccountService.activateAccount 20 "A" "u1" db1
       = (Ok (stamped 20 (Scenario.account "A" "u1" CHECKING 50000)),
          withAccounts Scenario.db0
            (<["A" := stamped 20 (Scenario.account "A" "u1" CHECKING 50000)]>
               (accounts Scenario.db0))).
Proof.
  apply (deactivate_activate_round_trip 10 20 "A" "u1"
           (Scenario.account "A" "u1" CHECKING 50000) Scenario.db0);
    reflexivity.
Defined.

(** X23.  What the account service stores is what the entity's methods
    build: for a stored account of the caller, deactivateAccount returns
    the account's deactivate(), activateAccount its activate(), and
    updateAccountBalance, whenever the entity's updateBalance accepts the
    balance and the balance column holds it, the account that
    updateBalance returns. *)
Theorem account_service_agrees_with_entity now id userId balance a db :
  accounts db !! id = Some a ->
  Account.userId a = userId ->
  (AccountService.deactivateAccount now id userId db).1
  = Ok (Account.deactivate now a)
  /\ (AccountService.activateAccount now id userId db).1
     = Ok (Account.activate now a)
  /\ (forall a',
        Account.updateBalance now a balance = inr a' ->
        balanceFits balance ->
        (AccountService.updateAccountBalance now id userId balance db).1
        = Ok a').
Proof.
  intros Ha Hu.
  rewrite (deactivateAccount_owned now id userId a db Ha Hu),
    (activateAccount_owned now id userId a db Ha Hu).
  split; [reflexivity|]. split; [reflexivity|].
  intros a' Hent Hfit.
  unfold AccountService.updateAccountBalance, bind.
  rewrite (getAccountById_owned id userId a db Ha Hu). cbv beta iota.
  rewrite Hent. unfold AccountRepo.updateBalance. rewrite Ha.
  rewrite (decimal_exact 15 _ balance (isHundredths_ofHundredths _)).
  unfold balanceFits in Hfit. rewrite Hfit. simpl.
  unfold Account.updateBalance in Hent.
  destruct (_ && _) in Hent; [discriminate|].
  injection Hent as <-. reflexivity.
Qed.

Lemma account_service_agrees_with_entity_witness :
  (AccountService.deactivateAccount 10 "A" "u1" Scenario.db0).1
  = Ok (Account.deactivate 10 (Scenario.account "A" "u1" CHECKING 50000))
  /\ (AccountService.activateAccount 10 "A" "u1" Scenario.db0).1
     = Ok (Account.activate 10 (Scenario.account "A" "u1" CHECKING 50000))
  /\ (AccountService.updateAccountBalance 10 "A" "u1" 2500 Scenario.db0).1
     = Ok (rebalanced 10 2500 (Scenario.account "A" "u1" CHECKING 50000)).
Proof.
  destruct (account_service_agrees_with_entity 10 "A" "u1" 2500
              (Scenario.account "A" "u1" CHECKING 50000) Scenario.db0
              eq_refl eq_refl) as (Hd & Ha & Hb).
  split; [exact Hd|]. split; [exact Ha|].
  apply Hb; reflexivity.
Defined.

(** ** The category service *)

Lemma getCategory_run id userId db :
  (exists c, categories db !! id = Some c
             /\ Category.userId c = userId
             /\ CategoryService.getCategory id userId db = (Ok c, db))
  \/ (exists e, CategoryService.getCategory id userId db = (Throw e, db)).
Proof.
  unfold CategoryService.getCategory, bind, CategoryRepo.findById.
  destruct (categories db !! id) as [c|] eqn:Hc; cbv beta iota.
  - destruct (Category.isOwnedBy c userId) eqn:Ho; cbn [negb].
    + left. exists c. split; [reflexivity|].
      split; [now apply String.eqb_eq|reflexivity].
    + right. eexists. reflexivity.
  - right. eexists. reflexivity.
Qed.

(** X24.  deleteCategory changes nothing.  Its update sets userId to the
    empty string, which is the id of no user, so the row's foreign key
    refuses the write; the repository answers null and the service does
    not look at the answer.  For a stored category of the caller the call
    still returns normally, and the category stays as it was, active
    included. *)
Theorem deleteCategory_changes_nothing now id userId db :
  "" ∉ users db ->
  userId <> "" ->
  (CategoryService.deleteCategory now id userId db).2 = db
  /\ (categoryOwner db id = Some userId ->
      CategoryService.deleteCategory now id userId db = (Ok tt, db)).
Proof.
  intros Hnouser Hne.
  unfold CategoryService.deleteCategory, bind.
  destruct (getCategory_run id userId db)
    as [(c & Hc & Hu & Hrun)|(e & Hrun)]; rewrite Hrun; cbv beta iota.
  - unfold CategoryRepo.update. rewrite Hc.
    cbn [default CategoryRepo.p_userId CategoryRepo.p_name].
    unfold Datatypes.id.
    assert (String.eqb "" (Category.userId c) = false) as Hown
      by (apply String.eqb_neq; congruence).
    rewrite Hown. rewrite bool_decide_eq_false_2 by exact Hnouser.
    cbn [orb andb]. split; [reflexivity|]. intros _. reflexivity.
  - split; [reflexivity|]. unfold categoryOwner. intros Ho.
    exfalso. revert Hrun.
    unfold CategoryService.getCategory, bind, CategoryRepo.findById.
    destruct (categories db !! id) as [c|]; [|discriminate].
    injection Ho as Ho. cbv beta iota.
    rewrite (proj2 (String.eqb_eq (Category.userId c) userId) Ho
             : Category.isOwnedBy c userId = true).
    discriminate.
Qed.

Lemma deleteCategory_changes_nothing_witness :
  (CategoryService.deleteCategory 10 "c1" "u1" CategoryScenario.db).2
  = CategoryScenario.db
  /\ (categoryOwner CategoryScenario.db "c1" = Some "u1" ->
      CategoryService.deleteCategory 10 "c1" "u1" CategoryScenario.db
      = (Ok tt, CategoryScenario.db)).
Proof.
  apply (deleteCategory_changes_nothing 10 "c1" "u1" CategoryScenario.db).
  - vm_compute. discriminate.
  - discriminate.
Defined.

Lemma categoryEdit_refl id db : categoryEdit id db db.
Proof.
  repeat (split; [reflexivity|]). intros k.
  destruct (categories db !! k); [|exact I].
  split; [repeat split|auto].
Qed.

Lemma category_update_run now id data db :
  CategoryRepo.p_userId data = None ->
  CategoryRepo.p_type data = None ->
  CategoryRepo.p_isActive data = None ->
  CategoryRepo.update now id data db = (Ok None, db)
  \/ exists c c',
       categories db !! id = Some c
       /\ sameCategoryCore c c'
       /\ CategoryRepo.update now id data db
          = (Ok (Some c'), withCategories db (<[id := c']> (categories db))).
Proof.
  intros Hu Hty Hact. unfold CategoryRepo.update.
  destruct (categories db !! id) as [c|] eqn:Hc; [|left; reflexivity].
  rewrite Hu, Hty, Hact. cbn [default from_option]. unfold Datatypes.id.
  destruct (_ && _); [|left; reflexivity].
  right. eexists. eexists. split; [reflexivity|].
  split; [|reflexivity]. repeat split.
Qed.

(** X25.  updateCategory changes at most the name, icon, colour and
    updatedAt of the one category addressed: whatever it returns,
    accounts, transactions and users are as before, no category appears
    or disappears, and every category keeps its owner, type, activity and
    creation time.  A category it returns is the caller's and is the row
    now stored under the id. *)
Theorem updateCategory_frame insensitiveEquals now id userId dto db :
  categoryEdit id db
    (CategoryService.updateCategory insensitiveEquals now id userId dto db).2
  /\ (forall c' db',
        CategoryService.updateCategory insensitiveEquals now id userId dto db
        = (Ok c', db') ->
        categories db' !! id = Some c' /\ Category.userId c' = userId).
Proof.
  unfold CategoryService.updateCategory, bind.
  destruct (getCategory_run id userId db)
    as [(c & Hc & Hu & Hrun)|(e & Hrun)]; rewrite Hrun; cbv beta iota;
    [|split; [apply categoryEdit_refl|discriminate]].
  assert (forall k : unit -> Promise Category.t,
            (forall db0, db0 = db ->
               categoryEdit id db (k tt db0).2
               /\ (forall c' db',
                     k tt db0 = (Ok c', db') ->
                     categories db' !! id = Some c'
                     /\ Category.userId c' = userId)) ->
            forall m : Promise unit,
              (forall r db1, m db = (r, db1) -> db1 = db) ->
              categoryEdit id db
                (let (r, db1) := m db in
                 match r with
                 | Ok x => k x db1
                 | Throw e => (Throw e, db1)
                 end).2
              /\ (forall c' db',
                    (let (r, db1) := m db in
                     match r with
                     | Ok x => k x db1
                     | Throw e => (Throw e, db1)
                     end) = (Ok c', db') ->
                    categories db' !! id = Some c'
                    /\ Category.userId c' = userId)) as Hstep.
  { intros k Hk m Hm. destruct (m db) as [r db1] eqn:Hmdb.
    pose proof (Hm r db1 eq_refl) as ->.
    destruct r as [[]|e]; [now apply Hk|].
    split; [apply categoryEdit_refl|discriminate]. }
  apply Hstep.
  - intros db0 ->.
    destruct (category_update_run now id
                (CategoryRepo.mkPartial None (CategoryService.name dto) None
                   (Some <$> CategoryService.icon dto)
                   (Some <$> CategoryService.color dto) None) db)
      as [Hnone|(c0 & c' & Hc0 & Hcore & Hsome)]; try reflexivity.
    + rewrite Hnone. cbv beta iota.
      split; [apply categoryEdit_refl|discriminate].
    + rewrite Hsome. cbv beta iota. unfold ret. split.
      * repeat (split; [reflexivity|]). intros k. simpl.
        rewrite lookup_insert. case_decide as Hk.
        -- subst k. rewrite Hc0. split; [exact Hcore|congruence].
        -- destruct (categories db !! k); [|exact I].
           split; [repeat split|auto].
      * intros c'' db' [= <- <-]. simpl.
        split; [apply lookup_insert_eq|].
        destruct Hcore as (_ & Hown & _). congruence.
  - intros r db1.
    destruct (truthy (CategoryService.name dto)).
    + unfold bind, CategoryRepo.existsByUserIdAndName.
      destruct (0 <? _); unfold throw, ret; congruence.
    + unfold ret. congruence.
Qed.

(** ** Create followed by delete, for every type *)

(** X26.  Whatever its type, a transaction that createTransaction has
    just stored can be deleted again, and when the amount has no digit
    beyond the second and the balance column holds the balances involved,
    before and after, deleteTransaction puts every balance and the table
    of transactions back to what they were before the create.  This holds
    for income, for expense, for a transfer between two accounts and for
    a transfer from an account to itself, whose create raised the balance
    by the amount. *)
Theorem create_delete_round_trip now now' userId dto db x db1 :
  wholeHundredths dto ->
  legsFit dto db ->
  TransactionService.createTransaction now userId dto db = (Ok x, db1) ->
  exists db2,
    TransactionService.deleteTransaction now' (Transaction.id x) userId db1
    = (Ok tt, db2)
    /\ balances db2 = balances db
    /\ transactions db2 = transactions db.
Proof.
  intros Hw Hfit Hrun.
  pose proof (createTransaction_outcome now userId dto db) as Hout.
  rewrite Hrun in Hout.
  destruct Hout as (Hadm & Hb1 & Hfresh & Ht1 & Hu & Hacc & Htx & Hamt & Hxto).
  destruct (deleteTransaction_outcome now' (Transaction.id x) userId db1 x)
    as (db2 & Hdel & Ht2 & _ & _ & Hb2 & _); auto.
  { rewrite Ht1. apply lookup_insert_eq. }
  exists db2. split; [exact Hdel|]. split.
  - rewrite Hb2, Hb1.
    now apply (reversal_undoes_writes now userId dto db x).
  - rewrite Ht2, Ht1, delete_insert_eq. now apply delete_id.
Qed.

Lemma create_delete_round_trip_witness :
  exists x db1,
    TransactionService.createTransaction 10 "u1"
      (Scenario.transfer "Main" "Main" 15000) Scenario.db0 = (Ok x, db1)
    /\ balanceOf db1 "Main" = Some 115000
    /\ exists db2,
         TransactionService.deleteTransaction 20 (Transaction.id x) "u1" db1
         = (Ok tt, db2)
         /\ balances db2 = balances Scenario.db0
         /\ transactions db2 = transactions Scenario.db0.
Proof.
  eexists. eexists. split; [vm_compute; reflexivity|].
  split; [vm_compute; reflexivity|].
  apply (create_delete_round_trip 10 20 "u1"
           (Scenario.transfer "Main" "Main" 15000) Scenario.db0).
  - reflexivity.
  - apply legsFit_check. reflexivity.
  - vm_compute. reflexivity.
Defined.
